(** * Order settlement and secure download of the marketplace backend

    A shallow embedding of the two Express servers of the repository: of
    the payment server, [POST /api/payment/create] ([initiate]) and
    [POST /api/payment/webhook] ([handleCallback]); of the marketplace
    server, [POST /api/auth/register] ([register]),
    [POST /api/products/create] ([createProduct]),
    [GET /api/download/request/:productId] ([requestToken]) and
    [GET /api/download/:token] ([redeem]); and of the Firestore collections
    they share.

    Modelling conventions.
    - A JavaScript number is an IEEE 754 binary64 value: Rocq's primitive
      [float], whose operations round exactly as JavaScript's do.
    - A JavaScript string is a [string] (a sequence of bytes); text is
      identified with its UTF-8 encoding.
    - A Firestore collection is a [gmap] from document id to a record of the
      fields the handlers read or write; an optional field is an [option],
      a numeric field is the JavaScript number the handlers read and write.
      Document ids are taken to be valid Firestore ids.
    - Requests are served one at a time: a handler runs from its first
      store access to its answer before the next request starts.
    - A handler is a computation in the monad [M]: it threads the store and a
      trace of the store accesses and external calls it makes, and may throw;
      [try_catch] is the handler's [try { ... } catch (err) { ... }].
    - Whatever the process cannot decide itself is an input of the handler:
      the server timestamp, the wall clock, the random identifiers and the
      reply of the payment gateway. The environment variables and the
      library functions ([crypto], [JSON.parse]) come with a [Runtime]. *)

From Stdlib Require Import Floats ZArith String Ascii List Bool.
From stdpp Require Import gmap strings list fin_maps.
Import ListNotations.

Set Warnings "-register-all".
Local Open Scope string_scope.
Local Open Scope Z_scope.

(* ===================================================================== *)
(** ** JavaScript values *)
(* ===================================================================== *)

(** A value as [JSON.parse] returns it, or [undefined]. The fields of [JObj]
    are the object's own properties, one entry per key. *)
Inductive json : Type :=
| JUndefined
| JNull
| JBool (b : bool)
| JNum (f : float)
| JStr (s : string)
| JArr (xs : list json)
| JObj (fields : list (string * json)).

(** ToBoolean on a number: [0], [-0] and [NaN] are falsy. *)
Definition number_truthy (f : float) : bool :=
  negb (PrimFloat.eqb f 0%float || PrimFloat.is_nan f).

(** ToBoolean on a string: only the empty string is falsy. *)
Definition string_truthy (s : string) : bool :=
  negb (String.eqb s "").

Definition truthy (v : json) : bool :=
  match v with
  | JUndefined | JNull => false
  | JBool b => b
  | JNum f => number_truthy f
  | JStr s => string_truthy s
  | JArr _ | JObj _ => true
  end.

(** ToBoolean on a header or body field: [undefined] or a string. *)
Definition opt_truthy (o : option string) : bool :=
  match o with
  | Some s => string_truthy s
  | None => false
  end.

(** The string behind a field known to be one. *)
Definition text (x : option string) : string :=
  match x with
  | Some s => s
  | None => ""
  end.

Fixpoint assoc (k : string) (fields : list (string * json)) : option json :=
  match fields with
  | [] => None
  | (k', v) :: rest => if String.eqb k k' then Some v else assoc k rest
  end.

(** [v?.k] for a property name [k] that no prototype defines. *)
Definition get_prop (v : json) (k : string) : json :=
  match v with
  | JObj fields => match assoc k fields with Some x => x | None => JUndefined end
  | _ => JUndefined
  end.

(** [v === "s"]. *)
Definition is_string (v : json) (s : string) : bool :=
  match v with
  | JStr s' => String.eqb s' s
  | _ => false
  end.

(** A numeric document field that may be absent or [null]. *)
Inductive numfield : Type :=
| FAbsent
| FNull
| FNum (f : float).

(** [x || d] for such a field. *)
Definition num_or (x : numfield) (d : float) : float :=
  match x with
  | FNum f => if number_truthy f then f else d
  | _ => d
  end.

(* ===================================================================== *)
(** ** Documents and the store *)
(* ===================================================================== *)

(** [orders/{orderId}] *)
Record Order := mkOrder {
  o_orderId : string;
  o_buyerId : string;
  o_sellerId : string;
  o_productId : string;
  o_amount : float;
  o_status : string;
  o_platformFee : option float;
  o_sellerEarning : option float;
  o_createdAt : Z;
  o_completedAt : option Z;
  o_failedAt : option Z
}.

(** [users/{uid}] *)
Record User := mkUser {
  u_uid : string;
  u_email : string;
  u_fullName : string;
  u_role : string;
  u_phone : option string;
  u_walletBalance : float;
  u_totalEarnings : float;
  u_wishlist : list string;
  u_purchases : list string;
  u_status : string;
  u_createdAt : Z
}.

(** [products/{id}] *)
Record Product := mkProduct {
  p_title : string;
  p_description : string;
  p_price : float;
  p_discountPrice : numfield;
  p_category : string;
  p_thumbnailUrl : option string;
  p_youtubeLink : option string;
  p_demoLink : option string;
  p_downloadLink : option string;
  p_sellerId : string;
  p_status : string;
  p_clicks : float;
  p_sales : float;
  p_rating : float;
  p_createdAt : Z
}.

(** [download_tokens/{token}] *)
Record DownloadToken := mkDownloadToken {
  t_token : string;
  t_userId : string;
  t_productId : string;
  t_decryptedLink : string;
  t_used : bool;
  t_expiresAt : Z;
  t_createdAt : Z;
  t_usedAt : option Z
}.

(** [config/app_config] *)
Record Config := mkConfig {
  c_commissionRate : numfield
}.

Record Store := mkStore {
  orders : gmap string Order;
  users : gmap string User;
  products : gmap string Product;
  download_tokens : gmap string DownloadToken;
  fcm_tokens : gmap string string;
  config : gmap string Config
}.

Definition empty_store : Store := mkStore ∅ ∅ ∅ ∅ ∅ ∅.

Definition with_orders (f : gmap string Order -> gmap string Order) (s : Store) : Store :=
  mkStore (f (orders s)) (users s) (products s) (download_tokens s) (fcm_tokens s) (config s).

Definition with_users (f : gmap string User -> gmap string User) (s : Store) : Store :=
  mkStore (orders s) (f (users s)) (products s) (download_tokens s) (fcm_tokens s) (config s).

Definition with_products (f : gmap string Product -> gmap string Product) (s : Store) : Store :=
  mkStore (orders s) (users s) (f (products s)) (download_tokens s) (fcm_tokens s) (config s).

Definition with_download_tokens
    (f : gmap string DownloadToken -> gmap string DownloadToken) (s : Store) : Store :=
  mkStore (orders s) (users s) (products s) (f (download_tokens s)) (fcm_tokens s) (config s).

(* ===================================================================== *)
(** ** The handler monad *)
(* ===================================================================== *)

(** The order sent to the payment gateway ([Cashfree.PGCreateOrder]). *)
Record CashfreeOrderPayload := mkPayload {
  order_id : string;
  order_amount : float;
  order_currency : string;
  customer_id : string;
  customer_email : string;
  customer_phone : string;
  customer_name : string;
  return_url : string;
  notify_url : string
}.

(** What the gateway call does: it throws with a message, or returns a
    response whose [data] carries the payment session. *)
Record CashfreeOrder := mkCashfreeOrder {
  payment_session_id : option string
}.

Inductive GatewayReply : Type :=
| GwThrows (errMsg : string)
| GwReturns (data : option CashfreeOrder).

Inductive Notice : Type :=
| NewSale
| PurchaseConfirmed
| PaymentFailed
| NewProductUploaded.

(** What a handler does to the outside, in order. *)
Inductive Event : Type :=
| EvGet (collection id : string)
| EvQuery (collection : string)
| EvSet (collection id : string)
| EvUpdate (collection id : string)
| EvCommit (targets : list (string * string))
| EvGateway (payload : CashfreeOrderPayload)
| EvPush (token : string) (notice : Notice).

Definition is_write (e : Event) : bool :=
  match e with
  | EvSet _ _ | EvUpdate _ _ | EvCommit _ => true
  | _ => false
  end.

Definition is_read (e : Event) : bool :=
  match e with
  | EvGet _ _ | EvQuery _ => true
  | _ => false
  end.

Inductive Exn : Type :=
| TypeError
| SyntaxError
| NotFound (collection id : string)
| CipherError.

Record World := mkWorld {
  store : Store;
  trace : list Event
}.

Inductive Result (A : Type) : Type :=
| Ok (a : A)
| Throw (e : Exn).
Arguments Ok {A} a.
Arguments Throw {A} e.

Definition M (A : Type) : Type := World -> Result A * World.

Definition ret {A} (a : A) : M A := fun w => (Ok a, w).

Definition throw {A} (e : Exn) : M A := fun w => (Throw e, w).

Definition bind {A B} (m : M A) (k : A -> M B) : M B :=
  fun w =>
    match m w with
    | (Ok a, w') => k a w'
    | (Throw e, w') => (Throw e, w')
    end.

Definition try_catch {A} (m : M A) (handler : Exn -> M A) : M A :=
  fun w =>
    match m w with
    | (Ok a, w') => (Ok a, w')
    | (Throw e, w') => handler e w'
    end.

Notation "x <- m ;; k" := (bind m (fun x => k))
  (at level 62, m at next level, right associativity).
Notation "m ;;; k" := (bind m (fun _ => k))
  (at level 62, right associativity).

Definition emit (e : Event) : M unit :=
  fun w => (Ok tt, mkWorld (store w) (trace w ++ [e])).

Definition read {A} (f : Store -> A) : M A :=
  fun w => (Ok (f (store w)), w).

Definition modify (f : Store -> Store) : M unit :=
  fun w => (Ok tt, mkWorld (f (store w)) (trace w)).

(* ===================================================================== *)
(** ** Firestore operations *)
(* ===================================================================== *)

(** [db.collection(c).doc(id).get()]: [None] when [!doc.exists]. *)
Definition get_doc {D} (c : string) (coll : Store -> gmap string D) (id : string)
    : M (option D) :=
  emit (EvGet c id) ;;; read (fun s => coll s !! id).

(** [.doc(x)] throws unless [x] is a string. *)
Definition doc_id (v : json) : M string :=
  match v with
  | JStr s => ret s
  | _ => throw TypeError
  end.

(** The conjunction of the three [where] clauses of the purchase queries. *)
Definition completed_for (uid pid : string) (o : Order) : bool :=
  String.eqb (o_buyerId o) uid && String.eqb (o_productId o) pid
  && String.eqb (o_status o) "completed".

Definition has_completed (s : Store) (uid pid : string) : bool :=
  existsb (fun kv => completed_for uid pid (snd kv)) (map_to_list (orders s)).

(** [orders.where(buyerId).where(productId).where(status).limit(1).get()],
    returning [snapshot.empty]. *)
Definition query_completed_empty (uid pid : string) : M bool :=
  emit (EvQuery "orders") ;;; read (fun s => negb (has_completed s uid pid)).

(** [ref.set(doc)] on [orders]. *)
Definition set_order (id : string) (o : Order) : M unit :=
  emit (EvSet "orders" id) ;;; modify (with_orders (insert id o)).

(** [ref.update(fields)] on [orders]: fails when the document is missing. *)
Definition update_order (id : string) (f : Order -> Order) : M unit :=
  o <- read (fun s => orders s !! id) ;;
  match o with
  | None => throw (NotFound "orders" id)
  | Some _ => emit (EvUpdate "orders" id) ;;; modify (with_orders (alter f id))
  end.

(** One [batch.update(ref, fields)] of a write batch. *)
Inductive BatchUpdate : Type :=
| WOrder (id : string) (f : Order -> Order)
| WUser (id : string) (f : User -> User)
| WProduct (id : string) (f : Product -> Product).

Definition write_target (w : BatchUpdate) : string * string :=
  match w with
  | WOrder id _ => ("orders", id)
  | WUser id _ => ("users", id)
  | WProduct id _ => ("products", id)
  end.

Definition has_doc {D} (m : gmap string D) (id : string) : bool :=
  match m !! id with
  | Some _ => true
  | None => false
  end.

Definition write_exists (s : Store) (w : BatchUpdate) : bool :=
  match w with
  | WOrder id _ => has_doc (orders s) id
  | WUser id _ => has_doc (users s) id
  | WProduct id _ => has_doc (products s) id
  end.

Definition apply_write (s : Store) (w : BatchUpdate) : Store :=
  match w with
  | WOrder id f => with_orders (alter f id) s
  | WUser id f => with_users (alter f id) s
  | WProduct id f => with_products (alter f id) s
  end.

Definition first_missing (s : Store) (ws : list BatchUpdate) : option (string * string) :=
  match List.filter (fun w => negb (write_exists s w)) ws with
  | [] => None
  | w :: _ => Some (write_target w)
  end.

(** [batch.commit()]: every update needs its document; the writes apply
    together, in the order they were added, or not at all. *)
Definition commit (ws : list BatchUpdate) : M unit :=
  missing <- read (fun s => first_missing s ws) ;;
  match missing with
  | Some (c, id) => throw (NotFound c id)
  | None =>
      emit (EvCommit (List.map write_target ws)) ;;;
      modify (fun s => fold_left apply_write ws s)
  end.

(** [FieldValue.arrayUnion(x)] *)
Definition arrayUnion (l : list string) (x : string) : list string :=
  if existsb (String.eqb x) l then l else l ++ [x].

(** [tokenDoc.exists ? tokenDoc.data().token || null : null] *)
Definition fcm_token_of (tokenDoc : option string) : option string :=
  match tokenDoc with
  | Some t => if string_truthy t then Some t else None
  | None => None
  end.

(** [getUserFCMToken] of lib/firebase. *)
Definition getUserFCMToken (userId : string) : M (option string) :=
  tokenDoc <- get_doc "fcm_tokens" fcm_tokens userId ;;
  ret (fcm_token_of tokenDoc).

(** The push [sendFCM] makes: none without a token. *)
Definition push_of (token : option string) (n : Notice) : list Event :=
  match token with
  | Some t => [EvPush t n]
  | None => []
  end.

(** [sendFCM] of lib/firebase: nothing without a token; a delivery failure
    is logged and swallowed. *)
Definition sendFCM (token : option string) (n : Notice) : M unit :=
  match token with
  | None => ret tt
  | Some t => emit (EvPush t n)
  end.

(* ===================================================================== *)
(** ** Responses and the process environment *)
(* ===================================================================== *)

Inductive Body : Type :=
| BError (error : string)
| BStatus (status : string)
| BStatusError (err : Exn)
| BSession (paymentSessionId : option string) (orderId : string)
| BProductCreated (productId : string)
| BUserCreated (uid : string)
| BToken (token : string)
| BRedirect (location : string).

Record Response := mkResponse {
  code : nat;
  body : Body
}.

(** [process.env] and the libraries the handlers call. [JSON_parse] is [None]
    where [JSON.parse] throws; the cipher functions take key, iv and text and
    are [None] where the [crypto] call throws. *)
Record Runtime := mkRuntime {
  CASHFREE_SECRET_KEY : option string;
  ENCRYPT_KEY : option string;
  FRONTEND_URL : option string;
  BACKEND_URL : option string;
  ADMIN_EMAIL : option string;
  hmac_sha256_base64 : string -> string -> string;
  JSON_parse : string -> option json;
  aes_256_cbc_encrypt : string -> string -> string -> option string;
  aes_256_cbc_decrypt : string -> string -> string -> option string
}.

(** [`${x}`] of an environment variable. *)
Definition env_str (x : option string) : string :=
  match x with
  | Some s => s
  | None => "undefined"
  end.

Definition json_response (c : nat) (b : Body) : M Response :=
  ret (mkResponse c b).

(* ===================================================================== *)
(** ** The payment server *)
(* ===================================================================== *)

(** [s.replace(/-/g, "")] *)
Fixpoint remove_dashes (s : string) : string :=
  match s with
  | EmptyString => EmptyString
  | String c rest =>
      if Ascii.eqb c "-"%char then remove_dashes rest
      else String c (remove_dashes rest)
  end.

Definition upper_char (c : ascii) : ascii :=
  let n := nat_of_ascii c in
  if ((97 <=? n) && (n <=? 122))%nat then ascii_of_nat (n - 32) else c.

(** [s.toUpperCase()], on ASCII text. *)
Fixpoint toUpperCase (s : string) : string :=
  match s with
  | EmptyString => EmptyString
  | String c rest => String (upper_char c) (toUpperCase rest)
  end.

(** ["ORD_" + uuidv4().replace(/-/g, "").slice(0, 20).toUpperCase()] *)
Definition make_orderId (uuid : string) : string :=
  "ORD_" +:+ toUpperCase (String.substring 0 20 (remove_dashes uuid)).

Section PaymentServer.

Variable rt : Runtime.

(** The gateway order of [POST /api/payment/create]. *)
Definition cashfreeOrderPayload (uid pid orderId : string) (orderAmount : float)
    (buyer : User) : CashfreeOrderPayload :=
  {| order_id := orderId;
     order_amount := orderAmount;
     order_currency := "INR";
     customer_id := uid;
     customer_email := u_email buyer;
     customer_phone :=
       (if opt_truthy (u_phone buyer) then text (u_phone buyer) else "9999999999");
     customer_name := u_fullName buyer;
     return_url :=
       env_str (FRONTEND_URL rt) +:+ "/user.html?payment=success&product="
         +:+ pid +:+ "&order=" +:+ orderId;
     notify_url := env_str (BACKEND_URL rt) +:+ "/api/payment/webhook" |}.

(** The document [POST /api/payment/create] persists. *)
Definition pending_order (uid pid orderId : string) (orderAmount : float)
    (product : Product) (ts : Z) : Order :=
  {| o_orderId := orderId;
     o_buyerId := uid;
     o_sellerId := p_sellerId product;
     o_productId := pid;
     o_amount := orderAmount;
     o_status := "pending";
     o_platformFee := None;
     o_sellerEarning := None;
     o_createdAt := ts;
     o_completedAt := None;
     o_failedAt := None |}.

(** [product.discountPrice || product.price] *)
Definition orderAmount_of (product : Product) : float :=
  num_or (p_discountPrice product) (p_price product).

(** [POST /api/payment/create], behind [authenticateUser]: [uid] is
    [req.user.uid], [productId] is [req.body.productId], [uuid] is what
    [uuidv4()] returns, [gw] is what the gateway call does and [ts] is the
    server timestamp. *)
Definition initiate (uid : string) (productId : json) (uuid : string)
    (gw : GatewayReply) (ts : Z) : M Response :=
  try_catch
    (if negb (truthy productId) then
       json_response 400 (BError "productId is required")
     else
       pid <- doc_id productId ;;
       productDoc <- get_doc "products" products pid ;;
       buyerDoc <- get_doc "users" users uid ;;
       match productDoc, buyerDoc with
       | None, _ => json_response 404 (BError "Product not found")
       | Some _, None => json_response 404 (BError "Buyer account not found")
       | Some product, Some buyer =>
           if negb (String.eqb (p_status product) "approved") then
             json_response 400 (BError "This product is not available for purchase")
           else
             existingOrder_empty <- query_completed_empty uid pid ;;
             if negb existingOrder_empty then
               json_response 409 (BError "You have already purchased this product")
             else
               let orderAmount := orderAmount_of product in
               let orderId := make_orderId uuid in
               emit (EvGateway (cashfreeOrderPayload uid pid orderId orderAmount buyer)) ;;;
               match gw with
               | GwThrows errMsg =>
                   json_response 502 (BError ("Payment gateway error: " +:+ errMsg))
               | GwReturns cashfreeOrder =>
                   set_order orderId (pending_order uid pid orderId orderAmount product ts) ;;;
                   match cashfreeOrder with
                   | None => throw TypeError
                   | Some cf => json_response 201 (BSession (payment_session_id cf) orderId)
                   end
               end
       end)
    (fun _ => json_response 500 (BError "Failed to create payment order")).

(** The commission rate of the settlement:
    [configDoc.exists ? configDoc.data().commissionRate || 10 : 10]. *)
Definition commissionRate_of (configDoc : option Config) : float :=
  match configDoc with
  | Some c => num_or (c_commissionRate c) 10%float
  | None => 10%float
  end.

Definition platformFee_of (amount commissionRate : float) : float :=
  PrimFloat.mul amount (PrimFloat.div commissionRate 100%float).

Definition sellerEarning_of (amount platformFee : float) : float :=
  PrimFloat.sub amount platformFee.

(** The fields of the four [batch.update] calls. *)
Definition complete_order (platformFee sellerEarning : float) (ts : Z) (o : Order) : Order :=
  {| o_orderId := o_orderId o;
     o_buyerId := o_buyerId o;
     o_sellerId := o_sellerId o;
     o_productId := o_productId o;
     o_amount := o_amount o;
     o_status := "completed";
     o_platformFee := Some platformFee;
     o_sellerEarning := Some sellerEarning;
     o_createdAt := o_createdAt o;
     o_completedAt := Some ts;
     o_failedAt := o_failedAt o |}.

Definition credit_seller (sellerEarning : float) (u : User) : User :=
  {| u_uid := u_uid u;
     u_email := u_email u;
     u_fullName := u_fullName u;
     u_role := u_role u;
     u_phone := u_phone u;
     u_walletBalance := PrimFloat.add (u_walletBalance u) sellerEarning;
     u_totalEarnings := PrimFloat.add (u_totalEarnings u) sellerEarning;
     u_wishlist := u_wishlist u;
     u_purchases := u_purchases u;
     u_status := u_status u;
     u_createdAt := u_createdAt u |}.

Definition count_sale (p : Product) : Product :=
  {| p_title := p_title p;
     p_description := p_description p;
     p_price := p_price p;
     p_discountPrice := p_discountPrice p;
     p_category := p_category p;
     p_thumbnailUrl := p_thumbnailUrl p;
     p_youtubeLink := p_youtubeLink p;
     p_demoLink := p_demoLink p;
     p_downloadLink := p_downloadLink p;
     p_sellerId := p_sellerId p;
     p_status := p_status p;
     p_clicks := p_clicks p;
     p_sales := PrimFloat.add (p_sales p) 1%float;
     p_rating := p_rating p;
     p_createdAt := p_createdAt p |}.

Definition add_purchase (productId : string) (u : User) : User :=
  {| u_uid := u_uid u;
     u_email := u_email u;
     u_fullName := u_fullName u;
     u_role := u_role u;
     u_phone := u_phone u;
     u_walletBalance := u_walletBalance u;
     u_totalEarnings := u_totalEarnings u;
     u_wishlist := u_wishlist u;
     u_purchases := arrayUnion (u_purchases u) productId;
     u_status := u_status u;
     u_createdAt := u_createdAt u |}.

Definition fail_order (ts : Z) (o : Order) : Order :=
  {| o_orderId := o_orderId o;
     o_buyerId := o_buyerId o;
     o_sellerId := o_sellerId o;
     o_productId := o_productId o;
     o_amount := o_amount o;
     o_status := "failed";
     o_platformFee := o_platformFee o;
     o_sellerEarning := o_sellerEarning o;
     o_createdAt := o_createdAt o;
     o_completedAt := o_completedAt o;
     o_failedAt := Some ts |}.

(** The four [batch.update] calls of the settlement, in source order. *)
Definition settlement_writes (orderId : string) (order : Order)
    (commissionRate : float) (ts : Z) : list BatchUpdate :=
  let amount := o_amount order in
  let platformFee := platformFee_of amount commissionRate in
  let sellerEarning := sellerEarning_of amount platformFee in
  [ WOrder orderId (complete_order platformFee sellerEarning ts);
    WUser (o_sellerId order) (credit_seller sellerEarning);
    WProduct (o_productId order) count_sale;
    WUser (o_buyerId order) (add_purchase (o_productId order)) ].

(** The [SUCCESS] branch of the webhook, below its idempotency check: the
    commission, the write batch and the two notifications. *)
Definition settle (orderId : string) (order : Order) (ts : Z) : M unit :=
  configDoc <- get_doc "config" config "app_config" ;;
  let commissionRate := commissionRate_of configDoc in
  commit (settlement_writes orderId order commissionRate ts) ;;;
  sellerToken <- getUserFCMToken (o_sellerId order) ;;
  sendFCM sellerToken NewSale ;;;
  buyerToken <- getUserFCMToken (o_buyerId order) ;;
  sendFCM buyerToken PurchaseConfirmed.

(** The [FAILED] branch of the webhook, below its guard. *)
Definition mark_failed (orderId : string) (order : Order) (ts : Z) : M unit :=
  update_order orderId (fail_order ts) ;;;
  buyerToken <- getUserFCMToken (o_buyerId order) ;;
  sendFCM buyerToken PaymentFailed.

(** [crypto.createHmac("sha256", key).update(payload).digest("base64")];
    [createHmac] throws on an undefined key. *)
Definition createHmac_digest (payload : string) : M string :=
  match CASHFREE_SECRET_KEY rt with
  | None => throw TypeError
  | Some key => ret (hmac_sha256_base64 rt key payload)
  end.

Definition parse_event (rawBody : string) : M json :=
  match JSON_parse rt rawBody with
  | None => throw SyntaxError
  | Some v => ret v
  end.

(** The webhook from the order lookup on: [paymentStatus] and [oid] are
    the event's payment status and order id. *)
Definition process_order (paymentStatus : json) (oid : string) (ts : Z) : M Response :=
  orderDoc <- get_doc "orders" orders oid ;;
  match orderDoc with
  | None => json_response 200 (BStatus "order_not_found")
  | Some order =>
      if is_string paymentStatus "SUCCESS" then
        if String.eqb (o_status order) "completed" then
          json_response 200 (BStatus "already_completed")
        else
          settle oid order ts ;;;
          json_response 200 (BStatus "ok")
      else if is_string paymentStatus "FAILED" then
        (if negb (String.eqb (o_status order) "completed")
         then mark_failed oid order ts
         else ret tt) ;;;
        json_response 200 (BStatus "ok")
      else
        json_response 200 (BStatus "ok")
  end.

Definition event_paymentStatus (event : json) : json :=
  get_prop (get_prop (get_prop event "data") "payment") "payment_status".

Definition event_orderId (event : json) : json :=
  get_prop (get_prop (get_prop event "data") "order") "order_id".

(** [POST /api/payment/webhook]: [rawBody] is the request body as text,
    [signature] and [timestamp] are the [x-webhook-signature] and
    [x-webhook-timestamp] headers, [ts] is the server timestamp. *)
Definition handleCallback (rawBody : string) (signature timestamp : option string)
    (ts : Z) : M Response :=
  try_catch
    (if negb (opt_truthy signature) || negb (opt_truthy timestamp) then
       json_response 200 (BStatus "signature_missing")
     else
       let signedPayload := text timestamp +:+ rawBody in
       expectedSignature <- createHmac_digest signedPayload ;;
       if negb (String.eqb expectedSignature (text signature)) then
         json_response 200 (BStatus "invalid_signature")
       else
         event <- parse_event rawBody ;;
         let paymentStatus := event_paymentStatus event in
         let orderId := event_orderId event in
         if negb (truthy orderId) then
           json_response 200 (BStatus "missing_order_id")
         else
           oid <- doc_id orderId ;;
           process_order paymentStatus oid ts)
    (fun err => json_response 200 (BStatusError err)).

End PaymentServer.

(* ===================================================================== *)
(** ** The marketplace server: link cipher *)
(* ===================================================================== *)

Definition hex_digit (n : nat) : ascii :=
  match n with
  | 0 => "0" | 1 => "1" | 2 => "2" | 3 => "3" | 4 => "4" | 5 => "5" | 6 => "6"
  | 7 => "7" | 8 => "8" | 9 => "9" | 10 => "a" | 11 => "b" | 12 => "c"
  | 13 => "d" | 14 => "e" | _ => "f"
  end%nat%char.

Definition hex_value (c : ascii) : option nat :=
  let n := nat_of_ascii c in
  if ((48 <=? n) && (n <=? 57))%nat then Some (n - 48)%nat
  else if ((97 <=? n) && (n <=? 102))%nat then Some (n - 87)%nat
  else if ((65 <=? n) && (n <=? 70))%nat then Some (n - 55)%nat
  else None.

(** [buf.toString("hex")] *)
Fixpoint to_hex (s : string) : string :=
  match s with
  | EmptyString => EmptyString
  | String c rest =>
      let n := nat_of_ascii c in
      String (hex_digit (n / 16)) (String (hex_digit (n mod 16)) (to_hex rest))
  end.

(** [Buffer.from(s, "hex")]: decoding stops at the first pair that is not
    two hexadecimal digits. *)
Fixpoint from_hex (s : string) : string :=
  match s with
  | String h (String l rest) =>
      match hex_value h, hex_value l with
      | Some a, Some b => String (ascii_of_nat (16 * a + b)) (from_hex rest)
      | _, _ => EmptyString
      end
  | _ => EmptyString
  end.

(** [s.split(sep)] for a one-character separator. *)
Fixpoint split_on (sep : ascii) (s : string) : list string :=
  match s with
  | EmptyString => [EmptyString]
  | String c rest =>
      if Ascii.eqb c sep then EmptyString :: split_on sep rest
      else match split_on sep rest with
           | part :: parts => String c part :: parts
           | [] => [String c EmptyString]
           end
  end.

Section LinkCipher.

Variable rt : Runtime.

(** [Buffer.from(process.env.ENCRYPT_KEY, "utf8").slice(0, 32)] *)
Definition cipher_key : M string :=
  match ENCRYPT_KEY rt with
  | None => throw TypeError
  | Some k => ret (String.substring 0 32 k)
  end.

(** [encryptLink]; [iv] is what [crypto.randomBytes(16)] returns. *)
Definition encryptLink (plainText iv : string) : M string :=
  key <- cipher_key ;;
  match aes_256_cbc_encrypt rt key iv plainText with
  | None => throw CipherError
  | Some encrypted => ret (to_hex iv +:+ ":" +:+ to_hex encrypted)
  end.

(** [decryptLink] *)
Definition decryptLink (encryptedText : string) : M string :=
  match split_on ":" encryptedText with
  | ivHex :: parts =>
      key <- cipher_key ;;
      let iv := from_hex ivHex in
      match parts with
      | encrypted :: _ =>
          match aes_256_cbc_decrypt rt key iv (from_hex encrypted) with
          | None => throw CipherError
          | Some decrypted => ret decrypted
          end
      | [] => throw TypeError
      end
  | [] => throw TypeError
  end.

End LinkCipher.

(* ===================================================================== *)
(** ** The marketplace server: accounts, products and downloads *)
(* ===================================================================== *)

(** The fields [POST /api/auth/register] reads from the request body. *)
Record RegisterBody := mkRegisterBody {
  rb_uid : option string;
  rb_email : option string;
  rb_fullName : option string;
  rb_role : option string
}.

(** The fields [POST /api/products/create] reads from the request body;
    prices are JSON numbers, on which [parseFloat] is the identity. *)
Record ProductBody := mkProductBody {
  pb_title : option string;
  pb_description : option string;
  pb_price : numfield;
  pb_discountPrice : numfield;
  pb_category : option string;
  pb_thumbnailUrl : option string;
  pb_youtubeLink : option string;
  pb_demoLink : option string;
  pb_downloadLink : option string
}.

Definition num_truthy (x : numfield) : bool :=
  match x with
  | FNum f => number_truthy f
  | _ => false
  end.

(** [parseFloat(x)] of a body field; the identity on the truthy numbers the
    handlers pass to it. *)
Definition parseFloat (x : numfield) : float :=
  match x with
  | FNum f => f
  | _ => nan
  end.

(** [x || null] of an optional string. *)
Definition or_null (x : option string) : option string :=
  if opt_truthy x then x else None.

Definition set_token (id : string) (t : DownloadToken) : M unit :=
  emit (EvSet "download_tokens" id) ;;; modify (with_download_tokens (insert id t)).

Definition update_token (id : string) (f : DownloadToken -> DownloadToken) : M unit :=
  t <- read (fun s => download_tokens s !! id) ;;
  match t with
  | None => throw (NotFound "download_tokens" id)
  | Some _ =>
      emit (EvUpdate "download_tokens" id) ;;; modify (with_download_tokens (alter f id))
  end.

Definition use_token (ts : Z) (t : DownloadToken) : DownloadToken :=
  {| t_token := t_token t;
     t_userId := t_userId t;
     t_productId := t_productId t;
     t_decryptedLink := t_decryptedLink t;
     t_used := true;
     t_expiresAt := t_expiresAt t;
     t_createdAt := t_createdAt t;
     t_usedAt := Some ts |}.

(** [uuidv4() + "-" + crypto.randomBytes(16).toString("hex")] *)
Definition make_token (uuid rnd : string) : string :=
  uuid +:+ "-" +:+ to_hex rnd.

(** The document [GET /api/download/request/:productId] persists. *)
Definition new_token (uid productId token decryptedLink : string) (now ts : Z)
    : DownloadToken :=
  {| t_token := token;
     t_userId := uid;
     t_productId := productId;
     t_decryptedLink := decryptedLink;
     t_used := false;
     t_expiresAt := now + 10 * 60 * 1000;
     t_createdAt := ts;
     t_usedAt := None |}.

(** The document [POST /api/products/create] persists. *)
Definition productData (uid : string) (b : ProductBody) (encryptedLink : string) (ts : Z)
    : Product :=
  {| p_title := text (pb_title b);
     p_description := text (pb_description b);
     p_price := parseFloat (pb_price b);
     p_discountPrice :=
       (if num_truthy (pb_discountPrice b)
        then FNum (parseFloat (pb_discountPrice b)) else FNull);
     p_category := text (pb_category b);
     p_thumbnailUrl := or_null (pb_thumbnailUrl b);
     p_youtubeLink := or_null (pb_youtubeLink b);
     p_demoLink := or_null (pb_demoLink b);
     p_downloadLink := Some encryptedLink;
     p_sellerId := uid;
     p_status := "approved";
     p_clicks := 0%float;
     p_sales := 0%float;
     p_rating := 5%float;
     p_createdAt := ts |}.

(** The document [POST /api/auth/register] persists. *)
Definition userData (b : RegisterBody) (ts : Z) : User :=
  {| u_uid := text (rb_uid b);
     u_email := text (rb_email b);
     u_fullName := text (rb_fullName b);
     u_role := text (rb_role b);
     u_phone := None;
     u_walletBalance := 0%float;
     u_totalEarnings := 0%float;
     u_wishlist := [];
     u_purchases := [];
     u_status := "active";
     u_createdAt := ts |}.

Section MarketplaceServer.

Variable rt : Runtime.

(** [POST /api/auth/register] *)
Definition register (b : RegisterBody) (ts : Z) : M Response :=
  try_catch
    (if negb (opt_truthy (rb_uid b)) || negb (opt_truthy (rb_email b))
        || negb (opt_truthy (rb_fullName b)) || negb (opt_truthy (rb_role b)) then
       json_response 400 (BError "Missing required fields: uid, email, fullName, role")
     else if negb (String.eqb (text (rb_role b)) "buyer"
                   || String.eqb (text (rb_role b)) "seller") then
       json_response 400 (BError "Role must be 'buyer' or 'seller'")
     else
       existingUser <- get_doc "users" users (text (rb_uid b)) ;;
       match existingUser with
       | Some _ => json_response 409 (BError "User already exists")
       | None =>
           emit (EvSet "users" (text (rb_uid b))) ;;;
           modify (with_users (insert (text (rb_uid b)) (userData b ts))) ;;;
           json_response 201 (BUserCreated (text (rb_uid b)))
       end)
    (fun _ => json_response 500 (BError "Failed to register user")).

(** [POST /api/products/create], behind [authenticateUser]; [iv] is the
    cipher's random vector and [newId] the id [add] generates. *)
Definition createProduct (uid : string) (b : ProductBody) (iv newId : string) (ts : Z)
    : M Response :=
  try_catch
    (userDoc <- get_doc "users" users uid ;;
     match userDoc with
     | None => json_response 403 (BError "Only sellers can create products")
     | Some user =>
         if negb (String.eqb (u_role user) "seller") then
           json_response 403 (BError "Only sellers can create products")
         else if negb (opt_truthy (pb_title b)) || negb (opt_truthy (pb_description b))
                 || negb (num_truthy (pb_price b)) || negb (opt_truthy (pb_category b))
                 || negb (opt_truthy (pb_downloadLink b)) then
           json_response 400
             (BError "Missing required fields: title, description, price, category, downloadLink")
         else
           encryptedLink <- encryptLink rt (text (pb_downloadLink b)) iv ;;
           emit (EvSet "products" newId) ;;;
           modify (with_products (insert newId (productData uid b encryptedLink ts))) ;;;
           adminToken <- match ADMIN_EMAIL rt with
                         | Some a => getUserFCMToken a
                         | None => ret None
                         end ;;
           sendFCM adminToken NewProductUploaded ;;;
           json_response 201 (BProductCreated newId)
     end)
    (fun _ => json_response 500 (BError "Failed to create product")).

(** [GET /api/download/request/:productId], behind [authenticateUser];
    [uuid] and [rnd] are what [uuidv4()] and [crypto.randomBytes(16)]
    return, [now] is [Date.now()] and [ts] the server timestamp. *)
Definition requestToken (uid productId uuid rnd : string) (now ts : Z) : M Response :=
  try_catch
    (orderSnapshot_empty <- query_completed_empty uid productId ;;
     if orderSnapshot_empty then
       json_response 403 (BError "Purchase required to download this product")
     else
       productDoc <- get_doc "products" products productId ;;
       match productDoc with
       | None => json_response 404 (BError "Product not found")
       | Some product =>
           if negb (opt_truthy (p_downloadLink product)) then
             json_response 500 (BError "Product download link is not configured")
           else
             decryptedLink <- decryptLink rt (text (p_downloadLink product)) ;;
             let token := make_token uuid rnd in
             set_token token (new_token uid productId token decryptedLink now ts) ;;;
             json_response 200 (BToken token)
       end)
    (fun _ => json_response 500 (BError "Failed to generate download token")).

(** [GET /api/download/:token]; [now] is [new Date()] and [ts] the server
    timestamp. *)
Definition redeem (token : string) (now ts : Z) : M Response :=
  try_catch
    (tokenDoc <- get_doc "download_tokens" download_tokens token ;;
     match tokenDoc with
     | None => json_response 404 (BError "Download token not found")
     | Some tokenData =>
         if t_used tokenData then
           json_response 410 (BError "This download link has already been used")
         else if t_expiresAt tokenData <? now then
           json_response 410 (BError "Download link has expired")
         else
           update_token token (use_token ts) ;;;
           json_response 302 (BRedirect (t_decryptedLink tokenData))
     end)
    (fun _ => json_response 500 (BError "Failed to process download")).

End MarketplaceServer.

(* ===================================================================== *)
(** ** The two servers over one store *)
(* ===================================================================== *)

(** A request to either server, with the inputs of its handler. *)
Inductive Request : Type :=
| ReqRegister (b : RegisterBody)
| ReqCreateProduct (uid : string) (b : ProductBody) (iv newId : string)
| ReqInitiate (uid : string) (productId : json) (uuid : string) (gw : GatewayReply)
| ReqCallback (rawBody : string) (signature timestamp : option string)
| ReqRequestToken (uid productId uuid rnd : string) (now : Z)
| ReqRedeem (token : string) (now : Z).

Definition serve (rt : Runtime) (r : Request) (ts : Z) : M Response :=
  match r with
  | ReqRegister b => register b ts
  | ReqCreateProduct uid b iv newId => createProduct rt uid b iv newId ts
  | ReqInitiate uid productId uuid gw => initiate rt uid productId uuid gw ts
  | ReqCallback rawBody signature timestamp => handleCallback rt rawBody signature timestamp ts
  | ReqRequestToken uid productId uuid rnd now => requestToken rt uid productId uuid rnd now ts
  | ReqRedeem token now => redeem token now ts
  end.

(** Requests served one after the other, each at its server time. *)
Fixpoint serve_all (rt : Runtime) (reqs : list (Request * Z)) (w : World)
    : list (Result Response) * World :=
  match reqs with
  | [] => ([], w)
  | (r, ts) :: rest =>
      let (res, w1) := serve rt r ts w in
      let (ress, w2) := serve_all rt rest w1 in
      (res :: ress, w2)
  end.

(** One request takes the store from [s] to [s']. *)
Definition step (rt : Runtime) (s s' : Store) : Prop :=
  exists r ts tr, store (snd (serve rt r ts (mkWorld s tr))) = s'.

(** The stores the servers can reach from the empty database. *)
Inductive reachable (rt : Runtime) : Store -> Prop :=
| reachable_empty : reachable rt empty_store
| reachable_step s s' : reachable rt s -> step rt s s' -> reachable rt s'.

(* ===================================================================== *)
(** ** The vocabulary of the statements *)
(* ===================================================================== *)


(** The callback passes the signature check. *)
Definition authentic (rt : Runtime) (rawBody : string) (signature timestamp : option string)
    : Prop :=
  exists key sig tsh,
    CASHFREE_SECRET_KEY rt = Some key /\ signature = Some sig /\ timestamp = Some tsh
    /\ sig <> "" /\ tsh <> "" /\ hmac_sha256_base64 rt key (tsh +:+ rawBody) = sig.

(** The callback's body is an event for order [oid] with payment status [ps]. *)
Definition carries (rt : Runtime) (rawBody : string) (oid : string) (ps : json) : Prop :=
  exists event,
    JSON_parse rt rawBody = Some event /\ event_orderId event = JStr oid
    /\ event_paymentStatus event = ps /\ oid <> "".

(** Decryption undoes encryption under the same key and vector: the
    contract of the [crypto] cipher. *)
Definition cipher_inverts (rt : Runtime) : Prop :=
  forall key iv plain encrypted,
    aes_256_cbc_encrypt rt key iv plain = Some encrypted ->
    aes_256_cbc_decrypt rt key iv encrypted = Some plain.

(** [link] is what [encryptLink] returns for [plain] under vector [iv]. *)
Definition envelope_of (rt : Runtime) (plain iv link : string) : Prop :=
  exists k encrypted,
    ENCRYPT_KEY rt = Some k
    /\ aes_256_cbc_encrypt rt (String.substring 0 32 k) iv plain = Some encrypted
    /\ link = to_hex iv +:+ ":" +:+ to_hex encrypted.

(** The fee and the earning the settlement of order [o] computes in store
    [s]. *)
Definition order_fee (s : Store) (o : Order) : float :=
  platformFee_of (o_amount o) (commissionRate_of (config s !! "app_config")).

Definition order_earning (s : Store) (o : Order) : float :=
  sellerEarning_of (o_amount o) (order_fee s o).

(** The store once the settlement batch of order [oid] has committed. *)
Definition settled (s : Store) (oid : string) (o : Order) (ts : Z) : Store :=
  fold_left apply_write
    (settlement_writes oid o (commissionRate_of (config s !! "app_config")) ts) s.

(** The store once order [oid] has been marked failed. *)
Definition failed (s : Store) (oid : string) (ts : Z) : Store :=
  with_orders (alter (fail_order ts) oid) s.

(** The trace of [getUserFCMToken] followed by [sendFCM]. *)
Definition notify_trace (s : Store) (uid : string) (n : Notice) : list Event :=
  EvGet "fcm_tokens" uid :: push_of (fcm_token_of (fcm_tokens s !! uid)) n.

(** The three ways [initiate] ends: before the gateway call, having only
    read; at a failed gateway call; or with the order persisted after the
    gateway call returned. *)
Inductive initiate_outcome (rt : Runtime) (uid : string) (productId : json) (uuid : string)
    (gw : GatewayReply) (ts : Z) (s : Store) (tr : list Event)
    : Result Response * World -> Prop :=
| initiate_refused r evs :
    List.forallb is_read evs = true ->
    initiate_outcome rt uid productId uuid gw ts s tr (r, mkWorld s (tr ++ evs))
| initiate_gateway_failed pid product buyer errMsg :
    productId = JStr pid ->
    products s !! pid = Some product ->
    users s !! uid = Some buyer ->
    has_completed s uid pid = false ->
    gw = GwThrows errMsg ->
    initiate_outcome rt uid productId uuid gw ts s tr
      (Ok (mkResponse 502 (BError ("Payment gateway error: " +:+ errMsg))),
       mkWorld s
         (tr ++ [EvGet "products" pid; EvGet "users" uid; EvQuery "orders";
                 EvGateway (cashfreeOrderPayload rt uid pid (make_orderId uuid)
                              (orderAmount_of product) buyer)]))
| initiate_persisted pid product buyer data :
    productId = JStr pid ->
    products s !! pid = Some product ->
    users s !! uid = Some buyer ->
    has_completed s uid pid = false ->
    gw = GwReturns data ->
    initiate_outcome rt uid productId uuid gw ts s tr
      (match data with
       | Some cf => Ok (mkResponse 201 (BSession (payment_session_id cf) (make_orderId uuid)))
       | None => Ok (mkResponse 500 (BError "Failed to create payment order"))
       end,
       mkWorld
         (with_orders
            (insert (make_orderId uuid)
               (pending_order uid pid (make_orderId uuid) (orderAmount_of product) product ts))
            s)
         (tr ++ [EvGet "products" pid; EvGet "users" uid; EvQuery "orders";
                 EvGateway (cashfreeOrderPayload rt uid pid (make_orderId uuid)
                              (orderAmount_of product) buyer);
                 EvSet "orders" (make_orderId uuid)])).

(** The product's stored link is an envelope [encryptLink] made. *)
Definition holds_envelope (rt : Runtime) (p : Product) : Prop :=
  exists plain iv link, p_downloadLink p = Some link /\ envelope_of rt plain iv link.

Definition products_encrypted (rt : Runtime) (s : Store) : Prop :=
  forall id p, products s !! id = Some p -> holds_envelope rt p.

(* ===================================================================== *)
(** ** A runtime to run the handlers on *)
(* ===================================================================== *)

Module Demo.

Definition dq : string := String (ascii_of_nat 34) EmptyString.

Definition quoted (s : string) : string := dq +:+ s +:+ dq.

(** The text of a gateway event for order [oid] with payment status [ps]. *)
Definition event_text (oid ps : string) : string :=
  "{" +:+ quoted "data" +:+ ":{" +:+ quoted "order" +:+ ":{" +:+ quoted "order_id" +:+ ":"
    +:+ quoted oid +:+ "}," +:+ quoted "payment" +:+ ":{" +:+ quoted "payment_status" +:+ ":"
    +:+ quoted ps +:+ "}}}".

(** What [JSON.parse] returns on that text. *)
Definition event_value (oid ps : string) : json :=
  JObj [("data", JObj [("order", JObj [("order_id", JStr oid)]);
                       ("payment", JObj [("payment_status", JStr ps)])])].

Definition known_events : list (string * string) :=
  [ ("ORD_11111111111141118111", "SUCCESS");
    ("ORD_11111111111141118111", "FAILED");
    ("ORD_11111111111141118111", "USER_DROPPED");
    ("ORD_22222222222242228222", "SUCCESS");
    ("ORD_99999999999999999999", "SUCCESS") ].

(** [JSON.parse] on the event texts above; it throws elsewhere. *)
Definition parse (s : string) : option json :=
  match List.find (fun e => String.eqb s (event_text (fst e) (snd e))) known_events with
  | Some e => Some (event_value (fst e) (snd e))
  | None => None
  end.

(** A keyed tag standing for the HMAC: the handler only compares it with
    the header. *)
Definition mac (key message : string) : string :=
  "mac(" +:+ key +:+ "," +:+ message +:+ ")".

Definition flip_bits (c : ascii) : ascii :=
  match c with
  | Ascii b0 b1 b2 b3 b4 b5 b6 b7 =>
      Ascii (negb b0) (negb b1) (negb b2) (negb b3) (negb b4) (negb b5) (negb b6) (negb b7)
  end.

Fixpoint flip (s : string) : string :=
  match s with
  | EmptyString => EmptyString
  | String c rest => String (flip_bits c) (flip rest)
  end.

(** A cipher standing for AES-256-CBC: it rejects a key that is not 32
    bytes or a vector that is not 16, and inverts itself. *)
Definition crypt (key iv data : string) : option string :=
  if ((String.length key =? 32) && (String.length iv =? 16))%nat
  then Some (flip data) else None.

Definition rt : Runtime := {|
  CASHFREE_SECRET_KEY := Some "cf_secret";
  ENCRYPT_KEY := Some "0123456789abcdef0123456789abcdef";
  FRONTEND_URL := Some "https://shop.example";
  BACKEND_URL := Some "https://api.example";
  ADMIN_EMAIL := Some "admin@shop.example";
  hmac_sha256_base64 := mac;
  JSON_parse := parse;
  aes_256_cbc_encrypt := crypt;
  aes_256_cbc_decrypt := crypt
|}.

Definition seller_body : RegisterBody :=
  mkRegisterBody (Some "seller1") (Some "s@shop.example") (Some "Sam Seller") (Some "seller").

Definition buyer_body : RegisterBody :=
  mkRegisterBody (Some "buyer1") (Some "b@shop.example") (Some "Bea Buyer") (Some "buyer").

Definition location : string := "https://files.example/p1.zip".

Definition product_body : ProductBody := {|
  pb_title := Some "Icon pack";
  pb_description := Some "Two hundred icons";
  pb_price := FNum 1000%float;
  pb_discountPrice := FAbsent;
  pb_category := Some "design";
  pb_thumbnailUrl := None;
  pb_youtubeLink := None;
  pb_demoLink := None;
  pb_downloadLink := Some location
|}.

Definition iv0 : string := "0123456789abcdef".
Definition uuid1 : string := "11111111-1111-4111-8111-111111111111".
Definition uuid2 : string := "22222222-2222-4222-8222-222222222222".
Definition oid1 : string := "ORD_11111111111141118111".
Definition oid2 : string := "ORD_22222222222242228222".
Definition session : GatewayReply := GwReturns (Some (mkCashfreeOrder (Some "session_1"))).

(** Two accounts and one product, created through the servers. *)
Definition setup : list (Request * Z) :=
  [ (ReqRegister seller_body, 1); (ReqRegister buyer_body, 2);
    (ReqCreateProduct "seller1" product_body iv0 "prod1", 3) ].

(** An authentic callback for order [oid] with payment status [ps], sent
    at gateway time [tsh]. *)
Definition callback (oid ps tsh : string) : Request :=
  ReqCallback (event_text oid ps) (Some (mac "cf_secret" (tsh +:+ event_text oid ps)))
    (Some tsh).

Definition envelope1 : string := to_hex iv0 +:+ ":" +:+ to_hex (flip location).
Definition seller1 : User := userData seller_body 1.
Definition buyer1 : User := userData buyer_body 2.
Definition product1 : Product := productData "seller1" product_body envelope1 3.
Definition order1 : Order :=
  pending_order "buyer1" "prod1" oid1 1000%float product1 4.

(** One purchase: the order is initiated at time 4. *)
Definition purchase : list (Request * Z) :=
  setup ++ [ (ReqInitiate "buyer1" (JStr "prod1") uuid1 session, 4) ].

Definition after (reqs : list (Request * Z)) : Store :=
  store (snd (serve_all rt reqs (mkWorld empty_store []))).

(** The store after the purchase was initiated, and after it was paid. *)
Definition ordered : Store := after purchase.

Definition paid : Store :=
  after (purchase ++ [ (callback oid1 "SUCCESS" "1700000000", 5) ]).

(** The header an authentic callback carries. *)
Definition signature_of (oid ps tsh : string) : option string :=
  Some (mac "cf_secret" (tsh +:+ event_text oid ps)).

(** A store whose configuration document sets the commission rate. *)
Definition with_rate (rate : numfield) (s : Store) : Store :=
  mkStore (orders s) (users s) (products s) (download_tokens s) (fcm_tokens s)
    {[ "app_config" := mkConfig rate ]}.

(** The product listed again at 2500 after the order was placed at 1000. *)
Definition repriced (s : Store) : Store :=
  with_products
    (insert "prod1"
       (productData "seller1"
          (mkProductBody (Some "Icon pack") (Some "Two hundred icons") (FNum 2500%float)
             FAbsent (Some "design") None None None (Some location))
          envelope1 3)) s.

Definition token1 : string := make_token "33333333-3333-4333-8333-333333333333" iv0.

Definition responses (reqs : list (Request * Z)) : list (Result Response) :=
  fst (serve_all rt reqs (mkWorld empty_store [])).

End Demo.

(* ===================================================================== *)
(** ** The authentication middleware *)
(* ===================================================================== *)

(** The decoded ID token [verifyToken] resolves to, with the claims the
    handlers read; a token need not carry an email. *)
Record DecodedIdToken := mkDecodedIdToken {
  d_uid : string;
  d_email : option string
}.

(** White space as [trim] sees it in a header value, which reaches the
    handler one character per byte: tab, line feed, vertical tab, form
    feed, carriage return, space and no-break space. *)
Definition is_white_space (c : ascii) : bool :=
  let n := nat_of_ascii c in
  (((9 <=? n) && (n <=? 13)) || (n =? 32) || (n =? 160))%nat.

Fixpoint trimStart (s : string) : string :=
  match s with
  | EmptyString => EmptyString
  | String c rest => if is_white_space c then trimStart rest else s
  end.

Fixpoint trimEnd (s : string) : string :=
  match s with
  | EmptyString => EmptyString
  | String c rest =>
      match trimEnd rest with
      | EmptyString => if is_white_space c then EmptyString else String c EmptyString
      | kept => String c kept
      end
  end.

(** [s.trim()] *)
Definition trim (s : string) : string := trimEnd (trimStart s).

(** [s.split(sep)] for a separator of one character or more, with [skip]
    characters of a separator just matched still to pass over. *)
Fixpoint split_from (sep : string) (skip : nat) (s : string) : list string :=
  match s with
  | EmptyString => [EmptyString]
  | String c rest =>
      match skip with
      | S k => split_from sep k rest
      | O =>
          if String.prefix sep s then
            EmptyString :: split_from sep (String.length sep - 1) rest
          else match split_from sep 0 rest with
               | part :: parts => String c part :: parts
               | [] => [String c EmptyString]
               end
      end
  end.

Definition split_str (sep s : string) : list string := split_from sep 0 s.

(** [a === b] for two values that are each a string or [undefined]. *)
Definition strict_eq (a b : option string) : bool :=
  match a, b with
  | Some x, Some y => String.eqb x y
  | None, None => true
  | _, _ => false
  end.

(** How a middleware ends: it answers itself, it calls [next] with
    [req.user] set, or it throws outside its [try]. *)
Inductive AuthOutcome : Type :=
| Denied (code : nat) (error : string)
| Granted (user : DecodedIdToken)
| Uncaught (e : Exn).

(** [authenticateUser] of lib/middleware; [verifyToken] is [None] where
    the verification of the ID token throws, [authorization] is
    [req.headers.authorization]. *)
Definition authenticateUser (verifyToken : string -> option DecodedIdToken)
    (authorization : option string) : AuthOutcome :=
  match authorization with
  | None => Denied 401 "Unauthorized"
  | Some authHeader =>
      if negb (string_truthy authHeader) || negb (String.prefix "Bearer " authHeader) then
        Denied 401 "Unauthorized"
      else
        match nth_error (split_str "Bearer " authHeader) 1 with
        | None => Uncaught TypeError
        | Some part =>
            let token := trim part in
            if negb (string_truthy token) then Denied 401 "Unauthorized"
            else match verifyToken token with
                 | Some decoded => Granted decoded
                 | None => Denied 401 "Invalid token"
                 end
        end
  end.

(** [authenticateAdmin] of lib/middleware. *)
Definition authenticateAdmin (rt : Runtime) (verifyToken : string -> option DecodedIdToken)
    (authorization : option string) : AuthOutcome :=
  match authenticateUser verifyToken authorization with
  | Granted user =>
      if negb (strict_eq (d_email user) (ADMIN_EMAIL rt)) then
        Denied 403 "Admin access required"
      else Granted user
  | outcome => outcome
  end.

(* ===================================================================== *)
(** ** Further routes of the two servers *)
(* ===================================================================== *)

(** The bodies these routes answer with. *)
Inductive Answer : Type :=
| AError (error : string)
| AOrderStatus (status productId : string)
| ASuccess
| AAdded (added : bool).

Record Reply := mkReply {
  status_code : nat;
  answer : Answer
}.

Definition reply (c : nat) (a : Answer) : M Reply :=
  ret (mkReply c a).

Definition with_fcm_tokens (f : gmap string string -> gmap string string) (s : Store) : Store :=
  mkStore (orders s) (users s) (products s) (download_tokens s) (f (fcm_tokens s)) (config s).

(** [ref.update(fields)] on [products] and on [users]. *)
Definition update_product (id : string) (f : Product -> Product) : M unit :=
  p <- read (fun s => products s !! id) ;;
  match p with
  | None => throw (NotFound "products" id)
  | Some _ => emit (EvUpdate "products" id) ;;; modify (with_products (alter f id))
  end.

Definition update_user (id : string) (f : User -> User) : M unit :=
  u <- read (fun s => users s !! id) ;;
  match u with
  | None => throw (NotFound "users" id)
  | Some _ => emit (EvUpdate "users" id) ;;; modify (with_users (alter f id))
  end.

(** [ref.delete()] on [products]; the trace has no event for it. *)
Definition delete_product (id : string) : M unit :=
  modify (with_products (delete id)).

(** [FieldValue.arrayRemove(x)] *)
Definition arrayRemove (l : list string) (x : string) : list string :=
  List.filter (fun y => negb (String.eqb y x)) l.

(** [{ clicks: FieldValue.increment(1) }] *)
Definition count_click (p : Product) : Product :=
  {| p_title := p_title p;
     p_description := p_description p;
     p_price := p_price p;
     p_discountPrice := p_discountPrice p;
     p_category := p_category p;
     p_thumbnailUrl := p_thumbnailUrl p;
     p_youtubeLink := p_youtubeLink p;
     p_demoLink := p_demoLink p;
     p_downloadLink := p_downloadLink p;
     p_sellerId := p_sellerId p;
     p_status := p_status p;
     p_clicks := PrimFloat.add (p_clicks p) 1%float;
     p_sales := p_sales p;
     p_rating := p_rating p;
     p_createdAt := p_createdAt p |}.

(** [{ wishlist: ... }] *)
Definition set_wishlist (f : list string -> list string) (u : User) : User :=
  {| u_uid := u_uid u;
     u_email := u_email u;
     u_fullName := u_fullName u;
     u_role := u_role u;
     u_phone := u_phone u;
     u_walletBalance := u_walletBalance u;
     u_totalEarnings := u_totalEarnings u;
     u_wishlist := f (u_wishlist u);
     u_purchases := u_purchases u;
     u_status := u_status u;
     u_createdAt := u_createdAt u |}.

(** [sanitizeProduct]: [const { downloadLink, ...safe } = product] on the
    properties of a product object. *)
Definition sanitizeProduct (product : list (string * json)) : list (string * json) :=
  List.filter (fun kv => negb (String.eqb (fst kv) "downloadLink")) product.

(** [GET /api/payment/status/:orderId], behind [authenticateUser]. *)
Definition queryStatus (uid orderId : string) : M Reply :=
  try_catch
    (orderDoc <- get_doc "orders" orders orderId ;;
     match orderDoc with
     | None => reply 404 (AError "Order not found")
     | Some order =>
         if negb (String.eqb (o_buyerId order) uid) then
           reply 403 (AError "Access denied to this order")
         else
           reply 200 (AOrderStatus (o_status order) (o_productId order))
     end)
    (fun _ => reply 500 (AError "Failed to fetch payment status")).

(** [POST /api/products/click/:id] *)
Definition clickProduct (id : string) : M Reply :=
  try_catch
    (update_product id count_click ;;;
     reply 200 ASuccess)
    (fun _ => reply 500 (AError "Failed to record click")).

(** [DELETE /api/products/:id], behind [authenticateUser]. *)
Definition deleteProduct (rt : Runtime) (user : DecodedIdToken) (id : string) : M Reply :=
  try_catch
    (productDoc <- get_doc "products" products id ;;
     match productDoc with
     | None => reply 404 (AError "Product not found")
     | Some product =>
         let isAdmin := strict_eq (d_email user) (ADMIN_EMAIL rt) in
         let isOwner := String.eqb (p_sellerId product) (d_uid user) in
         if negb isOwner && negb isAdmin then
           reply 403 (AError "Not authorized to delete this product")
         else
           delete_product id ;;;
           reply 200 ASuccess
     end)
    (fun _ => reply 500 (AError "Failed to delete product")).

(** [POST /api/user/wishlist/toggle], behind [authenticateUser];
    [productId] is [req.body.productId], a string or absent. *)
Definition toggleWishlist (uid : string) (productId : option string) : M Reply :=
  try_catch
    (if negb (opt_truthy productId) then
       reply 400 (AError "productId is required")
     else
       userDoc <- get_doc "users" users uid ;;
       match userDoc with
       | None => reply 404 (AError "User not found")
       | Some user =>
           let wishlist := u_wishlist user in
           let inWishlist := existsb (String.eqb (text productId)) wishlist in
           if inWishlist then
             update_user uid (set_wishlist (fun l => arrayRemove l (text productId))) ;;;
             reply 200 (AAdded false)
           else
             update_user uid (set_wishlist (fun l => arrayUnion l (text productId))) ;;;
             reply 200 (AAdded true)
       end)
    (fun _ => reply 500 (AError "Failed to update wishlist")).

(** [POST /api/notify/save-token], behind [authenticateUser]; [token] is
    [req.body.token], a string or absent. *)
Definition saveToken (uid : string) (token : option string) : M Reply :=
  try_catch
    (if negb (opt_truthy token) then
       reply 400 (AError "token is required")
     else
       emit (EvSet "fcm_tokens" uid) ;;;
       modify (with_fcm_tokens (insert uid (text token))) ;;;
       reply 200 ASuccess)
    (fun _ => reply 500 (AError "Failed to save notification token")).

(** [{ status: ... }] *)
Definition set_status (status : string) (u : User) : User :=
  {| u_uid := u_uid u;
     u_email := u_email u;
     u_fullName := u_fullName u;
     u_role := u_role u;
     u_phone := u_phone u;
     u_walletBalance := u_walletBalance u;
     u_totalEarnings := u_totalEarnings u;
     u_wishlist := u_wishlist u;
     u_purchases := u_purchases u;
     u_status := status;
     u_createdAt := u_createdAt u |}.

(** [PATCH /api/admin/users/:id/ban], behind [authenticateAdmin]. *)
Definition banUser (id : string) : M Reply :=
  try_catch
    (update_user id (set_status "banned") ;;;
     reply 200 ASuccess)
    (fun _ => reply 500 (AError "Failed to ban user")).

Definition with_config (f : gmap string Config -> gmap string Config) (s : Store) : Store :=
  mkStore (orders s) (users s) (products s) (download_tokens s) (fcm_tokens s) (f (config s)).

(** [parseFloat(x)] of a number: the number itself, but for [-0], whose
    decimal form is that of [0]. *)
Definition parseFloat_number (f : float) : float :=
  if PrimFloat.eqb f 0%float then 0%float else f.

(** [if (commissionRate !== undefined) updates.commissionRate =
    parseFloat(commissionRate)] for a rate that is a JSON number, [null]
    or absent: the field to write, if any. *)
Definition commissionRate_update (commissionRate : numfield) : option float :=
  match commissionRate with
  | FAbsent => None
  | FNull => Some nan
  | FNum f => Some (parseFloat_number f)
  end.

(** [ref.set(updates, { merge: true })] as the configuration document
    sees it: a field given is written, the others stay, and the document
    is created when it is missing. *)
Definition merge_config (update : option float) (old : option Config) : Config :=
  match update, old with
  | Some rate, _ => mkConfig (FNum rate)
  | None, Some c => c
  | None, None => mkConfig FAbsent
  end.

(** [PATCH /api/admin/config], behind [authenticateAdmin];
    [commissionRate] is [req.body.commissionRate]. *)
Definition adminConfig (commissionRate : numfield) : M Reply :=
  try_catch
    (emit (EvSet "config" "app_config") ;;;
     modify (with_config (fun m =>
       <["app_config" := merge_config (commissionRate_update commissionRate)
                           (m !! "app_config")]> m)) ;;;
     reply 200 ASuccess)
    (fun _ => reply 500 (AError "Failed to update config")).

(* ===================================================================== *)
(** ** All the routes over one store *)
(* ===================================================================== *)

(** A request to any of the routes above, with the inputs of its handler;
    the user of a route behind [authenticateUser] is whoever the
    middleware granted. *)
Inductive Visit : Type :=
| VServe (r : Request)
| VStatus (uid orderId : string)
| VClick (id : string)
| VDelete (user : DecodedIdToken) (id : string)
| VToggle (uid : string) (productId : option string)
| VSaveToken (uid : string) (token : option string)
| VBan (id : string)
| VConfig (commissionRate : numfield).

(** The world once the request is answered. *)
Definition visit (rt : Runtime) (v : Visit) (ts : Z) (w : World) : World :=
  match v with
  | VServe r => snd (serve rt r ts w)
  | VStatus uid orderId => snd (queryStatus uid orderId w)
  | VClick id => snd (clickProduct id w)
  | VDelete user id => snd (deleteProduct rt user id w)
  | VToggle uid productId => snd (toggleWishlist uid productId w)
  | VSaveToken uid token => snd (saveToken uid token w)
  | VBan id => snd (banUser id w)
  | VConfig commissionRate => snd (adminConfig commissionRate w)
  end.

(** The stores these routes can reach from the empty database. *)
Inductive reached (rt : Runtime) : Store -> Prop :=
| reached_empty : reached rt empty_store
| reached_visit s v ts tr :
    reached rt s -> reached rt (store (visit rt v ts (mkWorld s tr))).

(** The ways one request changes the store. *)
Inductive transition (s : Store) : Store -> Prop :=
| transition_none : transition s s
| transition_register b ts :
    users s !! text (rb_uid b) = None ->
    text (rb_role b) = "buyer" \/ text (rb_role b) = "seller" ->
    transition s (with_users (insert (text (rb_uid b)) (userData b ts)) s)
| transition_createProduct uid user b link newId ts :
    users s !! uid = Some user -> u_role user = "seller" ->
    transition s (with_products (insert newId (productData uid b link ts)) s)
| transition_initiate uid pid product buyer orderId ts :
    products s !! pid = Some product -> users s !! uid = Some buyer ->
    transition s
      (with_orders
         (insert orderId (pending_order uid pid orderId (orderAmount_of product) product ts)) s)
| transition_settle oid o ts :
    orders s !! oid = Some o -> o_status o <> "completed" ->
    transition s (settled s oid o ts)
| transition_fail oid o ts :
    orders s !! oid = Some o -> o_status o <> "completed" ->
    transition s (failed s oid ts)
| transition_token token t :
    transition s (with_download_tokens (insert token t) s)
| transition_redeem token ts :
    transition s (with_download_tokens (alter (use_token ts) token) s)
| transition_click id :
    transition s (with_products (alter count_click id) s)
| transition_delete id :
    transition s (with_products (delete id) s)
| transition_wishlist uid f :
    transition s (with_users (alter (set_wishlist f) uid) s)
| transition_saveToken uid token :
    transition s (with_fcm_tokens (insert uid token) s)
| transition_ban uid status :
    transition s (with_users (alter (set_status status) uid) s)
| transition_config c :
    transition s (with_config (insert "app_config" c) s).

(* ===================================================================== *)
(** ** The vocabulary of the further statements *)
(* ===================================================================== *)

(** A user document as the routes keep it: filed under its own uid, with
    one of the two roles, and a wallet equal to the earnings so far. *)
Definition user_sound (id : string) (u : User) : Prop :=
  u_uid u = id
  /\ (u_role u = "buyer" \/ u_role u = "seller")
  /\ u_walletBalance u = u_totalEarnings u.

Definition is_seller (s : Store) (uid : string) : Prop :=
  exists seller, users s !! uid = Some seller /\ u_role seller = "seller".

(** The three shapes of an order document. *)
Definition order_pending (o : Order) : Prop :=
  o_status o = "pending" /\ o_platformFee o = None /\ o_sellerEarning o = None
  /\ o_completedAt o = None /\ o_failedAt o = None.

Definition order_failed (o : Order) : Prop :=
  o_status o = "failed" /\ o_platformFee o = None /\ o_sellerEarning o = None
  /\ o_completedAt o = None /\ is_Some (o_failedAt o).

Definition order_completed (o : Order) : Prop :=
  o_status o = "completed"
  /\ exists rate,
       o_platformFee o = Some (platformFee_of (o_amount o) rate)
       /\ o_sellerEarning o
          = Some (sellerEarning_of (o_amount o) (platformFee_of (o_amount o) rate))
  /\ is_Some (o_completedAt o).

(** An order document as the routes keep it. *)
Definition order_sound (s : Store) (id : string) (o : Order) : Prop :=
  o_orderId o = id
  /\ is_Some (users s !! o_buyerId o)
  /\ is_seller s (o_sellerId o)
  /\ (order_pending o \/ order_failed o \/ order_completed o).

Definition store_sound (s : Store) : Prop :=
  (forall id u, users s !! id = Some u -> user_sound id u)
  /\ (forall id p, products s !! id = Some p -> is_seller s (p_sellerId p))
  /\ (forall id o, orders s !! id = Some o -> order_sound s id o).

(** Two account documents that differ at most in their status. *)
Definition same_but_status (a b : option User) : Prop :=
  match a, b with
  | Some x, Some y =>
      u_email x = u_email y /\ u_phone x = u_phone y /\ u_fullName x = u_fullName y
      /\ u_role x = u_role y
  | None, None => True
  | _, _ => False
  end.



Fixpoint string_forall (f : ascii -> bool) (s : string) : bool :=
  match s with
  | EmptyString => true
  | String c rest => f c && string_forall f rest
  end.





(** A second shop to run the further routes on. *)
Module Shop.

Definition seller : DecodedIdToken := mkDecodedIdToken "seller1" (Some "s@shop.example").
Definition buyer : DecodedIdToken := mkDecodedIdToken "buyer1" (Some "b@shop.example").
Definition admin : DecodedIdToken := mkDecodedIdToken "admin1" (Some "admin@shop.example").
Definition anonymous : DecodedIdToken := mkDecodedIdToken "anon1" None.

(** A verifier that knows four ID tokens and throws on any other. *)
Definition verify (token : string) : option DecodedIdToken :=
  if String.eqb token "token-of-buyer1" then Some buyer
  else if String.eqb token "token-of-seller1" then Some seller
  else if String.eqb token "token-of-admin" then Some admin
  else if String.eqb token "token-without-email" then Some anonymous
  else None.

(** The demonstration runtime without [ADMIN_EMAIL]. *)
Definition rt_no_admin : Runtime := {|
  CASHFREE_SECRET_KEY := CASHFREE_SECRET_KEY Demo.rt;
  ENCRYPT_KEY := ENCRYPT_KEY Demo.rt;
  FRONTEND_URL := FRONTEND_URL Demo.rt;
  BACKEND_URL := BACKEND_URL Demo.rt;
  ADMIN_EMAIL := None;
  hmac_sha256_base64 := hmac_sha256_base64 Demo.rt;
  JSON_parse := JSON_parse Demo.rt;
  aes_256_cbc_encrypt := aes_256_cbc_encrypt Demo.rt;
  aes_256_cbc_decrypt := aes_256_cbc_decrypt Demo.rt
|}.



(** The demo product with a link that no [encryptLink] made. *)
Definition product_unencrypted : Product :=
  {| p_title := p_title Demo.product1;
     p_description := p_description Demo.product1;
     p_price := p_price Demo.product1;
     p_discountPrice := p_discountPrice Demo.product1;
     p_category := p_category Demo.product1;
     p_thumbnailUrl := p_thumbnailUrl Demo.product1;
     p_youtubeLink := p_youtubeLink Demo.product1;
     p_demoLink := p_demoLink Demo.product1;
     p_downloadLink := Some "files.example/p1.zip";
     p_sellerId := p_sellerId Demo.product1;
     p_status := p_status Demo.product1;
     p_clicks := p_clicks Demo.product1;
     p_sales := p_sales Demo.product1;
     p_rating := p_rating Demo.product1;
     p_createdAt := p_createdAt Demo.product1 |}.

(** The paid demo store with that product in place of the demo product. *)
Definition unencrypted : Store :=
  with_products (insert "prod1" product_unencrypted) Demo.paid.

(** The paid demo store with a download token issued at clock time 1000. *)
Definition issued : Store :=
  store (snd (requestToken Demo.rt "buyer1" "prod1" "33333333-3333-4333-8333-333333333333"
                Demo.iv0 1000 7 (mkWorld Demo.paid []))).

(** The demo store with the order placed, after the seller deleted the
    product. *)
Definition deleted : Store :=
  store (snd (deleteProduct Demo.rt seller "prod1" (mkWorld Demo.ordered []))).

End Shop.

(* ===================================================================== *)
(** * Proofs *)
(* ===================================================================== *)

(** ** The model at work *)

Example make_orderId_demo : make_orderId Demo.uuid1 = Demo.oid1.
Proof. reflexivity. Qed.

Example to_hex_demo : to_hex "Az:" = "417a3a" /\ from_hex "417A3a" = "Az:".
Proof. split; reflexivity. Qed.

Example from_hex_stops_at_bad_pair : from_hex "41zz42" = "A" /\ from_hex "414" = "A".
Proof. split; reflexivity. Qed.

Example split_on_demo : split_on ":" "ab:cd:" = ["ab"; "cd"; ""].
Proof. reflexivity. Qed.

Example commission_of_1000_at_10 :
  platformFee_of 1000%float 10%float = 100%float
  /\ sellerEarning_of 1000%float 100%float = 900%float.
Proof. split; reflexivity. Qed.

Example falsy_numbers :
  number_truthy 0%float = false /\ number_truthy (-0)%float = false
  /\ number_truthy nan = false /\ number_truthy 10%float = true.
Proof. repeat split; reflexivity. Qed.

Example setup_responses :
  Demo.responses Demo.setup =
  [ Ok (mkResponse 201 (BUserCreated "seller1"));
    Ok (mkResponse 201 (BUserCreated "buyer1"));
    Ok (mkResponse 201 (BProductCreated "prod1")) ].
Proof. vm_compute. reflexivity. Qed.

Example purchase_responses :
  Demo.responses (Demo.purchase ++
    [ (Demo.callback Demo.oid1 "SUCCESS" "1700000000", 5);
      (Demo.callback Demo.oid1 "SUCCESS" "1700000000", 6);
      (ReqInitiate "buyer1" (JStr "prod1") Demo.uuid2 Demo.session, 7) ]) =
  [ Ok (mkResponse 201 (BUserCreated "seller1"));
    Ok (mkResponse 201 (BUserCreated "buyer1"));
    Ok (mkResponse 201 (BProductCreated "prod1"));
    Ok (mkResponse 201 (BSession (Some "session_1") Demo.oid1));
    Ok (mkResponse 200 (BStatus "ok"));
    Ok (mkResponse 200 (BStatus "already_completed"));
    Ok (mkResponse 409 (BError "You have already purchased this product")) ].
Proof. vm_compute. reflexivity. Qed.

Example ordered_order : orders Demo.ordered !! Demo.oid1 = Some Demo.order1.
Proof. vm_compute. reflexivity. Qed.

Example paid_order :
  orders Demo.paid !! Demo.oid1 = Some (complete_order 100%float 900%float 5 Demo.order1).
Proof. vm_compute. reflexivity. Qed.

Example paid_wallet : u_walletBalance <$> users Demo.paid !! "seller1" = Some 900%float.
Proof. vm_compute. reflexivity. Qed.

(** The acknowledgements of the webhook: an unknown order, a status that is
    neither SUCCESS nor FAILED, a body that does not parse; each with 200. *)
Example webhook_acknowledgements :
  Demo.responses (Demo.purchase ++
    [ (Demo.callback "ORD_99999999999999999999" "SUCCESS" "1700000000", 5);
      (Demo.callback Demo.oid1 "USER_DROPPED" "1700000000", 6);
      (ReqCallback "{" (Some (Demo.mac "cf_secret" "1700000000{")) (Some "1700000000"), 7);
      (ReqCallback (Demo.event_text Demo.oid1 "SUCCESS") None (Some "1700000000"), 8) ])
  = (Demo.responses Demo.purchase ++
     [ Ok (mkResponse 200 (BStatus "order_not_found"));
       Ok (mkResponse 200 (BStatus "ok"));
       Ok (mkResponse 200 (BStatusError SyntaxError));
       Ok (mkResponse 200 (BStatus "signature_missing")) ])%list
  /\ Demo.after (Demo.purchase ++
        [ (Demo.callback "ORD_99999999999999999999" "SUCCESS" "1700000000", 5);
          (Demo.callback Demo.oid1 "USER_DROPPED" "1700000000", 6);
          (ReqCallback "{" (Some (Demo.mac "cf_secret" "1700000000{")) (Some "1700000000"), 7);
          (ReqCallback (Demo.event_text Demo.oid1 "SUCCESS") None (Some "1700000000"), 8) ])
     = Demo.ordered.
Proof. vm_compute. split; reflexivity. Qed.

(** A gateway that throws: 502, and the store as it was. *)
Example gateway_down :
  initiate Demo.rt "buyer1" (JStr "prod1") Demo.uuid1 (GwThrows "timeout") 4
    (mkWorld (Demo.after Demo.setup) [])
  = (Ok (mkResponse 502 (BError "Payment gateway error: timeout")),
     mkWorld (Demo.after Demo.setup)
       [ EvGet "products" "prod1"; EvGet "users" "buyer1"; EvQuery "orders";
         EvGateway (cashfreeOrderPayload Demo.rt "buyer1" "prod1" Demo.oid1 1000%float
                      Demo.buyer1) ]).
Proof. vm_compute. reflexivity. Qed.

(** A settlement whose product document is gone commits nothing: the batch
    is rejected and the webhook still acknowledges. *)
Example settlement_without_product :
  handleCallback Demo.rt (Demo.event_text Demo.oid1 "SUCCESS")
    (Demo.signature_of Demo.oid1 "SUCCESS" "1700000000") (Some "1700000000") 5
    (mkWorld (with_products (delete "prod1") Demo.ordered) [])
  = (Ok (mkResponse 200 (BStatusError (NotFound "products" "prod1"))),
     mkWorld (with_products (delete "prod1") Demo.ordered)
       [ EvGet "orders" Demo.oid1; EvGet "config" "app_config" ]).
Proof. vm_compute. reflexivity. Qed.

(** A token redeemed after its ten minutes is gone, though unused. *)
Example late_redemption :
  fst (redeem Demo.token1 601001 9
         (snd (requestToken Demo.rt "buyer1" "prod1" "33333333-3333-4333-8333-333333333333"
                 Demo.iv0 1000 7 (mkWorld Demo.paid []))))
  = Ok (mkResponse 410 (BError "Download link has expired")).
Proof. vm_compute. reflexivity. Qed.

(* ===================================================================== *)
(** ** Running the primitives *)
(* ===================================================================== *)

Lemma string_eqb_false a b : a <> b -> String.eqb a b = false.
Proof. apply String.eqb_neq. Qed.

Lemma append_cons c a b : String c a +:+ b = String c (a +:+ b).
Proof. reflexivity. Qed.

Lemma bind_ok {A B} (m : M A) (k : A -> M B) w a w' :
  m w = (Ok a, w') -> bind m k w = k a w'.
Proof. intros H. unfold bind. by rewrite H. Qed.

Lemma bind_throw {A B} (m : M A) (k : A -> M B) w e w' :
  m w = (Throw e, w') -> bind m k w = (Throw e, w').
Proof. intros H. unfold bind. by rewrite H. Qed.

Lemma bind_ret {A B} (a : A) (k : A -> M B) w : bind (ret a) k w = k a w.
Proof. reflexivity. Qed.

Lemma try_catch_ok {A} (m : M A) (h : Exn -> M A) w a w' :
  m w = (Ok a, w') -> try_catch m h w = (Ok a, w').
Proof. intros H. unfold try_catch. by rewrite H. Qed.

(** Answering does not touch the store. *)
Lemma then_response_store {A} (m : M A) c b w :
  store (snd ((m ;;; json_response c b) w)) = store (snd (m w)).
Proof. unfold bind. by destruct (m w) as [[a|e] w']. Qed.

Lemma try_catch_response_store (m : M Response) c (h : Exn -> Body) w :
  store (snd (try_catch m (fun e => json_response c (h e)) w)) = store (snd (m w)).
Proof. unfold try_catch. by destruct (m w) as [[a|e] w']. Qed.

Lemma get_doc_run {D} c (coll : Store -> gmap string D) id s tr :
  get_doc c coll id (mkWorld s tr) = (Ok (coll s !! id), mkWorld s (tr ++ [EvGet c id])).
Proof. reflexivity. Qed.

Lemma emit_run e s tr : emit e (mkWorld s tr) = (Ok tt, mkWorld s (tr ++ [e])).
Proof. reflexivity. Qed.

Lemma query_completed_empty_run uid pid s tr :
  query_completed_empty uid pid (mkWorld s tr) =
  (Ok (negb (has_completed s uid pid)), mkWorld s (tr ++ [EvQuery "orders"])).
Proof. reflexivity. Qed.

Lemma set_order_run id o s tr :
  set_order id o (mkWorld s tr) =
  (Ok tt, mkWorld (with_orders (insert id o) s) (tr ++ [EvSet "orders" id])).
Proof. reflexivity. Qed.

Lemma set_token_run id t s tr :
  set_token id t (mkWorld s tr) =
  (Ok tt, mkWorld (with_download_tokens (insert id t) s) (tr ++ [EvSet "download_tokens" id])).
Proof. reflexivity. Qed.

Lemma getUserFCMToken_run uid s tr :
  getUserFCMToken uid (mkWorld s tr) =
  (Ok (fcm_token_of (fcm_tokens s !! uid)), mkWorld s (tr ++ [EvGet "fcm_tokens" uid])).
Proof. reflexivity. Qed.

Lemma sendFCM_run tok n s tr :
  sendFCM tok n (mkWorld s tr) = (Ok tt, mkWorld s (tr ++ push_of tok n)).
Proof. destruct tok; cbn; [reflexivity | by rewrite app_nil_r]. Qed.

Lemma update_order_ok id f o s tr :
  orders s !! id = Some o ->
  update_order id f (mkWorld s tr) =
  (Ok tt, mkWorld (with_orders (alter f id) s) (tr ++ [EvUpdate "orders" id])).
Proof. intros H. unfold update_order, bind, read. cbn. by rewrite H. Qed.

Lemma update_token_ok id f t s tr :
  download_tokens s !! id = Some t ->
  update_token id f (mkWorld s tr) =
  (Ok tt, mkWorld (with_download_tokens (alter f id) s) (tr ++ [EvUpdate "download_tokens" id])).
Proof. intros H. unfold update_token, bind, read. cbn. by rewrite H. Qed.

Lemma commit_ok ws s tr :
  first_missing s ws = None ->
  commit ws (mkWorld s tr) =
  (Ok tt, mkWorld (fold_left apply_write ws s) (tr ++ [EvCommit (List.map write_target ws)])).
Proof. intros H. unfold commit, bind, read. cbn. by rewrite H. Qed.

Lemma commit_missing ws s tr c id :
  first_missing s ws = Some (c, id) ->
  commit ws (mkWorld s tr) = (Throw (NotFound c id), mkWorld s tr).
Proof. intros H. unfold commit, bind, read. cbn. by rewrite H. Qed.

Create HintDb run discriminated.

#[local] Hint Resolve get_doc_run emit_run query_completed_empty_run set_order_run
  set_token_run getUserFCMToken_run sendFCM_run update_order_ok update_token_ok
  commit_ok commit_missing : run.

(** Run the first primitive of a sequence. *)
Ltac step :=
  first [ rewrite bind_ret | erewrite bind_ok by eauto with run ]; cbn [store trace].

Lemma notify_run {A} uid n (k : M A) s tr :
  (tok <- getUserFCMToken uid ;; sendFCM tok n ;;; k) (mkWorld s tr) =
  k (mkWorld s (tr ++ notify_trace s uid n)).
Proof. do 2 step. unfold notify_trace. by rewrite <- app_assoc. Qed.

Lemma fcm_tokens_fold ws s : fcm_tokens (fold_left apply_write ws s) = fcm_tokens s.
Proof.
  revert s. induction ws as [|w ws IH]; intros s; [done|]. cbn. rewrite IH. by destruct w.
Qed.

Lemma has_doc_Some {D} (m : gmap string D) id d : m !! id = Some d -> has_doc m id = true.
Proof. intros H. unfold has_doc. by rewrite H. Qed.





Lemma arrayUnion_In l x : In x (arrayUnion l x).
Proof.
  unfold arrayUnion. destruct (existsb (String.eqb x) l) eqn:E.
  - apply existsb_exists in E as (y & Hy & Hxy). apply String.eqb_eq in Hxy. by subst.
  - apply in_or_app. right. by left.
Qed.

Lemma has_completed_true s uid pid :
  has_completed s uid pid = true <->
  exists id o, orders s !! id = Some o /\ o_buyerId o = uid /\ o_productId o = pid
               /\ o_status o = "completed".
Proof.
  unfold has_completed. rewrite existsb_exists. split.
  - intros ([id o] & Hin & Hc). unfold completed_for in Hc. cbn in Hc.
    apply andb_true_iff in Hc as [[Hb Hp]%andb_true_iff Hs].
    apply String.eqb_eq in Hb, Hp, Hs.
    apply list_elem_of_In, elem_of_map_to_list in Hin. eauto 10.
  - intros (id & o & Ho & Hb & Hp & Hs). exists (id, o). split.
    + by apply list_elem_of_In, elem_of_map_to_list.
    + unfold completed_for. cbn. by rewrite Hb, Hp, Hs, !String.eqb_refl.
Qed.

(* ===================================================================== *)
(** ** The webhook *)
(* ===================================================================== *)

Lemma orders_settled s oid o ts :
  orders (settled s oid o ts) =
  alter (complete_order (order_fee s o) (order_earning s o) ts) oid (orders s).
Proof. reflexivity. Qed.

Lemma users_settled s oid o ts :
  users (settled s oid o ts) =
  alter (add_purchase (o_productId o)) (o_buyerId o)
    (alter (credit_seller (order_earning s o)) (o_sellerId o) (users s)).
Proof. reflexivity. Qed.

Lemma products_settled s oid o ts :
  products (settled s oid o ts) = alter count_sale (o_productId o) (products s).
Proof. reflexivity. Qed.

Lemma first_missing_settlement s oid o rate ts :
  has_doc (orders s) oid = true ->
  has_doc (users s) (o_sellerId o) = true ->
  has_doc (products s) (o_productId o) = true ->
  has_doc (users s) (o_buyerId o) = true ->
  first_missing s (settlement_writes oid o rate ts) = None.
Proof.
  intros H1 H2 H3 H4. unfold first_missing, settlement_writes.
  cbn [List.filter write_exists]. by rewrite H1, H2, H3, H4.
Qed.

(** The trace of a settlement. *)
Lemma settle_ok oid o ts s tr :
  first_missing s (settlement_writes oid o (commissionRate_of (config s !! "app_config")) ts)
    = None ->
  settle oid o ts (mkWorld s tr) =
  (Ok tt, mkWorld (settled s oid o ts)
     (tr ++ [EvGet "config" "app_config";
             EvCommit [("orders", oid); ("users", o_sellerId o);
                       ("products", o_productId o); ("users", o_buyerId o)]]
         ++ notify_trace s (o_sellerId o) NewSale
         ++ notify_trace s (o_buyerId o) PurchaseConfirmed)).
Proof.
  intros H. unfold settle. do 2 step. rewrite notify_run. step.
  rewrite sendFCM_run. unfold settled. rewrite !fcm_tokens_fold. unfold notify_trace.
  cbn [List.map settlement_writes write_target]. by rewrite <- !app_assoc.
Qed.

(** A settlement commits whole or not at all. *)
Lemma settle_store oid o ts s tr :
  store (snd (settle oid o ts (mkWorld s tr))) = s \/
  store (snd (settle oid o ts (mkWorld s tr))) = settled s oid o ts.
Proof.
  destruct (first_missing s
    (settlement_writes oid o (commissionRate_of (config s !! "app_config")) ts))
    as [[c id]|] eqn:E.
  - left. unfold settle. step. by erewrite bind_throw by eauto with run.
  - right. by rewrite settle_ok.
Qed.

Lemma mark_failed_ok oid o o' ts s tr :
  orders s !! oid = Some o' ->
  mark_failed oid o ts (mkWorld s tr) =
  (Ok tt, mkWorld (failed s oid ts)
     (tr ++ [EvUpdate "orders" oid] ++ notify_trace s (o_buyerId o) PaymentFailed)).
Proof.
  intros H. unfold mark_failed. do 2 step. rewrite sendFCM_run.
  unfold notify_trace, failed. cbn. by rewrite <- !app_assoc.
Qed.


Lemma process_order_settles oid o se bu pr ts s tr :
  orders s !! oid = Some o -> o_status o <> "completed" ->
  users s !! o_sellerId o = Some se ->
  users s !! o_buyerId o = Some bu ->
  products s !! o_productId o = Some pr ->
  process_order (JStr "SUCCESS") oid ts (mkWorld s tr) =
  (Ok (mkResponse 200 (BStatus "ok")),
   mkWorld (settled s oid o ts)
     (tr ++ [EvGet "orders" oid; EvGet "config" "app_config";
             EvCommit [("orders", oid); ("users", o_sellerId o);
                       ("products", o_productId o); ("users", o_buyerId o)]]
         ++ notify_trace s (o_sellerId o) NewSale
         ++ notify_trace s (o_buyerId o) PurchaseConfirmed)).
Proof.
  intros Ho Hst Hse Hbu Hpr. unfold process_order. step.
  rewrite Ho. cbn [is_string]. rewrite String.eqb_refl, (string_eqb_false _ _ Hst).
  erewrite bind_ok.
  2:{ apply settle_ok, first_missing_settlement; eauto using has_doc_Some. }
  unfold json_response, ret. by rewrite <- !app_assoc.
Qed.

(** What [process_order] can do to the store: nothing, or settle or fail
    the order, which was not completed. *)
Lemma process_order_store ps oid ts s tr :
  let s' := store (snd (process_order ps oid ts (mkWorld s tr))) in
  s' = s \/
  exists o, orders s !! oid = Some o /\ o_status o <> "completed" /\
    ((is_string ps "SUCCESS" = true /\ s' = settled s oid o ts) \/
     (is_string ps "FAILED" = true /\ s' = failed s oid ts)).
Proof.
  cbn zeta. unfold process_order. step.
  destruct (orders s !! oid) as [o|] eqn:Ho; [|by left].
  destruct (is_string ps "SUCCESS") eqn:Hps.
  - destruct (String.eqb (o_status o) "completed") eqn:Hst; [by left|].
    apply String.eqb_neq in Hst. rewrite then_response_store.
    destruct (settle_store oid o ts s (tr ++ [EvGet "orders" oid])) as [E|E];
      rewrite E; eauto 10.
  - destruct (is_string ps "FAILED") eqn:Hpf; [|by left].
    destruct (String.eqb (o_status o) "completed") eqn:Hst; [by left|].
    apply String.eqb_neq in Hst. cbn [negb]. rewrite then_response_store.
    erewrite mark_failed_ok by apply Ho.
    right. exists o. eauto 10.
Qed.

(** Past the signature check and the parse, the webhook is [process_order]
    on the event's status and order. *)
Lemma handleCallback_authentic rt raw sig tsh ts oid ps w :
  authentic rt raw sig tsh -> carries rt raw oid ps ->
  handleCallback rt raw sig tsh ts w =
  try_catch (process_order ps oid ts)
    (fun err => json_response 200 (BStatusError err)) w.
Proof.
  intros (key & sg & t & Hk & -> & -> & Hsg & Ht & Hmac) (ev & Hev & Hoid & Hps & Hne).
  unfold handleCallback, try_catch. f_equal.
  cbn [opt_truthy text]. unfold string_truthy.
  rewrite (string_eqb_false _ _ Hsg), (string_eqb_false _ _ Ht). cbn [negb orb].
  unfold createHmac_digest, parse_event. rewrite Hk, Hev, Hmac. step.
  rewrite String.eqb_refl. cbn [negb]. step.
  rewrite Hoid, Hps. cbn [truthy]. unfold string_truthy.
  rewrite (string_eqb_false _ _ Hne). cbn [negb doc_id]. by step.
Qed.

(** What a callback can do to the store: nothing, or, being authentic,
    settle or fail the order its event names, which was not completed. *)
Lemma handleCallback_store rt raw sig tsh ts s tr :
  let s' := store (snd (handleCallback rt raw sig tsh ts (mkWorld s tr))) in
  s' = s \/
  exists ev oid o,
    authentic rt raw sig tsh /\
    JSON_parse rt raw = Some ev /\ event_orderId ev = JStr oid /\
    orders s !! oid = Some o /\ o_status o <> "completed" /\
    ((is_string (event_paymentStatus ev) "SUCCESS" = true /\ s' = settled s oid o ts) \/
     (is_string (event_paymentStatus ev) "FAILED" = true /\ s' = failed s oid ts)).
Proof.
  intros s'.
  assert (Es' : s' = store (snd (handleCallback rt raw sig tsh ts (mkWorld s tr))))
    by reflexivity.
  clearbody s'. unfold handleCallback in Es'. rewrite try_catch_response_store in Es'.
  destruct sig as [sg|]; [|by left].
  destruct tsh as [t|]; [|cbn in Es'; rewrite orb_true_r in Es'; by left].
  cbn [opt_truthy text] in Es'.
  destruct (string_truthy sg) eqn:Hsg; [|by left].
  destruct (string_truthy t) eqn:Ht; [|by left]. cbn [negb orb] in Es'.
  unfold createHmac_digest in Es'.
  destruct (CASHFREE_SECRET_KEY rt) as [key|] eqn:Hk; [|by left].
  rewrite bind_ret in Es'.
  destruct (String.eqb (hmac_sha256_base64 rt key (t +:+ raw)) sg) eqn:Hmac; [|by left].
  cbn [negb] in Es'. unfold parse_event in Es'.
  destruct (JSON_parse rt raw) as [ev|] eqn:Hev; [|by left].
  rewrite bind_ret in Es'.
  destruct (truthy (event_orderId ev)) eqn:Htr; [|by left]. cbn [negb] in Es'.
  destruct (event_orderId ev) as [| |b|f|oid|xs|fs] eqn:Hoid; try (by left).
  cbn [doc_id] in Es'. rewrite bind_ret in Es'. subst s'.
  destruct (process_order_store (event_paymentStatus ev) oid ts s tr)
    as [E|(o & Ho & Hst & E)]; [by left|].
  right. exists ev, oid, o. split_and!; try done.
  exists key, sg, t. apply String.eqb_eq in Hmac.
  unfold string_truthy in *. apply negb_true_iff, String.eqb_neq in Hsg, Ht. done.
Qed.

(** What a callback can do to an order document. *)
Lemma order_after_callback rt rawBody signature timestamp ts s tr id o :
  orders s !! id = Some o ->
  let s' := store (snd (handleCallback rt rawBody signature timestamp ts (mkWorld s tr))) in
  orders s' !! id = Some o
  \/ (o_status o <> "completed" /\ exists fee earning,
        orders s' !! id = Some (complete_order fee earning ts o))
  \/ (o_status o <> "completed" /\ orders s' !! id = Some (fail_order ts o)).
Proof.
  intros Ho s'.
  destruct (handleCallback_store rt rawBody signature timestamp ts s tr)
    as [E|(ev & oid & o' & _ & _ & _ & Ho' & Hst' & [[_ E]|[_ E]])];
    fold s' in E; rewrite E.
  - by left.
  - rewrite orders_settled. destruct (decide (oid = id)) as [->|Hne].
    + right; left. rewrite lookup_alter_eq, Ho. simplify_eq. eauto.
    + left. by rewrite lookup_alter_ne.
  - unfold failed. cbn [orders with_orders]. destruct (decide (oid = id)) as [->|Hne].
    + right; right. rewrite lookup_alter_eq, Ho. by simplify_eq.
    + left. by rewrite lookup_alter_ne.
Qed.

(* ===================================================================== *)
(** ** Settlement of an order *)
(* ===================================================================== *)

Section Settlement.

(** An authentic SUCCESS callback for an order that is not yet completed
    and whose seller, buyer and product documents are in the store. *)
Variables (rt : Runtime) (rawBody : string) (signature timestamp : option string).
Variables (oid : string) (o : Order) (seller buyer : User) (product : Product) (s : Store).
Hypothesis callback_authentic : authentic rt rawBody signature timestamp.
Hypothesis callback_success : carries rt rawBody oid (JStr "SUCCESS").
Hypothesis order_stored : orders s !! oid = Some o.
Hypothesis order_open : o_status o <> "completed".
Hypothesis seller_stored : users s !! o_sellerId o = Some seller.
Hypothesis buyer_stored : users s !! o_buyerId o = Some buyer.
Hypothesis product_stored : products s !! o_productId o = Some product.

Lemma callback_settles ts tr :
  handleCallback rt rawBody signature timestamp ts (mkWorld s tr) =
  (Ok (mkResponse 200 (BStatus "ok")),
   mkWorld (settled s oid o ts)
     (tr ++ [EvGet "orders" oid; EvGet "config" "app_config";
             EvCommit [("orders", oid); ("users", o_sellerId o);
                       ("products", o_productId o); ("users", o_buyerId o)]]
         ++ notify_trace s (o_sellerId o) NewSale
         ++ notify_trace s (o_buyerId o) PurchaseConfirmed)).
Proof.
  erewrite handleCallback_authentic by eassumption.
  eapply try_catch_ok, process_order_settles; eassumption.
Qed.

Lemma order_after_settlement ts :
  orders (settled s oid o ts) !! oid
  = Some (complete_order (order_fee s o) (order_earning s o) ts o).
Proof. by rewrite orders_settled, lookup_alter_eq, order_stored. Qed.

Lemma seller_after_settlement ts :
  exists u, users (settled s oid o ts) !! o_sellerId o = Some u
    /\ u_walletBalance u = PrimFloat.add (u_walletBalance seller) (order_earning s o)
    /\ u_totalEarnings u = PrimFloat.add (u_totalEarnings seller) (order_earning s o).
Proof.
  rewrite users_settled, !lookup_alter.
  destruct (decide (o_buyerId o = o_sellerId o)) as [E|E];
    rewrite decide_True by done; rewrite seller_stored; cbn; eauto.
Qed.

Lemma buyer_after_settlement ts :
  exists u, users (settled s oid o ts) !! o_buyerId o = Some u
    /\ u_purchases u = arrayUnion (u_purchases buyer) (o_productId o).
Proof.
  rewrite users_settled, !lookup_alter. rewrite decide_True by done.
  destruct (decide (o_sellerId o = o_buyerId o)) as [E|E];
    rewrite ?E, buyer_stored; cbn; eauto.
Qed.

Lemma product_after_settlement ts :
  exists p, products (settled s oid o ts) !! o_productId o = Some p
    /\ p_sales p = PrimFloat.add (p_sales product) 1%float.
Proof. rewrite products_settled, lookup_alter_eq, product_stored. cbn. eauto. Qed.



(** C5: settling an order that is not yet completed (a pending one) whose
    stored amount is 1000, under a configured commission rate of 10,
    computes platform fee 100 and seller earning 900, records both on the
    completed order, adds exactly 900 to the seller's wallet balance and
    total earnings, adds 1 to the product's sale counter and puts the
    product in the buyer's purchases. The amount is the one stored on the
    order: the product document, whatever its price, contributes only its
    sale counter. *)
Theorem settlement_scenario cfg ts :
  o_amount o = 1000%float ->
  config s !! "app_config" = Some cfg ->
  c_commissionRate cfg = FNum 10%float ->
  let s' := store (snd (handleCallback rt rawBody signature timestamp ts (mkWorld s []))) in
  order_fee s o = 100%float
  /\ order_earning s o = 900%float
  /\ orders s' !! oid = Some (complete_order 100%float 900%float ts o)
  /\ (exists u, users s' !! o_sellerId o = Some u
        /\ u_walletBalance u = PrimFloat.add (u_walletBalance seller) 900%float
        /\ u_totalEarnings u = PrimFloat.add (u_totalEarnings seller) 900%float)
  /\ (exists p, products s' !! o_productId o = Some p
        /\ p_sales p = PrimFloat.add (p_sales product) 1%float)
  /\ (exists u, users s' !! o_buyerId o = Some u /\ In (o_productId o) (u_purchases u)).
Proof.
  intros Hamt Hcfg Hrate s'. subst s'. rewrite callback_settles. cbn [snd store].
  assert (Hfee : order_fee s o = 100%float).
  { unfold order_fee. rewrite Hcfg, Hamt. unfold commissionRate_of. by rewrite Hrate. }
  assert (Hearn : order_earning s o = 900%float).
  { unfold order_earning. by rewrite Hfee, Hamt. }
  split_and!; try done.
  - by rewrite order_after_settlement, Hfee, Hearn.
  - rewrite <- Hearn. apply seller_after_settlement.
  - apply product_after_settlement.
  - destruct (buyer_after_settlement ts) as (u & Hu & Hp).
    exists u. split; [done|]. rewrite Hp. apply arrayUnion_In.
Qed.

(** C10: when the configuration document exists and its [commissionRate]
    is falsy (0, -0, NaN, null or absent), settlement applies the default
    rate 10: the fee recorded on the order is amount * (10 / 100) and the
    seller is credited the amount minus that fee. *)
Theorem falsy_commission_rate_defaults cfg ts :
  config s !! "app_config" = Some cfg ->
  num_truthy (c_commissionRate cfg) = false ->
  let s' := store (snd (handleCallback rt rawBody signature timestamp ts (mkWorld s []))) in
  let fee := PrimFloat.mul (o_amount o) (PrimFloat.div 10%float 100%float) in
  let earning := PrimFloat.sub (o_amount o) fee in
  commissionRate_of (config s !! "app_config") = 10%float
  /\ orders s' !! oid = Some (complete_order fee earning ts o)
  /\ (exists u, users s' !! o_sellerId o = Some u
        /\ u_walletBalance u = PrimFloat.add (u_walletBalance seller) earning
        /\ u_totalEarnings u = PrimFloat.add (u_totalEarnings seller) earning).
Proof.
  intros Hcfg Hfalsy s' fee earning. subst s'. rewrite callback_settles. cbn [snd store].
  assert (Hrate : commissionRate_of (config s !! "app_config") = 10%float).
  { rewrite Hcfg. unfold commissionRate_of, num_or.
    destruct (c_commissionRate cfg) as [| |f]; try done. cbn in Hfalsy. by rewrite Hfalsy. }
  assert (Hfee : order_fee s o = fee) by (unfold order_fee; by rewrite Hrate).
  assert (Hearn : order_earning s o = earning) by (unfold order_earning; by rewrite Hfee).
  split_and!; [done| |].
  - by rewrite order_after_settlement, Hfee, Hearn.
  - rewrite <- Hearn. apply seller_after_settlement.
Qed.

End Settlement.

(* ===================================================================== *)
(** ** Terminal states and rejected callbacks *)
(* ===================================================================== *)

(** C3: a callback carrying payment status FAILED for an order whose status
    is completed leaves the order document as it was; indeed it leaves the
    whole store as it was. *)
Theorem failed_callback_leaves_completed rt rawBody signature timestamp ts oid o s tr :
  carries rt rawBody oid (JStr "FAILED") ->
  orders s !! oid = Some o ->
  o_status o = "completed" ->
  let w' := snd (handleCallback rt rawBody signature timestamp ts (mkWorld s tr)) in
  orders (store w') !! oid = Some o /\ store w' = s.
Proof.
  intros (ev & Hev & Hoid & Hps & Hne) Ho Hst w'.
  assert (E : store w' = s).
  { destruct (handleCallback_store rt rawBody signature timestamp ts s tr)
      as [E|(ev' & oid' & o' & _ & Hev' & Hoid' & Ho' & Hst' & _)]; [done|].
    congruence. }
  by rewrite E.
Qed.

(** C4, as amended: only completed is terminal. A callback of any kind
    leaves a completed order document unchanged; any other order document
    it leaves unchanged, or moves to completed, or moves to failed. An
    authentic SUCCESS callback does complete an order that is failed, when
    the order's seller, buyer and product documents exist. So the status
    follows pending -> completed, pending -> failed and also failed ->
    completed. *)
Theorem completed_is_terminal rt rawBody signature timestamp ts s tr id o :
  orders s !! id = Some o ->
  let s' := store (snd (handleCallback rt rawBody signature timestamp ts (mkWorld s tr))) in
  (exists o', orders s' !! id = Some o'
     /\ (o_status o = "completed" -> o' = o)
     /\ (o' = o
         \/ (o_status o <> "completed" /\ o_status o' = "completed")
         \/ (o_status o <> "completed" /\ o_status o' = "failed")))
  /\ (forall seller buyer product,
        o_status o = "failed" ->
        authentic rt rawBody signature timestamp ->
        carries rt rawBody id (JStr "SUCCESS") ->
        users s !! o_sellerId o = Some seller ->
        users s !! o_buyerId o = Some buyer ->
        products s !! o_productId o = Some product ->
        o_status <$> orders s' !! id = Some "completed").
Proof.
  intros Ho s'. split.
  - destruct (order_after_callback rt rawBody signature timestamp ts s tr id o Ho)
      as [E|[(Hst & fee & earning & E)|(Hst & E)]]; fold s' in E; rewrite E;
      eexists; (split; [reflexivity|]); split; try done; eauto.
  - intros seller buyer product Hst Ha Hc Hse Hbu Hpr. subst s'.
    assert (Hopen : o_status o <> "completed") by (rewrite Hst; discriminate).
    erewrite callback_settles by eassumption. cbn [snd store].
    by erewrite order_after_settlement.
Qed.

(** C6: with the gateway secret configured, a callback whose signature or
    timestamp header is missing or empty, or whose signature differs from
    the HMAC of the timestamp followed by the raw body, is answered 200
    with the reason [signature_missing] or [invalid_signature], and the
    world is returned as it was: the same store and not one event added to
    the trace, so no store read, no write and no external call. *)
Theorem rejected_signature_touches_nothing rt rawBody signature timestamp ts w key :
  CASHFREE_SECRET_KEY rt = Some key ->
  opt_truthy signature = false \/ opt_truthy timestamp = false
  \/ signature <> Some (hmac_sha256_base64 rt key (text timestamp +:+ rawBody)) ->
  exists reason,
    handleCallback rt rawBody signature timestamp ts w
      = (Ok (mkResponse 200 (BStatus reason)), w)
    /\ (reason = "signature_missing" \/ reason = "invalid_signature").
Proof.
  intros Hk Hbad. unfold handleCallback, try_catch.
  destruct (opt_truthy signature) eqn:Hs; cbn [negb orb].
  2:{ exists "signature_missing". eauto. }
  destruct (opt_truthy timestamp) eqn:Ht; cbn [negb orb].
  2:{ exists "signature_missing". eauto. }
  destruct Hbad as [?|[?|Hbad]]; try done.
  unfold createHmac_digest. rewrite Hk, bind_ret.
  destruct signature as [sg|]; [|done]. cbn [text].
  rewrite string_eqb_false by congruence. cbn [negb].
  exists "invalid_signature". eauto.
Qed.

(* ===================================================================== *)
(** ** Purchase initiation *)
(* ===================================================================== *)

Lemma initiate_cases rt uid productId uuid gw ts s tr :
  initiate_outcome rt uid productId uuid gw ts s tr
    (initiate rt uid productId uuid gw ts (mkWorld s tr)).
Proof.
  unfold initiate, try_catch.
  destruct (truthy productId) eqn:Htr; cbn [negb].
  2:{ unfold json_response, ret. rewrite <- (app_nil_r tr) at 2. by constructor. }
  destruct productId as [| |b|f|pid|xs|fs]; cbn [doc_id];
    try (unfold bind, throw, json_response, ret; rewrite <- (app_nil_r tr) at 2;
         by constructor).
  do 3 step. rewrite <- app_assoc. cbn [app].
  destruct (products s !! pid) as [product|] eqn:Hp.
  2:{ unfold json_response, ret. by constructor. }
  destruct (users s !! uid) as [buyer|] eqn:Hu.
  2:{ unfold json_response, ret. by constructor. }
  destruct (String.eqb (p_status product) "approved") eqn:Hst; cbn [negb].
  2:{ unfold json_response, ret. by constructor. }
  step. rewrite <- app_assoc. cbn [app].
  destruct (has_completed s uid pid) eqn:Hc; cbn [negb].
  { unfold json_response, ret. by constructor. }
  step. rewrite <- app_assoc. cbn [app].
  destruct gw as [errMsg|data].
  { unfold json_response, ret. by eapply initiate_gateway_failed. }
  step. rewrite <- app_assoc. cbn [app].
  destruct data as [cf|]; unfold throw, json_response, ret.
  - by eapply initiate_persisted with (data := Some cf).
  - by eapply initiate_persisted with (data := None).
Qed.


(** C7, as amended: while a completed order exists for a buyer and a
    product, [initiate] for that pair writes nothing, and answers 409 once
    the product is found approved and the buyer account found. The check is
    made at creation only. *)
Theorem initiate_rejects_repurchase rt uid pid oid order uuid gw ts s tr :
  orders s !! oid = Some order ->
  o_buyerId order = uid -> o_productId order = pid -> o_status order = "completed" ->
  let out := initiate rt uid (JStr pid) uuid gw ts (mkWorld s tr) in
  store (snd out) = s
  /\ (forall product buyer,
        pid <> "" ->
        products s !! pid = Some product -> p_status product = "approved" ->
        users s !! uid = Some buyer ->
        fst out = Ok (mkResponse 409 (BError "You have already purchased this product"))).
Proof.
  intros Ho Hb Hp Hst out.
  assert (Hc : has_completed s uid pid = true) by (apply has_completed_true; eauto 10).
  split.
  - subst out.
    destruct (initiate_cases rt uid (JStr pid) uuid gw ts s tr)
      as [r evs Hevs|pid' product buyer errMsg [= <-] _ _ Hc' _
          |pid' product buyer data [= <-] _ _ Hc' _]; [done|congruence..].
  - intros product buyer Hne Hpr Happ Hu. subst out. unfold initiate.
    erewrite try_catch_ok; [reflexivity|].
    cbn [truthy]. unfold string_truthy. rewrite (string_eqb_false _ _ Hne). cbn [negb doc_id].
    do 3 step. rewrite Hpr, Hu, Happ, String.eqb_refl. cbn [negb]. step.
    by rewrite Hc.
Qed.

(* ===================================================================== *)
(** ** The link cipher *)
(* ===================================================================== *)

Lemma from_hex_byte c rest :
  from_hex (String (hex_digit (nat_of_ascii c / 16))
              (String (hex_digit (nat_of_ascii c mod 16)) rest))
  = String c (from_hex rest).
Proof. destruct c as [[] [] [] [] [] [] [] []]; reflexivity. Qed.

(** [Buffer.from(b.toString("hex"), "hex")] is [b]. *)
Lemma from_hex_to_hex s : from_hex (to_hex s) = s.
Proof.
  induction s as [|c s IH]; [reflexivity|].
  cbn [to_hex]. rewrite from_hex_byte. by rewrite IH.
Qed.

Lemma hex_digit_not_colon n : Ascii.eqb (hex_digit n) ":" = false.
Proof. do 16 (destruct n as [|n]; [reflexivity|]). reflexivity. Qed.

Lemma split_on_to_hex s rest :
  split_on ":" (to_hex s +:+ String ":" rest) = to_hex s :: split_on ":" rest.
Proof.
  induction s as [|c s IH]; [reflexivity|].
  cbn [to_hex]. rewrite !append_cons. cbn [split_on].
  by rewrite !hex_digit_not_colon, IH.
Qed.

Lemma split_on_to_hex_end s : split_on ":" (to_hex s) = [to_hex s].
Proof.
  induction s as [|c s IH]; [reflexivity|].
  cbn [to_hex split_on]. by rewrite !hex_digit_not_colon, IH.
Qed.

(** Splitting an envelope at its colon gives back its two halves. *)
Lemma split_envelope iv encrypted :
  split_on ":" (to_hex iv +:+ ":" +:+ to_hex encrypted) = [to_hex iv; to_hex encrypted].
Proof.
  change (":" +:+ to_hex encrypted) with (String ":" (to_hex encrypted)).
  by rewrite split_on_to_hex, split_on_to_hex_end.
Qed.

Lemma cipher_key_world rt w : snd (cipher_key rt w) = w.
Proof. unfold cipher_key. by destruct (ENCRYPT_KEY rt). Qed.

Lemma encryptLink_world rt plain iv w : snd (encryptLink rt plain iv w) = w.
Proof.
  unfold encryptLink, bind. pose proof (cipher_key_world rt w) as Hk.
  destruct (cipher_key rt w) as [[key|e] w1]; cbn in Hk; subst w1; [|reflexivity].
  by destruct (aes_256_cbc_encrypt rt key iv plain).
Qed.

Lemma decryptLink_world rt x w : snd (decryptLink rt x w) = w.
Proof.
  unfold decryptLink. destruct (split_on ":" x) as [|ivHex parts]; [reflexivity|].
  unfold bind. pose proof (cipher_key_world rt w) as Hk.
  destruct (cipher_key rt w) as [[key|e] w1]; cbn in Hk; subst w1; [|reflexivity].
  destruct parts as [|encrypted parts]; [reflexivity|].
  by destruct (aes_256_cbc_decrypt rt key _ _).
Qed.

Lemma encryptLink_envelope rt plain iv link w :
  encryptLink rt plain iv w = (Ok link, w) <-> envelope_of rt plain iv link.
Proof.
  unfold encryptLink, cipher_key, envelope_of. split.
  - destruct (ENCRYPT_KEY rt) as [k|]; [|discriminate]. rewrite bind_ret.
    destruct (aes_256_cbc_encrypt rt _ iv plain) as [encrypted|] eqn:He; [|discriminate].
    intros [= <-]. eauto 10.
  - intros (k & encrypted & Hk & He & ->). by rewrite Hk, bind_ret, He.
Qed.

(** [decryptLink] undoes [encryptLink]. *)
Lemma decryptLink_envelope rt plain iv link w :
  cipher_inverts rt -> envelope_of rt plain iv link ->
  decryptLink rt link w = (Ok plain, w).
Proof.
  intros Hinv (k & encrypted & Hk & He & ->). unfold decryptLink.
  rewrite split_envelope. unfold cipher_key. rewrite Hk, bind_ret.
  by rewrite !from_hex_to_hex, (Hinv _ _ _ _ He).
Qed.

Lemma envelope_truthy rt plain iv link :
  envelope_of rt plain iv link -> opt_truthy (Some link) = true.
Proof. intros (k & encrypted & _ & _ & ->). by destruct (to_hex iv). Qed.

(* ===================================================================== *)
(** ** Download tokens *)
(* ===================================================================== *)

Lemma requestToken_issues rt uid pid product plain iv link uuid rnd now ts s tr :
  cipher_inverts rt ->
  has_completed s uid pid = true ->
  products s !! pid = Some product ->
  p_downloadLink product = Some link ->
  envelope_of rt plain iv link ->
  requestToken rt uid pid uuid rnd now ts (mkWorld s tr) =
  (Ok (mkResponse 200 (BToken (make_token uuid rnd))),
   mkWorld
     (with_download_tokens
        (insert (make_token uuid rnd) (new_token uid pid (make_token uuid rnd) plain now ts)) s)
     (tr ++ [EvQuery "orders"; EvGet "products" pid;
             EvSet "download_tokens" (make_token uuid rnd)])).
Proof.
  intros Hinv Hc Hp Hl He. unfold requestToken. apply try_catch_ok.
  step. rewrite Hc. cbn [negb]. step.
  rewrite Hp, Hl, (envelope_truthy _ _ _ _ He). cbn [negb text].
  erewrite bind_ok by (eapply decryptLink_envelope; eassumption).
  step. unfold json_response, ret. by rewrite <- !app_assoc.
Qed.

Lemma redeem_redirects token t now ts s tr :
  download_tokens s !! token = Some t ->
  t_used t = false ->
  now <= t_expiresAt t ->
  redeem token now ts (mkWorld s tr) =
  (Ok (mkResponse 302 (BRedirect (t_decryptedLink t))),
   mkWorld (with_download_tokens (alter (use_token ts) token) s)
     (tr ++ [EvGet "download_tokens" token; EvUpdate "download_tokens" token])).
Proof.
  intros Ht Hu Hn. unfold redeem. apply try_catch_ok. step.
  rewrite Ht, Hu. destruct (Z.ltb_spec (t_expiresAt t) now) as [?|_]; [lia|].
  step. unfold json_response, ret. by rewrite <- !app_assoc.
Qed.

Lemma redeem_used token t now ts s tr :
  download_tokens s !! token = Some t ->
  t_used t = true ->
  redeem token now ts (mkWorld s tr) =
  (Ok (mkResponse 410 (BError "This download link has already been used")),
   mkWorld s (tr ++ [EvGet "download_tokens" token])).
Proof. intros Ht Hu. unfold redeem. apply try_catch_ok. step. by rewrite Ht, Hu. Qed.

(** C9: for a completed purchase of a product whose stored link is the
    envelope [encryptLink] made of [location], and a cipher whose
    decryption undoes its encryption, [decryptLink] returns [location];
    [requestToken] answers with a token; redeeming that token once, before
    it expires, redirects to [location]; and redeeming it again, at any
    time, answers 410 Gone. *)
Theorem download_round_trip rt uid pid oid order product location iv link uuid rnd
    now ts now1 ts1 now2 ts2 s :
  cipher_inverts rt ->
  orders s !! oid = Some order ->
  o_buyerId order = uid -> o_productId order = pid -> o_status order = "completed" ->
  products s !! pid = Some product ->
  p_downloadLink product = Some link ->
  envelope_of rt location iv link ->
  now1 <= now + 10 * 60 * 1000 ->
  let token := make_token uuid rnd in
  let issued := requestToken rt uid pid uuid rnd now ts (mkWorld s []) in
  let first := redeem token now1 ts1 (snd issued) in
  let second := redeem token now2 ts2 (snd first) in
  decryptLink rt link (mkWorld s []) = (Ok location, mkWorld s [])
  /\ fst issued = Ok (mkResponse 200 (BToken token))
  /\ fst first = Ok (mkResponse 302 (BRedirect location))
  /\ fst second = Ok (mkResponse 410 (BError "This download link has already been used")).
Proof.
  intros Hinv Ho Hb Hp Hs Hpr Hl He Hn token issued first second.
  assert (Hc : has_completed s uid pid = true) by (apply has_completed_true; eauto 10).
  subst second first issued.
  erewrite requestToken_issues by eassumption. cbn [fst snd].
  erewrite redeem_redirects; cbn [download_tokens with_download_tokens];
    [|apply lookup_insert_eq|reflexivity|exact Hn].
  cbn [fst snd].
  erewrite redeem_used; cbn [download_tokens with_download_tokens];
    [|by rewrite lookup_alter_eq, lookup_insert_eq|reflexivity].
  split_and!; try reflexivity. by eapply decryptLink_envelope.
Qed.

(* ===================================================================== *)
(** ** What is stored of a download location *)
(* ===================================================================== *)

Lemma register_products b ts s tr :
  products (store (snd (register b ts (mkWorld s tr)))) = products s.
Proof.
  unfold register. rewrite try_catch_response_store.
  repeat match goal with |- context [if ?b then _ else _] => destruct b end; try reflexivity.
  step. by destruct (users s !! text (rb_uid b)).
Qed.

Lemma initiate_products rt uid productId uuid gw ts s tr :
  products (store (snd (initiate rt uid productId uuid gw ts (mkWorld s tr)))) = products s.
Proof. by destruct (initiate_cases rt uid productId uuid gw ts s tr). Qed.

Lemma handleCallback_products rt raw sig tsh ts s tr :
  let s' := store (snd (handleCallback rt raw sig tsh ts (mkWorld s tr))) in
  products s' = products s \/ exists pid, products s' = alter count_sale pid (products s).
Proof.
  intros s'.
  destruct (handleCallback_store rt raw sig tsh ts s tr)
    as [E|(ev & oid & o & _ & _ & _ & _ & _ & [[_ E]|[_ E]])]; fold s' in E; rewrite E.
  - by left.
  - right. eexists. apply products_settled.
  - by left.
Qed.

Lemma requestToken_products rt uid pid uuid rnd now ts s tr :
  products (store (snd (requestToken rt uid pid uuid rnd now ts (mkWorld s tr)))) = products s.
Proof.
  unfold requestToken. rewrite try_catch_response_store. step.
  destruct (negb (has_completed s uid pid)); [reflexivity|]. step.
  destruct (products s !! pid) as [product|]; [|reflexivity].
  destruct (negb (opt_truthy (p_downloadLink product))); [reflexivity|].
  unfold bind at 1.
  pose proof (decryptLink_world rt (text (p_downloadLink product))
    (mkWorld s ((tr ++ [EvQuery "orders"]) ++ [EvGet "products" pid]))) as Hw.
  destruct (decryptLink rt _ _) as [[link|e] w1]; cbn in Hw; subst w1; reflexivity.
Qed.

Lemma redeem_products token now ts s tr :
  products (store (snd (redeem token now ts (mkWorld s tr)))) = products s.
Proof.
  unfold redeem. rewrite try_catch_response_store. step.
  destruct (download_tokens s !! token) as [t|] eqn:Ht; [|reflexivity].
  destruct (t_used t); [reflexivity|]. destruct (t_expiresAt t <? now); [reflexivity|].
  by step.
Qed.

(** A product is created with the envelope of the uploaded location. *)
Lemma createProduct_products rt uid b iv newId ts s tr :
  let s' := store (snd (createProduct rt uid b iv newId ts (mkWorld s tr))) in
  products s' = products s
  \/ exists link, envelope_of rt (text (pb_downloadLink b)) iv link
       /\ products s' = <[newId := productData uid b link ts]> (products s).
Proof.
  intros s'.
  assert (Es' : s' = store (snd (createProduct rt uid b iv newId ts (mkWorld s tr))))
    by reflexivity.
  clearbody s'. unfold createProduct in Es'. rewrite try_catch_response_store in Es'.
  erewrite bind_ok in Es' by apply get_doc_run.
  destruct (users s !! uid) as [user|]; [|left; by subst].
  destruct (negb (String.eqb (u_role user) "seller")); [left; by subst|].
  match type of Es' with context [if ?b then _ else _] => destruct b end; [left; by subst|].
  unfold bind at 1 in Es'.
  pose proof (encryptLink_world rt (text (pb_downloadLink b)) iv
    (mkWorld s (tr ++ [EvGet "users" uid]))) as Hw.
  destruct (encryptLink rt (text (pb_downloadLink b)) iv _) as [[link|e] w1] eqn:E;
    cbn in Hw; subst w1; [|left; by subst].
  apply encryptLink_envelope in E. right. exists link. split; [done|].
  erewrite bind_ok in Es' by apply emit_run.
  unfold bind at 1 in Es'. unfold modify at 1 in Es'. cbv beta iota in Es'.
  cbn [store trace] in Es'.
  destruct (ADMIN_EMAIL rt) as [a|].
  - erewrite bind_ok in Es' by apply getUserFCMToken_run.
    erewrite bind_ok in Es' by apply sendFCM_run. by subst.
  - rewrite bind_ret in Es'.
    erewrite bind_ok in Es' by apply sendFCM_run. by subst.
Qed.

(** Every request keeps the products encrypted. *)
Lemma serve_products_encrypted rt r ts s tr :
  products_encrypted rt s ->
  products_encrypted rt (store (snd (serve rt r ts (mkWorld s tr)))).
Proof.
  intros Hinv id p. destruct r; cbn [serve].
  - rewrite register_products. apply Hinv.
  - destruct (createProduct_products rt uid b iv newId ts s tr) as [E|(link & He & E)];
      rewrite E; [apply Hinv|].
    destruct (decide (newId = id)) as [->|Hne].
    + rewrite lookup_insert_eq. intros [= <-]. exists (text (pb_downloadLink b)), iv, link. done.
    + rewrite lookup_insert_ne by done. apply Hinv.
  - rewrite initiate_products. apply Hinv.
  - destruct (handleCallback_products rt rawBody signature timestamp ts s tr) as [E|[pid E]];
      rewrite E; [apply Hinv|].
    rewrite lookup_alter. case_decide; [|apply Hinv]. subst.
    destruct (products s !! id) as [p0|] eqn:Hp0; [|done]. intros [= <-].
    apply (Hinv id p0 Hp0).
  - rewrite requestToken_products. apply Hinv.
  - rewrite redeem_products. apply Hinv.
Qed.

Lemma reachable_products_encrypted rt s : reachable rt s -> products_encrypted rt s.
Proof.
  induction 1 as [|s s' _ IH (r & ts & tr & <-)].
  - intros id p. cbn. by rewrite lookup_empty.
  - by apply serve_products_encrypted.
Qed.

(** Serving requests stays within the reachable stores. *)
Lemma serve_all_reachable rt reqs s tr :
  reachable rt s -> reachable rt (store (snd (serve_all rt reqs (mkWorld s tr)))).
Proof.
  revert s tr. induction reqs as [|[r ts] reqs IH]; intros s tr Hs; [done|].
  cbn [serve_all]. destruct (serve rt r ts (mkWorld s tr)) as [res [s1 tr1]] eqn:E.
  specialize (IH s1 tr1). destruct (serve_all rt reqs (mkWorld s1 tr1)) as [ress w2].
  cbn [snd] in *. apply IH. eapply reachable_step; [exact Hs|].
  exists r, ts, tr. by rewrite E.
Qed.

(** C2, as amended: in every store the servers reach, each product
    document holds its download location only as an envelope made by
    [encryptLink]. The token document [requestToken] writes for a completed
    purchase holds the decrypted location itself in [decryptedLink], and
    [redeem] leaves it there. *)
Theorem products_hold_envelope_tokens_hold_plaintext rt :
  cipher_inverts rt ->
  (forall s id p, reachable rt s -> products s !! id = Some p -> holds_envelope rt p)
  /\ (forall s uid pid oid order product location iv link uuid rnd now ts now1 ts1,
        orders s !! oid = Some order ->
        o_buyerId order = uid -> o_productId order = pid -> o_status order = "completed" ->
        products s !! pid = Some product ->
        p_downloadLink product = Some link ->
        envelope_of rt location iv link ->
        let token := make_token uuid rnd in
        let issued := store (snd (requestToken rt uid pid uuid rnd now ts (mkWorld s []))) in
        let redeemed := store (snd (redeem token now1 ts1 (mkWorld issued []))) in
        t_decryptedLink <$> download_tokens issued !! token = Some location
        /\ t_decryptedLink <$> download_tokens redeemed !! token = Some location).
Proof.
  intros Hinv. split.
  - intros s id p Hs. by apply reachable_products_encrypted.
  - intros s uid pid oid order product location iv link uuid rnd now ts now1 ts1
      Ho Hb Hp Hst Hpr Hl He token issued redeemed.
    assert (Hc : has_completed s uid pid = true) by (apply has_completed_true; eauto 10).
    assert (Hi : issued = with_download_tokens
      (insert token (new_token uid pid token location now ts)) s).
    { subst issued. by erewrite requestToken_issues. }
    assert (Ht : download_tokens issued !! token
                 = Some (new_token uid pid token location now ts)).
    { rewrite Hi. cbn [download_tokens with_download_tokens]. apply lookup_insert_eq. }
    split; [by rewrite Ht|].
    subst redeemed. unfold redeem. rewrite try_catch_response_store. step.
    rewrite Ht. cbn [t_used new_token t_expiresAt].
    destruct (_ <? now1).
    { unfold json_response, ret. cbn [snd store]. by rewrite Ht. }
    step. unfold json_response, ret. cbn [snd store download_tokens with_download_tokens].
    by rewrite lookup_alter_eq, Ht.
Qed.

(* ===================================================================== *)
(** ** The theorems at work on the demonstration store *)
(* ===================================================================== *)

Lemma demo_authentic oid ps :
  authentic Demo.rt (Demo.event_text oid ps) (Demo.signature_of oid ps "1700000000")
    (Some "1700000000").
Proof.
  exists "cf_secret", (Demo.mac "cf_secret" ("1700000000" +:+ Demo.event_text oid ps)),
    "1700000000".
  split_and!; try reflexivity; discriminate.
Qed.

Lemma demo_carries_success :
  carries Demo.rt (Demo.event_text Demo.oid1 "SUCCESS") Demo.oid1 (JStr "SUCCESS").
Proof.
  exists (Demo.event_value Demo.oid1 "SUCCESS").
  split_and!; try reflexivity; discriminate.
Qed.

Lemma demo_carries_failed :
  carries Demo.rt (Demo.event_text Demo.oid1 "FAILED") Demo.oid1 (JStr "FAILED").
Proof.
  exists (Demo.event_value Demo.oid1 "FAILED").
  split_and!; try reflexivity; discriminate.
Qed.

Lemma flip_bits_involutive c : Demo.flip_bits (Demo.flip_bits c) = c.
Proof. destruct c. cbn. by rewrite !negb_involutive. Qed.

Lemma flip_involutive s : Demo.flip (Demo.flip s) = s.
Proof. induction s as [|c s IH]; [done|]. cbn. by rewrite flip_bits_involutive, IH. Qed.

Lemma demo_cipher_inverts : cipher_inverts Demo.rt.
Proof.
  intros key iv plain encrypted. cbn. unfold Demo.crypt.
  destruct (_ && _)%bool; [|discriminate]. intros [= <-]. by rewrite flip_involutive.
Qed.

Lemma demo_envelope : envelope_of Demo.rt Demo.location Demo.iv0 Demo.envelope1.
Proof.
  exists "0123456789abcdef0123456789abcdef", (Demo.flip Demo.location).
  split_and!; reflexivity.
Qed.


(** C3 at work: a FAILED callback for the paid demo order leaves it as it
    was. *)
Lemma failed_callback_leaves_completed_witness :
  orders (store (snd (handleCallback Demo.rt (Demo.event_text Demo.oid1 "FAILED")
                        (Demo.signature_of Demo.oid1 "FAILED" "1700000000")
                        (Some "1700000000") 6 (mkWorld Demo.paid []))))
    !! Demo.oid1
  = Some (complete_order 100%float 900%float 5 Demo.order1).
Proof.
  refine (proj1 (failed_callback_leaves_completed Demo.rt _ _ _ 6 Demo.oid1 _ Demo.paid []
                   demo_carries_failed _ _)).
  - vm_compute. reflexivity.
  - vm_compute. reflexivity.
Defined.

(** C4 as amended, at work: a FAILED callback finds the paid demo order
    completed and leaves it be. *)
Lemma completed_is_terminal_witness :
  exists o',
    orders (store (snd (handleCallback Demo.rt (Demo.event_text Demo.oid1 "FAILED")
                          (Demo.signature_of Demo.oid1 "FAILED" "1700000000")
                          (Some "1700000000") 6 (mkWorld Demo.paid []))))
      !! Demo.oid1 = Some o'
    /\ (o_status (complete_order 100%float 900%float 5 Demo.order1) = "completed" ->
        o' = complete_order 100%float 900%float 5 Demo.order1)
    /\ (o' = complete_order 100%float 900%float 5 Demo.order1
        \/ (o_status (complete_order 100%float 900%float 5 Demo.order1) <> "completed"
            /\ o_status o' = "completed")
        \/ (o_status (complete_order 100%float 900%float 5 Demo.order1) <> "completed"
            /\ o_status o' = "failed")).
Proof.
  refine (proj1 (completed_is_terminal Demo.rt _ _ _ 6 Demo.paid [] Demo.oid1 _ _)).
  vm_compute. reflexivity.
Defined.

(** C4 as stated fails: the demo order, marked failed at time 5, is
    completed by a SUCCESS callback at time 6; and a second FAILED callback
    at time 6 overwrites its [failedAt]. *)
Lemma failed_order_is_not_terminal :
  let failing := (Demo.purchase ++ [ (Demo.callback Demo.oid1 "FAILED" "1700000000", 5) ])%list in
  let then_paid := (failing ++ [ (Demo.callback Demo.oid1 "SUCCESS" "1700000000", 6) ])%list in
  let then_failed := (failing ++ [ (Demo.callback Demo.oid1 "FAILED" "1700000000", 6) ])%list in
  o_status <$> orders (Demo.after failing) !! Demo.oid1 = Some "failed"
  /\ o_status <$> orders (Demo.after then_paid) !! Demo.oid1 = Some "completed"
  /\ o_failedAt <$> orders (Demo.after failing) !! Demo.oid1 = Some (Some 5)
  /\ o_failedAt <$> orders (Demo.after then_failed) !! Demo.oid1 = Some (Some 6).
Proof. vm_compute. repeat split. Qed.

(** C5 at work: the demo order of 1000 settles at fee 100 and earning 900
    under a configured rate of 10, though the product is by then listed at
    2500. *)
Lemma settlement_scenario_witness :
  orders (store (snd (handleCallback Demo.rt (Demo.event_text Demo.oid1 "SUCCESS")
                        (Demo.signature_of Demo.oid1 "SUCCESS" "1700000000")
                        (Some "1700000000") 5
                        (mkWorld (Demo.with_rate (FNum 10%float)
                                    (Demo.repriced Demo.ordered)) []))))
    !! Demo.oid1
  = Some (complete_order 100%float 900%float 5 Demo.order1)
  /\ p_price <$> products (Demo.repriced Demo.ordered) !! "prod1" = Some 2500%float.
Proof.
  split; [|vm_compute; reflexivity].
  refine (proj1 (proj2 (proj2
    (settlement_scenario Demo.rt _ _ _ Demo.oid1 Demo.order1 Demo.seller1 Demo.buyer1
       (productData "seller1"
          (mkProductBody (Some "Icon pack") (Some "Two hundred icons") (FNum 2500%float)
             FAbsent (Some "design") None None None (Some Demo.location))
          Demo.envelope1 3)
       (Demo.with_rate (FNum 10%float) (Demo.repriced Demo.ordered))
       (demo_authentic _ _) demo_carries_success _ _ _ _ _
       (mkConfig (FNum 10%float)) 5 _ _ _)))).
  all: vm_compute; try reflexivity; discriminate.
Defined.

(** C6 at work: a forged signature is turned away and the world is as it
    was. *)
Lemma rejected_signature_touches_nothing_witness :
  exists reason,
    handleCallback Demo.rt (Demo.event_text Demo.oid1 "SUCCESS") (Some "forged")
      (Some "1700000000") 5 (mkWorld Demo.ordered [])
    = (Ok (mkResponse 200 (BStatus reason)), mkWorld Demo.ordered [])
    /\ (reason = "signature_missing" \/ reason = "invalid_signature").
Proof.
  refine (rejected_signature_touches_nothing Demo.rt _ _ _ 5 _ "cf_secret" _ _).
  - reflexivity.
  - right; right. vm_compute. discriminate.
Defined.

(** C10 at work: with the rate configured as 0 the demo order of 1000
    still settles at fee 100 and earning 900. *)
Lemma falsy_commission_rate_defaults_witness :
  orders (store (snd (handleCallback Demo.rt (Demo.event_text Demo.oid1 "SUCCESS")
                        (Demo.signature_of Demo.oid1 "SUCCESS" "1700000000")
                        (Some "1700000000") 5
                        (mkWorld (Demo.with_rate (FNum 0%float) Demo.ordered) []))))
    !! Demo.oid1
  = Some (complete_order 100%float 900%float 5 Demo.order1).
Proof.
  refine (proj1 (proj2
    (falsy_commission_rate_defaults Demo.rt _ _ _ Demo.oid1 Demo.order1 Demo.seller1
       Demo.buyer1 Demo.product1 (Demo.with_rate (FNum 0%float) Demo.ordered)
       (demo_authentic _ _) demo_carries_success _ _ _ _ _
       (mkConfig (FNum 0%float)) 5 _ _))).
  all: vm_compute; try reflexivity; discriminate.
Defined.

(** C7 as amended, at work: once the demo order is paid, a second
    initiation for the same buyer and product writes nothing. *)
Lemma initiate_rejects_repurchase_witness :
  store (snd (initiate Demo.rt "buyer1" (JStr "prod1") Demo.uuid2 Demo.session 7
                (mkWorld Demo.paid [])))
  = Demo.paid.
Proof.
  refine (proj1 (initiate_rejects_repurchase Demo.rt "buyer1" "prod1" Demo.oid1
                   (complete_order 100%float 900%float 5 Demo.order1)
                   Demo.uuid2 Demo.session 7 Demo.paid [] _ _ _ _)).
  all: vm_compute; reflexivity.
Defined.

(** C7 as stated fails: two orders initiated for one buyer and product
    while neither is completed are both completed by their callbacks, in a
    store the servers reach, and the seller is credited twice. *)
Lemma two_completed_orders_for_one_pair :
  let s := Demo.after
    (Demo.purchase ++
     [ (ReqInitiate "buyer1" (JStr "prod1") Demo.uuid2 Demo.session, 5);
       (Demo.callback Demo.oid1 "SUCCESS" "1700000000", 6);
       (Demo.callback Demo.oid2 "SUCCESS" "1700000001", 7) ])%list in
  reachable Demo.rt s
  /\ completed_for "buyer1" "prod1" <$> orders s !! Demo.oid1 = Some true
  /\ completed_for "buyer1" "prod1" <$> orders s !! Demo.oid2 = Some true
  /\ Demo.oid1 <> Demo.oid2
  /\ u_walletBalance <$> users s !! "seller1" = Some 1800%float.
Proof.
  cbv zeta. split.
  - apply serve_all_reachable. constructor.
  - vm_compute. repeat split. discriminate.
Qed.

(** C9 at work: a token issued for the paid demo order redirects to the
    location the seller uploaded, once. *)
Lemma download_round_trip_witness :
  fst (requestToken Demo.rt "buyer1" "prod1" "33333333-3333-4333-8333-333333333333"
         Demo.iv0 1000 7 (mkWorld Demo.paid []))
  = Ok (mkResponse 200 (BToken Demo.token1))
  /\ fst (redeem Demo.token1 2000 8
            (snd (requestToken Demo.rt "buyer1" "prod1"
                    "33333333-3333-4333-8333-333333333333" Demo.iv0 1000 7
                    (mkWorld Demo.paid []))))
     = Ok (mkResponse 302 (BRedirect Demo.location))
  /\ fst (redeem Demo.token1 3000 9
            (snd (redeem Demo.token1 2000 8
                    (snd (requestToken Demo.rt "buyer1" "prod1"
                            "33333333-3333-4333-8333-333333333333" Demo.iv0 1000 7
                            (mkWorld Demo.paid []))))))
     = Ok (mkResponse 410 (BError "This download link has already been used")).
Proof.
  refine (proj2 (download_round_trip Demo.rt "buyer1" "prod1" Demo.oid1
                   (complete_order 100%float 900%float 5 Demo.order1)
                   (count_sale Demo.product1) Demo.location Demo.iv0 Demo.envelope1
                   "33333333-3333-4333-8333-333333333333" Demo.iv0 1000 7 2000 8 3000 9
                   Demo.paid demo_cipher_inverts _ _ _ _ _ _ demo_envelope _)).
  all: vm_compute; try reflexivity. discriminate.
Defined.

(** C2 as amended, at work: the demo product holds an envelope, and the
    token issued for it holds the uploaded location. *)
Lemma products_hold_envelope_tokens_hold_plaintext_witness :
  holds_envelope Demo.rt (count_sale Demo.product1)
  /\ t_decryptedLink <$>
       download_tokens
         (store (snd (requestToken Demo.rt "buyer1" "prod1"
                        "33333333-3333-4333-8333-333333333333" Demo.iv0 1000 7
                        (mkWorld Demo.paid []))))
       !! Demo.token1
     = Some Demo.location.
Proof.
  split.
  - refine (proj1 (products_hold_envelope_tokens_hold_plaintext Demo.rt demo_cipher_inverts)
              Demo.paid "prod1" _ _ _).
    + apply serve_all_reachable. constructor.
    + vm_compute. reflexivity.
  - refine (proj1 (proj2 (products_hold_envelope_tokens_hold_plaintext Demo.rt
                            demo_cipher_inverts)
              Demo.paid "buyer1" "prod1" Demo.oid1
              (complete_order 100%float 900%float 5 Demo.order1)
              (count_sale Demo.product1) Demo.location Demo.iv0 Demo.envelope1
              "33333333-3333-4333-8333-333333333333" Demo.iv0 1000 7 2000 8
              _ _ _ _ _ _ demo_envelope)).
    all: vm_compute; reflexivity.
Defined.

(** C2 as stated fails: in a store the servers reach, the token document
    written by [requestToken] holds the location exactly as the seller
    uploaded it, while the product document holds the envelope. *)
Lemma token_document_holds_plaintext :
  let s := Demo.after
    [ (ReqRegister Demo.seller_body, 1); (ReqRegister Demo.buyer_body, 2);
      (ReqCreateProduct "seller1" Demo.product_body Demo.iv0 "prod1", 3);
      (ReqInitiate "buyer1" (JStr "prod1") Demo.uuid1 Demo.session, 4);
      (Demo.callback Demo.oid1 "SUCCESS" "1700000000", 5);
      (ReqRequestToken "buyer1" "prod1" "33333333-3333-4333-8333-333333333333"
         Demo.iv0 1000, 7) ] in
  reachable Demo.rt s
  /\ pb_downloadLink Demo.product_body = Some "https://files.example/p1.zip"
  /\ t_decryptedLink <$> download_tokens s !! Demo.token1
     = Some "https://files.example/p1.zip"
  /\ p_downloadLink <$> products s !! "prod1" = Some (Some Demo.envelope1).
Proof.
  cbv zeta. split.
  - apply serve_all_reachable. constructor.
  - vm_compute. repeat split.
Qed.

(* ===================================================================== *)
(** ** The webhook, whatever it is sent *)
(* ===================================================================== *)




(** X2: the webhook creates no document and deletes none: after any
    callback the orders, users and products collections hold documents
    under exactly the ids they held before, and the download tokens, the
    notification tokens and the configuration are as they were. *)
Theorem webhook_keeps_documents rt rawBody signature timestamp ts s tr :
  let s' := store (snd (handleCallback rt rawBody signature timestamp ts (mkWorld s tr))) in
  (forall id, is_Some (orders s' !! id) <-> is_Some (orders s !! id))
  /\ (forall id, is_Some (users s' !! id) <-> is_Some (users s !! id))
  /\ (forall id, is_Some (products s' !! id) <-> is_Some (products s !! id))
  /\ download_tokens s' = download_tokens s
  /\ fcm_tokens s' = fcm_tokens s
  /\ config s' = config s.
Proof.
  intros s'.
  destruct (handleCallback_store rt rawBody signature timestamp ts s tr)
    as [E|(ev & oid & o & _ & _ & _ & _ & _ & [[_ E]|[_ E]])]; fold s' in E; rewrite E.
  - done.
  - rewrite orders_settled, users_settled, products_settled.
    split_and!; try done; intros id; by rewrite ?lookup_alter_is_Some.
  - unfold failed. cbn. split_and!; try done. intros id. by rewrite lookup_alter_is_Some.
Qed.

Lemma process_order_fails oid o ts s tr :
  orders s !! oid = Some o -> o_status o <> "completed" ->
  process_order (JStr "FAILED") oid ts (mkWorld s tr) =
  (Ok (mkResponse 200 (BStatus "ok")),
   mkWorld (failed s oid ts)
     (tr ++ [EvGet "orders" oid; EvUpdate "orders" oid]
         ++ notify_trace s (o_buyerId o) PaymentFailed)).
Proof.
  intros Ho Hst. unfold process_order. step. rewrite Ho. cbn [is_string].
  replace (String.eqb "FAILED" "SUCCESS") with false by reflexivity.
  rewrite String.eqb_refl, (string_eqb_false _ _ Hst). cbn [negb].
  erewrite bind_ok by (eapply mark_failed_ok; apply Ho).
  unfold json_response, ret. by rewrite <- !app_assoc.
Qed.

(** X3: an authentic FAILED callback for an order that is not completed
    is answered [ok]; it updates that one order document, setting status
    [failed] and [failedAt] and nothing else, leaves every other order,
    every wallet and every product as it was, and then notifies the buyer
    of the failed payment. This holds for a pending order and for one
    already failed, whose [failedAt] it overwrites. *)
Theorem failed_callback_marks_order rt rawBody signature timestamp ts oid o s tr :
  authentic rt rawBody signature timestamp ->
  carries rt rawBody oid (JStr "FAILED") ->
  orders s !! oid = Some o ->
  o_status o <> "completed" ->
  let out := handleCallback rt rawBody signature timestamp ts (mkWorld s tr) in
  fst out = Ok (mkResponse 200 (BStatus "ok"))
  /\ orders (store (snd out)) = <[oid := fail_order ts o]> (orders s)
  /\ users (store (snd out)) = users s
  /\ products (store (snd out)) = products s
  /\ trace (snd out) =
     (tr ++ [EvGet "orders" oid; EvUpdate "orders" oid]
         ++ notify_trace s (o_buyerId o) PaymentFailed)%list.
Proof.
  intros Ha Hc Ho Hst out. subst out.
  erewrite handleCallback_authentic by eassumption.
  erewrite try_catch_ok by (eapply process_order_fails; eassumption).
  cbn [fst snd store trace]. split_and!; try done.
  unfold failed. cbn [orders with_orders].
  apply map_eq. intros id. rewrite lookup_alter.
  destruct (decide (oid = id)) as [<-|Hne].
  - by rewrite lookup_insert_eq, Ho.
  - by rewrite lookup_insert_ne.
Qed.


(* ===================================================================== *)
(** ** Purchase initiation: what is charged and what is stored *)
(* ===================================================================== *)

(** X5: [initiate] calls the payment gateway only for a product that
    exists and is approved, a buyer whose account exists and a pair
    without a completed order; the amount it sends is the product's
    discount price when that is a number other than 0 and NaN, and its
    price otherwise. When it answers 201 the gateway returned a session,
    and the order stored under the id sent to the gateway is pending,
    belongs to the caller, names the product's seller and carries exactly
    the amount sent. *)
Theorem gateway_called_for_purchasable_only rt uid productId uuid gw ts s :
  let out := initiate rt uid productId uuid gw ts (mkWorld s []) in
  (forall payload,
     In (EvGateway payload) (trace (snd out)) ->
     exists pid product buyer,
       productId = JStr pid
       /\ products s !! pid = Some product /\ p_status product = "approved"
       /\ users s !! uid = Some buyer
       /\ has_completed s uid pid = false
       /\ payload = cashfreeOrderPayload rt uid pid (make_orderId uuid)
                      (num_or (p_discountPrice product) (p_price product)) buyer)
  /\ (forall b,
     fst out = Ok (mkResponse 201 b) ->
     exists pid product payload cf,
       productId = JStr pid
       /\ products s !! pid = Some product
       /\ gw = GwReturns (Some cf)
       /\ b = BSession (payment_session_id cf) (order_id payload)
       /\ In (EvGateway payload) (trace (snd out))
       /\ orders (store (snd out)) !! order_id payload
          = Some (pending_order uid pid (order_id payload) (order_amount payload) product ts)).
Proof.
  intros out. subst out. unfold initiate, try_catch.
  destruct (truthy productId) eqn:Htr; cbn [negb].
  2:{ unfold json_response, ret. cbn. split; [by intros ? []|discriminate]. }
  destruct productId as [| |b0|f|pid|xs|fs]; cbn [doc_id];
    try (unfold bind, throw, json_response, ret; cbn; split; [by intros ? []|discriminate]).
  do 3 step. cbn [app].
  destruct (products s !! pid) as [product|] eqn:Hp.
  2:{ unfold json_response, ret. cbn. split; [|discriminate].
      intros ? Hin. repeat (destruct Hin as [[=]|Hin]). done. }
  destruct (users s !! uid) as [buyer|] eqn:Hu.
  2:{ unfold json_response, ret. cbn. split; [|discriminate].
      intros ? Hin. repeat (destruct Hin as [[=]|Hin]). done. }
  destruct (String.eqb (p_status product) "approved") eqn:Hst; cbn [negb].
  2:{ unfold json_response, ret. cbn. split; [|discriminate].
      intros ? Hin. repeat (destruct Hin as [[=]|Hin]). done. }
  apply String.eqb_eq in Hst.
  step. cbn [app].
  destruct (has_completed s uid pid) eqn:Hc; cbn [negb].
  { unfold json_response, ret. cbn. split; [|discriminate].
    intros ? Hin. repeat (destruct Hin as [[=]|Hin]). done. }
  step. cbn [app].
  assert (Hgate : forall payload evs,
    In (EvGateway payload)
      ([EvGet "products" pid; EvGet "users" uid; EvQuery "orders";
        EvGateway (cashfreeOrderPayload rt uid pid (make_orderId uuid)
                     (orderAmount_of product) buyer)] ++ evs) ->
    (forall e, In e evs -> is_write e = true) ->
    exists pid0 product0 buyer0,
      JStr pid = JStr pid0
      /\ products s !! pid0 = Some product0 /\ p_status product0 = "approved"
      /\ Some buyer = Some buyer0
      /\ has_completed s uid pid0 = false
      /\ payload = cashfreeOrderPayload rt uid pid0 (make_orderId uuid)
                     (num_or (p_discountPrice product0) (p_price product0)) buyer0).
  { intros payload evs Hin Hevs.
    exists pid, product, buyer. split_and!; try done.
    cbn in Hin. destruct Hin as [[=]|[[=]|[[=]|[[= <-]|Hin]]]]; [done|].
    apply Hevs in Hin. discriminate Hin. }
  destruct gw as [errMsg|data].
  { unfold json_response, ret. cbn [fst snd trace store]. split; [|discriminate].
    intros payload Hin. apply (Hgate payload []); [done|by intros ? []]. }
  step. cbn [app].
  destruct data as [cf|]; unfold throw, json_response, ret; cbn [fst snd trace store].
  - split.
    + intros payload Hin. apply (Hgate payload [EvSet "orders" (make_orderId uuid)]); [done|].
      by intros ? [<-|[]].
    + intros b [= <-].
      exists pid, product,
        (cashfreeOrderPayload rt uid pid (make_orderId uuid) (orderAmount_of product) buyer), cf.
      split_and!; try done.
      * cbn. tauto.
      * cbn [orders with_orders order_id order_amount cashfreeOrderPayload].
        by rewrite lookup_insert_eq.
  - split; [|discriminate].
    intros payload Hin. apply (Hgate payload [EvSet "orders" (make_orderId uuid)]); [done|].
    by intros ? [<-|[]].
Qed.








(* ===================================================================== *)
(** ** Accounts and products: who may create what *)
(* ===================================================================== *)

(** The two ways [register] ends. *)
Lemma register_cases b ts s tr :
  let out := register b ts (mkWorld s tr) in
  (store (snd out) = s /\ exists c e, fst out = Ok (mkResponse c (BError e)))
  \/ (users s !! text (rb_uid b) = None
      /\ opt_truthy (rb_uid b) = true /\ opt_truthy (rb_email b) = true
      /\ opt_truthy (rb_fullName b) = true
      /\ (text (rb_role b) = "buyer" \/ text (rb_role b) = "seller")
      /\ fst out = Ok (mkResponse 201 (BUserCreated (text (rb_uid b))))
      /\ store (snd out) = with_users (insert (text (rb_uid b)) (userData b ts)) s).
Proof.
  cbn zeta. unfold register, try_catch.
  destruct (opt_truthy (rb_uid b)) eqn:H1; cbn [negb orb]; [|left; cbn; eauto].
  destruct (opt_truthy (rb_email b)) eqn:H2; cbn [negb orb]; [|left; cbn; eauto].
  destruct (opt_truthy (rb_fullName b)) eqn:H3; cbn [negb orb]; [|left; cbn; eauto].
  destruct (opt_truthy (rb_role b)) eqn:H4; cbn [negb orb]; [|left; cbn; eauto].
  destruct (String.eqb (text (rb_role b)) "buyer" || String.eqb (text (rb_role b)) "seller")
    eqn:Hr; cbn [negb]; [|left; cbn; eauto].
  step. destruct (users s !! text (rb_uid b)) as [u|] eqn:Hu; [left; cbn; eauto|].
  right. split_and!; try done.
  apply orb_true_iff in Hr as [Hr|Hr]; apply String.eqb_eq in Hr; auto.
Qed.

(** X11: [register] never touches an account that exists. It stores
    something only when the uid, the email, the full name and the role
    are all present and non-empty, the role is buyer or seller and no
    account exists under the uid; what it stores then is a fresh account
    under that uid with an empty wallet, no earnings, no wishlist and no
    purchases, answering 201. A uid that is taken is answered 409. *)
Theorem register_never_overwrites b ts s tr :
  let out := register b ts (mkWorld s tr) in
  let uid := text (rb_uid b) in
  (forall id u, users s !! id = Some u -> users (store (snd out)) !! id = Some u)
  /\ (store (snd out) = s
      \/ (users s !! uid = None
          /\ opt_truthy (rb_uid b) = true /\ opt_truthy (rb_email b) = true
          /\ opt_truthy (rb_fullName b) = true
          /\ (rb_role b = Some "buyer" \/ rb_role b = Some "seller")
          /\ fst out = Ok (mkResponse 201 (BUserCreated uid))
          /\ store (snd out) = with_users (insert uid (userData b ts)) s
          /\ u_walletBalance (userData b ts) = 0%float
          /\ u_totalEarnings (userData b ts) = 0%float
          /\ u_wishlist (userData b ts) = [] /\ u_purchases (userData b ts) = []))
  /\ (forall u,
        users s !! uid = Some u ->
        opt_truthy (rb_uid b) = true -> opt_truthy (rb_email b) = true ->
        opt_truthy (rb_fullName b) = true ->
        rb_role b = Some "buyer" \/ rb_role b = Some "seller" ->
        out = (Ok (mkResponse 409 (BError "User already exists")),
               mkWorld s (tr ++ [EvGet "users" uid]))).
Proof.
  intros out uid. split_and!.
  - intros id u Hu.
    destruct (register_cases b ts s tr) as [[E _]|(Hn & _ & _ & _ & _ & _ & E)];
      fold out in E; rewrite E; [done|].
    cbn [users with_users]. rewrite lookup_insert_ne; [done|]. intros <-. congruence.
  - destruct (register_cases b ts s tr) as [[E _]|(Hn & H1 & H2 & H3 & Hr & Hres & E)];
      [by left|right].
    split_and!; try done.
    destruct (rb_role b) as [r|]; cbn in Hr; [|by destruct Hr].
    destruct Hr as [->| ->]; auto.
  - intros u Hu H1 H2 H3 Hr. subst out uid. unfold register. apply try_catch_ok.
    rewrite H1, H2, H3.
    assert (opt_truthy (rb_role b) = true /\
            (String.eqb (text (rb_role b)) "buyer" || String.eqb (text (rb_role b)) "seller")
            = true) as [-> ->] by (by destruct Hr as [-> | ->]).
    cbn [negb orb]. step. by rewrite Hu.
Qed.

(** The two ways [createProduct] ends. *)
Lemma createProduct_cases rt uid b iv newId ts s tr :
  let out := createProduct rt uid b iv newId ts (mkWorld s tr) in
  (store (snd out) = s /\ exists c e, fst out = Ok (mkResponse c (BError e)))
  \/ exists user link,
       users s !! uid = Some user /\ u_role user = "seller"
       /\ opt_truthy (pb_title b) = true /\ opt_truthy (pb_description b) = true
       /\ num_truthy (pb_price b) = true /\ opt_truthy (pb_category b) = true
       /\ opt_truthy (pb_downloadLink b) = true
       /\ envelope_of rt (text (pb_downloadLink b)) iv link
       /\ fst out = Ok (mkResponse 201 (BProductCreated newId))
       /\ store (snd out) = with_products (insert newId (productData uid b link ts)) s.
Proof.
  intros out.
  assert (Eo : out = createProduct rt uid b iv newId ts (mkWorld s tr)) by reflexivity.
  clearbody out. unfold createProduct, try_catch in Eo.
  erewrite bind_ok in Eo by apply get_doc_run.
  destruct (users s !! uid) as [user|] eqn:Hu; [|left; subst; cbn; eauto].
  destruct (String.eqb (u_role user) "seller") eqn:Hr; cbn [negb] in Eo;
    [|left; subst; cbn; eauto].
  apply String.eqb_eq in Hr.
  destruct (opt_truthy (pb_title b)) eqn:H1; cbn [negb orb] in Eo; [|left; subst; cbn; eauto].
  destruct (opt_truthy (pb_description b)) eqn:H2; cbn [negb orb] in Eo;
    [|left; subst; cbn; eauto].
  destruct (num_truthy (pb_price b)) eqn:H3; cbn [negb orb] in Eo; [|left; subst; cbn; eauto].
  destruct (opt_truthy (pb_category b)) eqn:H4; cbn [negb orb] in Eo;
    [|left; subst; cbn; eauto].
  destruct (opt_truthy (pb_downloadLink b)) eqn:H5; cbn [negb orb] in Eo;
    [|left; subst; cbn; eauto].
  unfold bind at 1 in Eo.
  pose proof (encryptLink_world rt (text (pb_downloadLink b)) iv
    (mkWorld s (tr ++ [EvGet "users" uid]))) as Hw.
  destruct (encryptLink rt (text (pb_downloadLink b)) iv _) as [[link|e] w1] eqn:E;
    cbn in Hw; subst w1; [|left; subst; cbn; eauto].
  apply encryptLink_envelope in E. right. exists user, link.
  erewrite bind_ok in Eo by apply emit_run.
  unfold bind at 1 in Eo. unfold modify at 1 in Eo. cbv beta iota in Eo.
  cbn [store trace] in Eo.
  destruct (ADMIN_EMAIL rt) as [a|].
  - erewrite bind_ok in Eo by apply getUserFCMToken_run.
    erewrite bind_ok in Eo by apply sendFCM_run. subst out. by split_and!.
  - rewrite bind_ret in Eo.
    erewrite bind_ok in Eo by apply sendFCM_run. subst out. by split_and!.
Qed.

(** X12: [createProduct] stores a product only for a caller whose account
    exists with the role seller, and only when title, description, price,
    category and download link are all present and truthy. The product it
    stores is approved at once, belongs to the caller, has no clicks and no
    sales, and holds the download link as the envelope [encryptLink] made
    of it, not as it was uploaded. Anyone else is answered 403 and nothing
    is stored. *)
Theorem createProduct_for_sellers_only rt uid b iv newId ts s tr :
  let out := createProduct rt uid b iv newId ts (mkWorld s tr) in
  (store (snd out) = s
   \/ exists seller link,
        users s !! uid = Some seller /\ u_role seller = "seller"
        /\ opt_truthy (pb_title b) = true /\ opt_truthy (pb_description b) = true
        /\ num_truthy (pb_price b) = true /\ opt_truthy (pb_category b) = true
        /\ opt_truthy (pb_downloadLink b) = true
        /\ envelope_of rt (text (pb_downloadLink b)) iv link
        /\ fst out = Ok (mkResponse 201 (BProductCreated newId))
        /\ store (snd out) = with_products (insert newId (productData uid b link ts)) s
        /\ p_status (productData uid b link ts) = "approved"
        /\ p_sellerId (productData uid b link ts) = uid
        /\ p_downloadLink (productData uid b link ts) = Some link
        /\ p_sales (productData uid b link ts) = 0%float
        /\ p_clicks (productData uid b link ts) = 0%float)
  /\ ((forall user, users s !! uid = Some user -> u_role user <> "seller") ->
      out = (Ok (mkResponse 403 (BError "Only sellers can create products")),
             mkWorld s (tr ++ [EvGet "users" uid]))).
Proof.
  intros out. split.
  - destruct (createProduct_cases rt uid b iv newId ts s tr)
      as [[E _]|(user & link & Hu & Hr & H1 & H2 & H3 & H4 & H5 & He & Hres & E)];
      [by left|right].
    exists user, link. by split_and!.
  - intros Hno. subst out. unfold createProduct. apply try_catch_ok. step.
    destruct (users s !! uid) as [user|] eqn:Hu; [|done].
    by rewrite (string_eqb_false _ _ (Hno user eq_refl)).
Qed.

(* ===================================================================== *)
(** ** Download tokens: who gets one and how long it lives *)
(* ===================================================================== *)

Lemma decryptLink_pure rt x w w0 :
  fst (decryptLink rt x w) = fst (decryptLink rt x w0).
Proof.
  unfold decryptLink. destruct (split_on ":" x) as [|ivHex parts]; [reflexivity|].
  unfold bind, cipher_key. destruct (ENCRYPT_KEY rt) as [k|]; [|reflexivity]. cbn.
  destruct parts as [|encrypted parts]; [reflexivity|].
  by destruct (aes_256_cbc_decrypt rt _ _ _).
Qed.

Lemma decryptLink_run rt x w :
  decryptLink rt x w = (fst (decryptLink rt x (mkWorld empty_store [])), w).
Proof.
  rewrite (decryptLink_pure rt x (mkWorld empty_store []) w).
  pose proof (decryptLink_world rt x w) as Hw.
  destruct (decryptLink rt x w) as [r w1]. cbn in *. by subst.
Qed.

(** The ways [requestToken] ends. *)
Lemma requestToken_cases rt uid pid uuid rnd now ts s tr :
  let out := requestToken rt uid pid uuid rnd now ts (mkWorld s tr) in
  (store (snd out) = s /\ exists c e, fst out = Ok (mkResponse c (BError e)))
  \/ exists product link plain,
       has_completed s uid pid = true
       /\ products s !! pid = Some product
       /\ p_downloadLink product = Some link
       /\ fst (decryptLink rt link (mkWorld empty_store [])) = Ok plain
       /\ out = (Ok (mkResponse 200 (BToken (make_token uuid rnd))),
                 mkWorld
                   (with_download_tokens
                      (insert (make_token uuid rnd)
                         (new_token uid pid (make_token uuid rnd) plain now ts)) s)
                   (tr ++ [EvQuery "orders"; EvGet "products" pid;
                           EvSet "download_tokens" (make_token uuid rnd)])).
Proof.
  cbn zeta. unfold requestToken, try_catch. step.
  destruct (has_completed s uid pid) eqn:Hc; cbn [negb]; [|left; cbn; eauto].
  step. destruct (products s !! pid) as [product|] eqn:Hp; [|left; cbn; eauto].
  destruct (p_downloadLink product) as [link|] eqn:Hl; cbn [opt_truthy negb];
    [|left; cbn; eauto].
  destruct (string_truthy link) eqn:Hlt; cbn [negb text]; [|left; cbn; eauto].
  destruct (fst (decryptLink rt link (mkWorld empty_store []))) as [plain|e] eqn:Hd.
  - right. exists product, link, plain. split_and!; try done.
    erewrite bind_ok by (rewrite decryptLink_run, Hd; reflexivity).
    step. unfold json_response, ret. by rewrite <- !app_assoc.
  - left. erewrite bind_throw by (rewrite decryptLink_run, Hd; reflexivity). cbn. eauto.
Qed.

(** X9: a download token is issued only against a completed order. With
    no completed order of the caller for the product, whatever pending or
    failed orders there are, [requestToken] answers 403 after the one
    query: it reads no product, decrypts nothing and stores nothing. When
    it does store a token, the caller has a completed order for the
    product, the product's link decrypted, and the token holds the
    caller, the product and the decrypted link, unused. *)
Theorem token_only_against_completed_order rt uid pid uuid rnd now ts s tr :
  let out := requestToken rt uid pid uuid rnd now ts (mkWorld s tr) in
  ((forall id o, orders s !! id = Some o -> o_buyerId o = uid -> o_productId o = pid ->
                 o_status o <> "completed") ->
   out = (Ok (mkResponse 403 (BError "Purchase required to download this product")),
          mkWorld s (tr ++ [EvQuery "orders"])))
  /\ (store (snd out) = s
      \/ exists oid order product link plain,
           orders s !! oid = Some order
           /\ o_buyerId order = uid /\ o_productId order = pid
           /\ o_status order = "completed"
           /\ products s !! pid = Some product
           /\ p_downloadLink product = Some link
           /\ fst (decryptLink rt link (mkWorld s tr)) = Ok plain
           /\ fst out = Ok (mkResponse 200 (BToken (make_token uuid rnd)))
           /\ store (snd out)
              = with_download_tokens
                  (insert (make_token uuid rnd)
                     (new_token uid pid (make_token uuid rnd) plain now ts)) s
           /\ t_used (new_token uid pid (make_token uuid rnd) plain now ts) = false).
Proof.
  intros out. split.
  - intros Hno. subst out. unfold requestToken. apply try_catch_ok. step.
    destruct (has_completed s uid pid) eqn:Hc; [|done].
    apply has_completed_true in Hc as (id & o & Ho & Hb & Hp & Hst).
    by destruct (Hno id o).
  - destruct (requestToken_cases rt uid pid uuid rnd now ts s tr)
      as [[E _]|(product & link & plain & Hc & Hp & Hl & Hd & E)]; [by left|right].
    apply has_completed_true in Hc as (oid & order & Ho & Hb & Hpr & Hst).
    exists oid, order, product, link, plain. fold out in E. rewrite E.
    split_and!; try done.
    by rewrite (decryptLink_pure rt link _ (mkWorld empty_store [])).
Qed.

Lemma split_on_absent sep s :
  string_forall (fun c => negb (Ascii.eqb c sep)) s = true -> split_on sep s = [s].
Proof.
  induction s as [|c s IH]; cbn; [done|].
  intros [Hc Hs]%andb_true_iff. apply negb_true_iff in Hc. by rewrite Hc, IH.
Qed.

Lemma decryptLink_no_colon rt link w :
  string_forall (fun c => negb (Ascii.eqb c ":")) link = true ->
  decryptLink rt link w = (Throw TypeError, w).
Proof.
  intros H. unfold decryptLink. rewrite (split_on_absent _ _ H).
  unfold cipher_key. by destruct (ENCRYPT_KEY rt).
Qed.

(** X10: for a buyer with a completed order, a product whose stored link
    cannot be read issues no token. A link that is absent or empty is
    answered 500 [Product download link is not configured]; a link
    without a colon, which no [encryptLink] made, makes [decryptLink]
    throw and is answered 500 [Failed to generate download token]; so is
    any link when [ENCRYPT_KEY] is not set. In each case nothing is
    stored. *)
Theorem unreadable_link_issues_no_token rt uid pid product uuid rnd now ts s tr :
  has_completed s uid pid = true ->
  products s !! pid = Some product ->
  let out := requestToken rt uid pid uuid rnd now ts (mkWorld s tr) in
  let after := mkWorld s (tr ++ [EvQuery "orders"; EvGet "products" pid]) in
  (opt_truthy (p_downloadLink product) = false ->
   out = (Ok (mkResponse 500 (BError "Product download link is not configured")), after))
  /\ (forall link,
        p_downloadLink product = Some link -> link <> "" ->
        string_forall (fun c => negb (Ascii.eqb c ":")) link = true \/ ENCRYPT_KEY rt = None ->
        out = (Ok (mkResponse 500 (BError "Failed to generate download token")), after)).
Proof.
  intros Hc Hp out after. subst out after. unfold requestToken, try_catch.
  step. rewrite Hc. cbn [negb]. step. rewrite Hp, <- app_assoc. cbn [app]. split.
  - by intros ->.
  - intros link Hl Hne Hbad. rewrite Hl. cbn [opt_truthy text]. unfold string_truthy.
    rewrite (string_eqb_false _ _ Hne). cbn [negb].
    destruct Hbad as [Hno|Hk].
    + by erewrite bind_throw by (by apply decryptLink_no_colon).
    + erewrite bind_throw; [reflexivity|].
      unfold decryptLink. destruct (split_on ":" link) as [|ivHex parts]; [done|].
      unfold cipher_key. by rewrite Hk.
Qed.

(** The ways [redeem] ends. *)
Lemma redeem_cases token now ts s tr :
  let out := redeem token now ts (mkWorld s tr) in
  (store (snd out) = s /\ exists c e, fst out = Ok (mkResponse c (BError e)))
  \/ exists t,
       download_tokens s !! token = Some t /\ t_used t = false /\ now <= t_expiresAt t
       /\ out = (Ok (mkResponse 302 (BRedirect (t_decryptedLink t))),
                 mkWorld (with_download_tokens (alter (use_token ts) token) s)
                   (tr ++ [EvGet "download_tokens" token;
                           EvUpdate "download_tokens" token])).
Proof.
  cbn zeta.
  destruct (download_tokens s !! token) as [t|] eqn:Ht.
  2:{ left. unfold redeem, try_catch. step. rewrite Ht. cbn. eauto. }
  destruct (t_used t) eqn:Hu.
  { left. erewrite redeem_used by eassumption. cbn. eauto. }
  destruct (Z.ltb_spec (t_expiresAt t) now) as [Hlt|Hle].
  - left. unfold redeem, try_catch. step. rewrite Ht, Hu.
    destruct (Z.ltb_spec (t_expiresAt t) now) as [_|?]; [|lia]. cbn. eauto.
  - right. exists t. split_and!; try done. by apply redeem_redirects.
Qed.

(** X7: a token lives ten minutes, the last millisecond included. For a
    completed purchase whose product link [encryptLink] made of
    [location], the token [requestToken] issues at clock time [now]
    redirects to [location] when first redeemed at any time up to
    [now + 600000] and is marked used; first redeemed after that it is
    answered 410 [Download link has expired] and stays as issued, unused. *)
Theorem token_lives_ten_minutes rt uid pid oid order product location iv link uuid rnd
    now ts now1 ts1 s :
  cipher_inverts rt ->
  orders s !! oid = Some order ->
  o_buyerId order = uid -> o_productId order = pid -> o_status order = "completed" ->
  products s !! pid = Some product ->
  p_downloadLink product = Some link ->
  envelope_of rt location iv link ->
  let token := make_token uuid rnd in
  let issued := snd (requestToken rt uid pid uuid rnd now ts (mkWorld s [])) in
  let first := redeem token now1 ts1 issued in
  (now1 <= now + 600000 ->
   fst first = Ok (mkResponse 302 (BRedirect location))
   /\ download_tokens (store (snd first)) !! token
      = Some (use_token ts1 (new_token uid pid token location now ts)))
  /\ (now + 600000 < now1 ->
      fst first = Ok (mkResponse 410 (BError "Download link has expired"))
      /\ store (snd first) = store issued
      /\ download_tokens (store issued) !! token
         = Some (new_token uid pid token location now ts)).
Proof.
  intros Hinv Ho Hb Hp Hst Hpr Hl He token issued first.
  assert (Hc : has_completed s uid pid = true) by (apply has_completed_true; eauto 10).
  subst first issued. erewrite requestToken_issues by eassumption. cbn [snd].
  split.
  - intros Hn. erewrite redeem_redirects; cbn [download_tokens with_download_tokens];
      [|apply lookup_insert_eq|reflexivity|cbn; lia].
    cbn [fst snd store download_tokens with_download_tokens].
    by rewrite lookup_alter_eq, lookup_insert_eq.
  - intros Hn. unfold redeem, try_catch. step.
    cbn [download_tokens with_download_tokens]. rewrite lookup_insert_eq.
    cbn [t_used new_token t_expiresAt].
    destruct (Z.ltb_spec (now + 10 * 60 * 1000) now1) as [_|?]; [|lia].
    cbn [fst snd store json_response ret download_tokens with_download_tokens].
    by split_and!.
Qed.






(* ===================================================================== *)
(** ** The order status route *)
(* ===================================================================== *)

Lemma strict_eq_true a b : strict_eq a b = true <-> a = b.
Proof.
  destruct a as [x|], b as [y|]; cbn; try (split; congruence).
  rewrite String.eqb_eq. split; congruence.
Qed.

Lemma update_product_ok id f p s tr :
  products s !! id = Some p ->
  update_product id f (mkWorld s tr) =
  (Ok tt, mkWorld (with_products (alter f id) s) (tr ++ [EvUpdate "products" id])).
Proof. intros H. unfold update_product, bind, read. cbn. by rewrite H. Qed.

Lemma update_product_missing id f s tr :
  products s !! id = None ->
  update_product id f (mkWorld s tr) = (Throw (NotFound "products" id), mkWorld s tr).
Proof. intros H. unfold update_product, bind, read. cbn. by rewrite H. Qed.

Lemma update_user_ok id f u s tr :
  users s !! id = Some u ->
  update_user id f (mkWorld s tr) =
  (Ok tt, mkWorld (with_users (alter f id) s) (tr ++ [EvUpdate "users" id])).
Proof. intros H. unfold update_user, bind, read. cbn. by rewrite H. Qed.

Lemma queryStatus_run uid oid s tr :
  queryStatus uid oid (mkWorld s tr) =
  (Ok (match orders s !! oid with
       | None => mkReply 404 (AError "Order not found")
       | Some order =>
           if String.eqb (o_buyerId order) uid
           then mkReply 200 (AOrderStatus (o_status order) (o_productId order))
           else mkReply 403 (AError "Access denied to this order")
       end),
   mkWorld s (tr ++ [EvGet "orders" oid])).
Proof.
  unfold queryStatus. apply try_catch_ok. step.
  destruct (orders s !! oid) as [o|]; [|done]. by destruct (String.eqb _ _).
Qed.


(** X21: the buyer's view of an order follows the callbacks. For an order
    that is not completed, the status route shows the buyer the stored
    status; after an authentic SUCCESS callback, the seller, buyer and
    product documents being there, it shows [completed]; after an
    authentic FAILED callback it shows [failed]. *)
Theorem status_follows_the_callback rt rawBody signature timestamp oid o s ts tr :
  authentic rt rawBody signature timestamp ->
  orders s !! oid = Some o ->
  o_status o <> "completed" ->
  let after := snd (handleCallback rt rawBody signature timestamp ts (mkWorld s tr)) in
  fst (queryStatus (o_buyerId o) oid (mkWorld s tr))
    = Ok (mkReply 200 (AOrderStatus (o_status o) (o_productId o)))
  /\ (forall seller buyer product,
        carries rt rawBody oid (JStr "SUCCESS") ->
        users s !! o_sellerId o = Some seller ->
        users s !! o_buyerId o = Some buyer ->
        products s !! o_productId o = Some product ->
        fst (queryStatus (o_buyerId o) oid after)
        = Ok (mkReply 200 (AOrderStatus "completed" (o_productId o))))
  /\ (carries rt rawBody oid (JStr "FAILED") ->
      fst (queryStatus (o_buyerId o) oid after)
      = Ok (mkReply 200 (AOrderStatus "failed" (o_productId o)))).
Proof.
  intros Ha Ho Hst after. split_and!.
  - rewrite queryStatus_run, Ho. cbn. by rewrite String.eqb_refl.
  - intros seller buyer product Hc Hse Hbu Hpr. subst after.
    erewrite callback_settles by eassumption. cbn [snd].
    rewrite queryStatus_run. erewrite order_after_settlement by eassumption.
    cbn. by rewrite String.eqb_refl.
  - intros Hc. subst after.
    erewrite handleCallback_authentic by eassumption.
    unfold try_catch, process_order. step. rewrite Ho. cbn [is_string].
    replace (String.eqb "FAILED" "SUCCESS") with false by reflexivity.
    rewrite String.eqb_refl, (string_eqb_false _ _ Hst). cbn [negb].
    erewrite bind_ok by (eapply mark_failed_ok; apply Ho).
    cbn [json_response ret snd]. rewrite queryStatus_run.
    unfold failed. cbn [orders with_orders]. rewrite lookup_alter_eq, Ho.
    cbn. by rewrite String.eqb_refl.
Qed.

(* ===================================================================== *)
(** ** Clicks, deletions and wishlists *)
(* ===================================================================== *)

(** The two ways [clickProduct] ends. *)
Lemma clickProduct_run id s tr :
  clickProduct id (mkWorld s tr) =
  match products s !! id with
  | Some _ =>
      (Ok (mkReply 200 ASuccess),
       mkWorld (with_products (alter count_click id) s) (tr ++ [EvUpdate "products" id]))
  | None => (Ok (mkReply 500 (AError "Failed to record click")), mkWorld s tr)
  end.
Proof.
  unfold clickProduct, try_catch.
  destruct (products s !! id) as [p|] eqn:Hp.
  - by erewrite bind_ok by (by eapply update_product_ok).
  - by erewrite bind_throw by (by apply update_product_missing).
Qed.

(** X24: a click on a product that exists adds one to its click counter
    and changes nothing else of it: not its sales, its price, its status
    or its download link; every other product and every other collection
    stays as it was. A click on an id without a product is answered 500
    and creates nothing. *)
Theorem click_counts_one id s tr :
  let out := clickProduct id (mkWorld s tr) in
  (forall p, products s !! id = Some p ->
     fst out = Ok (mkReply 200 ASuccess)
     /\ store (snd out) = with_products (insert id (count_click p)) s
     /\ p_clicks (count_click p) = PrimFloat.add (p_clicks p) 1%float
     /\ p_sales (count_click p) = p_sales p
     /\ p_price (count_click p) = p_price p
     /\ p_status (count_click p) = p_status p
     /\ p_downloadLink (count_click p) = p_downloadLink p)
  /\ (products s !! id = None ->
      out = (Ok (mkReply 500 (AError "Failed to record click")), mkWorld s tr)).
Proof.
  intros out. subst out. rewrite clickProduct_run. split.
  - intros p Hp. rewrite Hp. cbn [fst snd store]. split_and!; try done.
    unfold with_products. f_equal. apply map_eq. intros k. rewrite lookup_alter.
    destruct (decide (id = k)) as [<-|Hne].
    + by rewrite lookup_insert_eq, Hp.
    + by rewrite lookup_insert_ne.
  - by intros ->.
Qed.

(** The ways [deleteProduct] ends. *)
Lemma deleteProduct_run rt user id s tr :
  deleteProduct rt user id (mkWorld s tr) =
  match products s !! id with
  | None => (Ok (mkReply 404 (AError "Product not found")),
             mkWorld s (tr ++ [EvGet "products" id]))
  | Some product =>
      if negb (String.eqb (p_sellerId product) (d_uid user))
         && negb (strict_eq (d_email user) (ADMIN_EMAIL rt))
      then (Ok (mkReply 403 (AError "Not authorized to delete this product")),
            mkWorld s (tr ++ [EvGet "products" id]))
      else (Ok (mkReply 200 ASuccess),
            mkWorld (with_products (delete id) s) (tr ++ [EvGet "products" id]))
  end.
Proof.
  unfold deleteProduct, try_catch. step.
  destruct (products s !! id) as [product|]; [|done].
  by destruct (_ && _).
Qed.

(** X22: a product is deleted only by its owner or by the administrator.
    [deleteProduct] changes the store only by removing that one product,
    and only when the caller's uid is the product's seller or the
    caller's email is strictly equal to [ADMIN_EMAIL] (both absent
    counts as equal); any other caller is answered 403 and the store
    stays as it was. No order, account or token is touched. *)
Theorem delete_by_owner_or_admin_only rt user id s tr :
  let out := deleteProduct rt user id (mkWorld s tr) in
  (store (snd out) = s
   \/ exists product,
        products s !! id = Some product
        /\ (p_sellerId product = d_uid user \/ d_email user = ADMIN_EMAIL rt)
        /\ fst out = Ok (mkReply 200 ASuccess)
        /\ store (snd out) = with_products (delete id) s)
  /\ (forall product,
        products s !! id = Some product ->
        p_sellerId product <> d_uid user -> d_email user <> ADMIN_EMAIL rt ->
        out = (Ok (mkReply 403 (AError "Not authorized to delete this product")),
               mkWorld s (tr ++ [EvGet "products" id])))
  /\ (forall product,
        products s !! id = Some product ->
        p_sellerId product = d_uid user \/ d_email user = ADMIN_EMAIL rt ->
        fst out = Ok (mkReply 200 ASuccess)
        /\ products (store (snd out)) !! id = None
        /\ (forall id', id' <> id -> products (store (snd out)) !! id' = products s !! id')).
Proof.
  intros out. subst out. rewrite deleteProduct_run. split_and!.
  - destruct (products s !! id) as [product|]; [|by left].
    destruct (String.eqb_spec (p_sellerId product) (d_uid user)) as [Ho|Ho]; cbn [negb andb].
    { right. exists product. by split_and!; auto. }
    destruct (strict_eq (d_email user) (ADMIN_EMAIL rt)) eqn:Ha; cbn [negb]; [|by left].
    apply strict_eq_true in Ha. right. exists product. by split_and!; auto.
  - intros product -> Ho Ha. rewrite (string_eqb_false _ _ Ho).
    destruct (strict_eq (d_email user) (ADMIN_EMAIL rt)) eqn:E; [|done].
    by apply strict_eq_true in E.
  - intros product -> Hok.
    assert (negb (String.eqb (p_sellerId product) (d_uid user))
            && negb (strict_eq (d_email user) (ADMIN_EMAIL rt)) = false) as ->.
    { destruct Hok as [->|Ha]; [by rewrite String.eqb_refl|].
      apply strict_eq_true in Ha. rewrite Ha. by rewrite andb_false_r. }
    cbn [fst snd store products with_products]. split_and!; [done|apply lookup_delete_eq|].
    intros id' Hne. by rewrite lookup_delete_ne.
Qed.

(** A settlement whose product document is missing commits nothing. *)
Lemma settlement_product_missing oid o rate ts s :
  products s !! o_productId o = None ->
  exists c i, first_missing s (settlement_writes oid o rate ts) = Some (c, i).
Proof.
  intros Hp. unfold first_missing.
  destruct (List.filter _ _) as [|w ws] eqn:E.
  - assert (In (WProduct (o_productId o) count_sale)
              (List.filter (fun w => negb (write_exists s w))
                 (settlement_writes oid o rate ts))) as Hin.
    { apply filter_In. split; [cbn; tauto|]. cbn. unfold has_doc. by rewrite Hp. }
    rewrite E in Hin. destruct Hin.
  - destruct (write_target w) as [c i]. by exists c, i.
Qed.

(** A settlement whose batch is rejected: the webhook acknowledges with
    the error and the store is as it was. *)
Lemma callback_rejected rt rawBody signature timestamp oid o ts s tr c i :
  authentic rt rawBody signature timestamp ->
  carries rt rawBody oid (JStr "SUCCESS") ->
  orders s !! oid = Some o -> o_status o <> "completed" ->
  first_missing s (settlement_writes oid o (commissionRate_of (config s !! "app_config")) ts)
    = Some (c, i) ->
  handleCallback rt rawBody signature timestamp ts (mkWorld s tr)
  = (Ok (mkResponse 200 (BStatusError (NotFound c i))),
     mkWorld s (tr ++ [EvGet "orders" oid; EvGet "config" "app_config"])).
Proof.
  intros Ha Hc Ho Hst Hm.
  erewrite handleCallback_authentic by eassumption.
  unfold try_catch, process_order. step. rewrite Ho. cbn [is_string].
  rewrite String.eqb_refl, (string_eqb_false _ _ Hst).
  unfold settle. erewrite bind_throw; [reflexivity|].
  step. erewrite bind_throw by eauto with run. by rewrite <- app_assoc.
Qed.

Lemma callback_product_missing rt rawBody signature timestamp oid o ts s tr :
  authentic rt rawBody signature timestamp ->
  carries rt rawBody oid (JStr "SUCCESS") ->
  orders s !! oid = Some o -> o_status o <> "completed" ->
  products s !! o_productId o = None ->
  exists c i,
    handleCallback rt rawBody signature timestamp ts (mkWorld s tr)
    = (Ok (mkResponse 200 (BStatusError (NotFound c i))),
       mkWorld s (tr ++ [EvGet "orders" oid; EvGet "config" "app_config"])).
Proof.
  intros Ha Hc Ho Hst Hp.
  destruct (settlement_product_missing oid o (commissionRate_of (config s !! "app_config"))
              ts s Hp) as (c & i & Hm).
  exists c, i. by eapply callback_rejected.
Qed.

(** X23: deleting a product cuts it off at once, paid or not. Once its
    owner has deleted it, a purchase of it is answered 404; a buyer who
    holds a completed order for it is refused the download with 404; and
    an authentic SUCCESS callback for an order of it that was still open
    settles nothing: the webhook answers 200 with the error of the
    rejected batch, the order stays as it was and the seller is not
    credited. *)
Theorem deleted_product_is_cut_off rt user id product s tr :
  products s !! id = Some product ->
  p_sellerId product = d_uid user ->
  let s' := store (snd (deleteProduct rt user id (mkWorld s tr))) in
  (forall uid uuid gw ts tr',
     id <> "" ->
     initiate rt uid (JStr id) uuid gw ts (mkWorld s' tr')
     = (Ok (mkResponse 404 (BError "Product not found")),
        mkWorld s' (tr' ++ [EvGet "products" id; EvGet "users" uid])))
  /\ (forall uid oid order uuid rnd now ts tr',
     orders s !! oid = Some order ->
     o_buyerId order = uid -> o_productId order = id -> o_status order = "completed" ->
     requestToken rt uid id uuid rnd now ts (mkWorld s' tr')
     = (Ok (mkResponse 404 (BError "Product not found")),
        mkWorld s' (tr' ++ [EvQuery "orders"; EvGet "products" id])))
  /\ (forall rawBody signature timestamp oid o ts tr',
     authentic rt rawBody signature timestamp ->
     carries rt rawBody oid (JStr "SUCCESS") ->
     orders s !! oid = Some o -> o_status o <> "completed" -> o_productId o = id ->
     exists c i,
       handleCallback rt rawBody signature timestamp ts (mkWorld s' tr')
       = (Ok (mkResponse 200 (BStatusError (NotFound c i))),
          mkWorld s' (tr' ++ [EvGet "orders" oid; EvGet "config" "app_config"]))).
Proof.
  intros Hp Ho s'.
  assert (Es : s' = with_products (delete id) s).
  { subst s'. rewrite deleteProduct_run, Hp, Ho, String.eqb_refl. reflexivity. }
  clearbody s'. subst s'. split_and!.
  - intros uid uuid gw ts tr' Hne. unfold initiate. apply try_catch_ok.
    cbn [truthy]. unfold string_truthy. rewrite (string_eqb_false _ _ Hne).
    cbn [negb doc_id]. do 3 step. cbn [products with_products].
    rewrite lookup_delete_eq, <- app_assoc. reflexivity.
  - intros uid oid order uuid rnd now ts tr' Hord Hb Hpr Hst.
    unfold requestToken. apply try_catch_ok. step.
    assert (has_completed (with_products (delete id) s) uid id = true) as ->.
    { apply has_completed_true. exists oid, order. by split_and!. }
    cbn [negb]. step. cbn [products with_products].
    rewrite lookup_delete_eq, <- app_assoc. reflexivity.
  - intros rawBody signature timestamp oid o ts tr' Ha Hc Hord Hst Hpr.
    apply (callback_product_missing rt rawBody signature timestamp oid o); try done.
    cbn [products with_products]. rewrite Hpr. apply lookup_delete_eq.
Qed.

Lemma arrayRemove_not_In l x : ~ In x (arrayRemove l x).
Proof.
  unfold arrayRemove. rewrite filter_In. intros [_ H].
  by rewrite String.eqb_refl in H.
Qed.

Lemma arrayRemove_In_ne l x y : y <> x -> In y (arrayRemove l x) <-> In y l.
Proof.
  intros Hne. unfold arrayRemove. rewrite filter_In.
  rewrite (string_eqb_false _ _ Hne). cbn. tauto.
Qed.

Lemma arrayRemove_absent l x : ~ In x l -> arrayRemove l x = l.
Proof.
  unfold arrayRemove. induction l as [|y l IH]; [done|]. cbn. intros Hn.
  destruct (String.eqb_spec y x) as [->|Hne]; [tauto|].
  cbn. rewrite IH; tauto.
Qed.

Lemma arrayRemove_app l l' x : arrayRemove (l ++ l') x = (arrayRemove l x ++ arrayRemove l' x)%list.
Proof. apply List.filter_app. Qed.

Lemma includes_In x l : existsb (String.eqb x) l = true <-> In x l.
Proof.
  rewrite existsb_exists. split.
  - intros (y & Hy & ->%String.eqb_eq). done.
  - intros H. exists x. by rewrite String.eqb_refl.
Qed.

Lemma arrayUnion_In_ne l x y : y <> x -> In y (arrayUnion l x) <-> In y l.
Proof.
  intros Hne. unfold arrayUnion. destruct (existsb _ _); [done|].
  rewrite in_app_iff. cbn. split; [|tauto]. intros [?|[?|[]]]; [done|congruence].
Qed.

(** The ways [toggleWishlist] ends for a product id that is given. *)
Lemma toggleWishlist_run uid pid s tr :
  pid <> "" ->
  toggleWishlist uid (Some pid) (mkWorld s tr) =
  match users s !! uid with
  | None => (Ok (mkReply 404 (AError "User not found")), mkWorld s (tr ++ [EvGet "users" uid]))
  | Some user =>
      if existsb (String.eqb pid) (u_wishlist user) then
        (Ok (mkReply 200 (AAdded false)),
         mkWorld (with_users (alter (set_wishlist (fun l => arrayRemove l pid)) uid) s)
           (tr ++ [EvGet "users" uid; EvUpdate "users" uid]))
      else
        (Ok (mkReply 200 (AAdded true)),
         mkWorld (with_users (alter (set_wishlist (fun l => arrayUnion l pid)) uid) s)
           (tr ++ [EvGet "users" uid; EvUpdate "users" uid]))
  end.
Proof.
  intros Hne. unfold toggleWishlist.
  cbn [opt_truthy text]. unfold string_truthy. rewrite (string_eqb_false _ _ Hne).
  cbn [negb].
  destruct (users s !! uid) as [user|] eqn:Hu.
  2:{ apply try_catch_ok. step. by rewrite Hu. }
  destruct (existsb (String.eqb pid) (u_wishlist user)) eqn:Hin;
    apply try_catch_ok; step; rewrite Hu, Hin;
    (erewrite bind_ok by (by eapply update_user_ok));
    unfold reply, ret; by rewrite <- app_assoc.
Qed.

(** X25: toggling the wishlist flips the membership of the one product
    and of nothing else. For an account that exists, the answer says
    [added] exactly when the product was not in the wishlist; afterwards
    the product is in the wishlist exactly when it was not before, every
    other product is in it exactly when it was before, and the wallet,
    the earnings, the purchases and the role of the account, every other
    account and every other collection are as they were. *)
Theorem toggle_flips_membership uid pid user s tr :
  users s !! uid = Some user -> pid <> "" ->
  let out := toggleWishlist uid (Some pid) (mkWorld s tr) in
  fst out = Ok (mkReply 200 (AAdded (negb (existsb (String.eqb pid) (u_wishlist user)))))
  /\ (exists user',
        users (store (snd out)) !! uid = Some user'
        /\ (In pid (u_wishlist user') <-> ~ In pid (u_wishlist user))
        /\ (forall x, x <> pid -> In x (u_wishlist user') <-> In x (u_wishlist user))
        /\ u_walletBalance user' = u_walletBalance user
        /\ u_totalEarnings user' = u_totalEarnings user
        /\ u_purchases user' = u_purchases user
        /\ u_role user' = u_role user)
  /\ (forall id, id <> uid -> users (store (snd out)) !! id = users s !! id)
  /\ orders (store (snd out)) = orders s
  /\ products (store (snd out)) = products s
  /\ download_tokens (store (snd out)) = download_tokens s.
Proof.
  intros Hu Hne out. subst out. rewrite toggleWishlist_run, Hu by done.
  destruct (existsb (String.eqb pid) (u_wishlist user)) eqn:Hin;
    cbn [fst snd store users with_users negb]; split_and!; try done.
  - eexists. rewrite lookup_alter_eq, Hu. cbn [fmap option_fmap option_map]. split; [done|].
    cbn [set_wishlist u_wishlist u_walletBalance u_totalEarnings u_purchases u_role].
    apply includes_In in Hin. split_and!; try done.
    + split; [by intros ?%arrayRemove_not_In|tauto].
    + intros x Hx. by apply arrayRemove_In_ne.
  - intros id Hid. by rewrite lookup_alter_ne.
  - eexists. rewrite lookup_alter_eq, Hu. cbn [fmap option_fmap option_map]. split; [done|].
    cbn [set_wishlist u_wishlist u_walletBalance u_totalEarnings u_purchases u_role].
    assert (~ In pid (u_wishlist user)) as Hnot.
    { intros H%includes_In. congruence. }
    split_and!; try done.
    + split; [done|]. intros _. apply arrayUnion_In.
    + intros x Hx. by apply arrayUnion_In_ne.
  - intros id Hid. by rewrite lookup_alter_ne.
Qed.

Lemma set_wishlist_twice f g u :
  f (g (u_wishlist u)) = u_wishlist u -> set_wishlist f (set_wishlist g u) = u.
Proof. intros H. destruct u. unfold set_wishlist. cbn in *. by rewrite H. Qed.

(** X26: toggling twice undoes itself for a product that was not in the
    wishlist: the first toggle answers [added: true], the second
    [added: false], and the store is exactly as it was before the two.
    For a product that was in the wishlist the two toggles leave it in,
    moved to the end of the list and without its duplicates. *)
Theorem toggle_twice_restores uid pid user s tr :
  users s !! uid = Some user -> pid <> "" ->
  let once := toggleWishlist uid (Some pid) (mkWorld s tr) in
  let twice := toggleWishlist uid (Some pid) (snd once) in
  (~ In pid (u_wishlist user) ->
   fst once = Ok (mkReply 200 (AAdded true))
   /\ fst twice = Ok (mkReply 200 (AAdded false))
   /\ store (snd twice) = s)
  /\ (In pid (u_wishlist user) ->
      fst once = Ok (mkReply 200 (AAdded false))
      /\ fst twice = Ok (mkReply 200 (AAdded true))
      /\ u_wishlist <$> users (store (snd twice)) !! uid
         = Some (arrayRemove (u_wishlist user) pid ++ [pid])%list).
Proof.
  intros Hu Hne once twice. subst twice once. rewrite toggleWishlist_run, Hu by done.
  split.
  - intros Hnot.
    assert (existsb (String.eqb pid) (u_wishlist user) = false) as ->.
    { apply not_true_is_false. by intros ?%includes_In. }
    cbn [fst snd]. rewrite toggleWishlist_run by done.
    cbn [users with_users]. rewrite lookup_alter_eq, Hu.
    cbn [fmap option_fmap option_map set_wishlist u_wishlist].
    assert (existsb (String.eqb pid) (arrayUnion (u_wishlist user) pid) = true) as ->.
    { apply includes_In, arrayUnion_In. }
    cbn [fst snd store]. split_and!; try done.
    destruct s as [os us ps ds fs cs]. unfold with_users. cbn in *. f_equal.
    apply map_eq. intros k.
    destruct (decide (uid = k)) as [<-|Hk]; [|by rewrite !lookup_alter_ne].
    rewrite !lookup_alter_eq, Hu. cbn [fmap option_fmap option_map]. f_equal.
    apply set_wishlist_twice. unfold arrayUnion.
    assert (existsb (String.eqb pid) (u_wishlist user) = false) as ->.
    { apply not_true_is_false. by intros ?%includes_In. }
    rewrite arrayRemove_app, arrayRemove_absent by done.
    cbn. by rewrite String.eqb_refl, app_nil_r.
  - intros Hin.
    assert (existsb (String.eqb pid) (u_wishlist user) = true) as ->
      by by apply includes_In.
    cbn [fst snd]. rewrite toggleWishlist_run by done.
    cbn [users with_users]. rewrite lookup_alter_eq, Hu.
    cbn [fmap option_fmap option_map set_wishlist u_wishlist].
    assert (existsb (String.eqb pid) (arrayRemove (u_wishlist user) pid) = false) as E.
    { apply not_true_is_false. intros H%includes_In. by apply arrayRemove_not_In in H. }
    rewrite E. cbn [fst snd store users with_users]. split_and!; try done.
    rewrite !lookup_alter_eq, Hu. cbn. unfold arrayUnion. by rewrite E.
Qed.

(* ===================================================================== *)
(** ** Notification tokens *)
(* ===================================================================== *)

Lemma saveToken_run uid token s tr :
  token <> "" ->
  saveToken uid (Some token) (mkWorld s tr) =
  (Ok (mkReply 200 ASuccess),
   mkWorld (with_fcm_tokens (insert uid token) s) (tr ++ [EvSet "fcm_tokens" uid])).
Proof.
  intros Hne. unfold saveToken. apply try_catch_ok.
  cbn [opt_truthy text]. unfold string_truthy. rewrite (string_eqb_false _ _ Hne).
  cbn [negb]. by step.
Qed.

(** X27: the token a seller saved last is the one a sale is pushed to.
    After [saveToken] for the seller of an open order, an authentic
    SUCCESS callback for that order (the seller, buyer and product
    documents being there) settles it and pushes the new-sale notice to
    the saved token and to no other; the same callback without any saved
    token pushes no new-sale notice at all. *)
Theorem saved_token_gets_the_sale_notice rt rawBody signature timestamp oid o
    seller buyer product token s ts :
  authentic rt rawBody signature timestamp ->
  carries rt rawBody oid (JStr "SUCCESS") ->
  orders s !! oid = Some o ->
  o_status o <> "completed" ->
  users s !! o_sellerId o = Some seller ->
  users s !! o_buyerId o = Some buyer ->
  products s !! o_productId o = Some product ->
  token <> "" ->
  let saved := snd (saveToken (o_sellerId o) (Some token) (mkWorld s [])) in
  let out := handleCallback rt rawBody signature timestamp ts (mkWorld (store saved) []) in
  fst out = Ok (mkResponse 200 (BStatus "ok"))
  /\ In (EvPush token NewSale) (trace (snd out))
  /\ (forall t, In (EvPush t NewSale) (trace (snd out)) -> t = token)
  /\ (fcm_tokens s !! o_sellerId o = None ->
      forall t, ~ In (EvPush t NewSale)
                  (trace (snd (handleCallback rt rawBody signature timestamp ts
                                 (mkWorld s []))))).
Proof.
  intros Ha Hc Ho Hst Hse Hbu Hpr Hne saved out. subst out saved.
  rewrite saveToken_run by done. cbn [snd store].
  erewrite (callback_settles rt rawBody signature timestamp oid o seller buyer product
              (with_fcm_tokens (insert (o_sellerId o) token) s)) by eassumption.
  erewrite (callback_settles rt rawBody signature timestamp oid o seller buyer product s)
    by eassumption.
  cbn [fst snd trace app]. unfold notify_trace.
  cbn [fcm_tokens with_fcm_tokens]. rewrite lookup_insert_eq.
  cbn [fcm_token_of]. unfold string_truthy. rewrite (string_eqb_false _ _ Hne).
  cbn [negb push_of app]. split_and!.
  - done.
  - cbn. tauto.
  - intros t Hin. cbn in Hin.
    destruct Hin as [[=]|[[=]|[[=]|[[=]|[[=]|Hin]]]]]; [done|].
    destruct (fcm_token_of _); cbn in Hin; by destruct Hin as [[=]|[]].
  - intros Hno t Hin. rewrite Hno in Hin. cbn in Hin.
    destruct Hin as [[=]|[[=]|[[=]|[[=]|Hin]]]].
    destruct (fcm_token_of _); cbn in Hin; by destruct Hin as [[=]|[]].
Qed.

(* ===================================================================== *)
(** ** What the listings show of a product *)
(* ===================================================================== *)

Lemma assoc_sanitize k product :
  assoc k (sanitizeProduct product) =
  if String.eqb k "downloadLink" then None else assoc k product.
Proof.
  unfold sanitizeProduct.
  induction product as [|[k' v] product IH]; cbn [List.filter fst assoc];
    [by destruct (String.eqb _ _)|].
  destruct (String.eqb_spec k' "downloadLink") as [->|Hk']; cbn [negb].
  - rewrite IH. by destruct (String.eqb_spec k "downloadLink").
  - cbn [assoc]. rewrite IH.
    destruct (String.eqb_spec k k') as [->|Hkk']; [|done].
    by rewrite (string_eqb_false _ _ Hk').
Qed.

(** X28: [sanitizeProduct] removes the download link and nothing else:
    the object it returns has no [downloadLink] property, every other
    property reads as it did, and its properties are those of the product
    other than [downloadLink]. *)
Theorem sanitizeProduct_strips_the_link_only product :
  get_prop (JObj (sanitizeProduct product)) "downloadLink" = JUndefined
  /\ (forall k, k <> "downloadLink" ->
        get_prop (JObj (sanitizeProduct product)) k = get_prop (JObj product) k)
  /\ (forall kv, In kv (sanitizeProduct product) <-> In kv product /\ fst kv <> "downloadLink").
Proof.
  split_and!.
  - cbn [get_prop]. by rewrite assoc_sanitize.
  - intros k Hk. cbn [get_prop]. by rewrite assoc_sanitize, (string_eqb_false _ _ Hk).
  - intros kv. unfold sanitizeProduct. rewrite filter_In, negb_true_iff, String.eqb_neq. tauto.
Qed.

(* ===================================================================== *)
(** ** What every store the routes reach has in common *)
(* ===================================================================== *)

Lemma toggleWishlist_store uid productId s tr :
  let s' := store (snd (toggleWishlist uid productId (mkWorld s tr))) in
  s' = s \/ exists f, s' = with_users (alter (set_wishlist f) uid) s.
Proof.
  cbn zeta. destruct productId as [pid|]; [|by left].
  destruct (String.eqb_spec pid "") as [->|Hne]; [by left|].
  rewrite toggleWishlist_run by done.
  destruct (users s !! uid) as [user|]; [|by left].
  destruct (existsb _ _); right; by eexists.
Qed.

Lemma saveToken_store uid token s tr :
  let s' := store (snd (saveToken uid token (mkWorld s tr))) in
  s' = s \/ exists t, s' = with_fcm_tokens (insert uid t) s.
Proof.
  cbn zeta. destruct token as [t|]; [|by left].
  destruct (String.eqb_spec t "") as [->|Hne]; [by left|].
  rewrite saveToken_run by done. right. by eexists.
Qed.

Lemma banUser_run id s tr :
  banUser id (mkWorld s tr) =
  match users s !! id with
  | Some _ =>
      (Ok (mkReply 200 ASuccess),
       mkWorld (with_users (alter (set_status "banned") id) s) (tr ++ [EvUpdate "users" id]))
  | None => (Ok (mkReply 500 (AError "Failed to ban user")), mkWorld s tr)
  end.
Proof.
  unfold banUser, try_catch. destruct (users s !! id) as [u|] eqn:Hu.
  - by erewrite bind_ok by (by eapply update_user_ok).
  - erewrite bind_throw; [reflexivity|].
    unfold update_user, bind, read. cbn. by rewrite Hu.
Qed.

Lemma adminConfig_run rate s tr :
  adminConfig rate (mkWorld s tr) =
  (Ok (mkReply 200 ASuccess),
   mkWorld
     (with_config
        (insert "app_config"
           (merge_config (commissionRate_update rate) (config s !! "app_config"))) s)
     (tr ++ [EvSet "config" "app_config"])).
Proof. reflexivity. Qed.

(** Every request changes the store in one of the listed ways. *)
Lemma visit_transition rt v ts s tr :
  transition s (store (visit rt v ts (mkWorld s tr))).
Proof.
  destruct v as [r|uid orderId|id|user id|uid productId|uid token|id|rate]; cbn [visit].
  - destruct r; cbn [serve].
    + destruct (register_cases b ts s tr) as [[E _]|(Hn & _ & _ & _ & Hr & _ & E)];
        rewrite E; by constructor.
    + destruct (createProduct_cases rt uid b iv newId ts s tr)
        as [[E _]|(user & link & Hu & Hr & _ & _ & _ & _ & _ & _ & _ & E)];
        rewrite E; [constructor|by econstructor].
    + destruct (initiate_cases rt uid productId uuid gw ts s tr); cbn [snd store];
        [constructor..|by econstructor].
    + destruct (handleCallback_store rt rawBody signature timestamp ts s tr)
        as [E|(ev & oid & o & _ & _ & _ & Ho & Hst & [[_ E]|[_ E]])]; rewrite E;
        [constructor|by constructor|by econstructor].
    + destruct (requestToken_cases rt uid productId uuid rnd now ts s tr)
        as [[E _]|(product & link & plain & _ & _ & _ & _ & E)]; rewrite E;
        by constructor.
    + destruct (redeem_cases token now ts s tr) as [[E _]|(t & _ & _ & _ & E)];
        rewrite E; by constructor.
  - rewrite queryStatus_run. constructor.
  - rewrite clickProduct_run. destruct (products s !! id); constructor.
  - rewrite deleteProduct_run. destruct (products s !! id); [|constructor].
    destruct (_ && _); constructor.
  - destruct (toggleWishlist_store uid productId s tr) as [E|[f E]]; rewrite E; constructor.
  - destruct (saveToken_store uid token s tr) as [E|[t E]]; rewrite E; constructor.
  - rewrite banUser_run. destruct (users s !! id); constructor.
  - rewrite adminConfig_run. constructor.
Qed.

Lemma lookup_alter_Some_inv {D} (f : D -> D) i (m : gmap string D) k d' :
  alter f i m !! k = Some d' -> exists d, m !! k = Some d /\ (d' = d \/ d' = f d).
Proof.
  rewrite lookup_alter. case_decide; [subst|by eauto].
  destruct (m !! k) as [d|]; cbn; [|done]. intros [= <-]. eauto.
Qed.

Lemma lookup_alter_Some_kept {D} (f : D -> D) i (m : gmap string D) k d :
  m !! k = Some d -> exists d', alter f i m !! k = Some d' /\ (d' = d \/ d' = f d).
Proof.
  intros H. rewrite lookup_alter. case_decide; [subst; rewrite H; cbn|]; eauto.
Qed.

(** The cases of a [transition], with their names. *)
Ltac transition_cases H :=
  destruct H as
    [ | b ts0 Hn Hr | uid user b link newId ts0 Hus Hr
    | uid pid product buyer orderId ts0 Hpr Hbu | oid o ts0 Hord Hst | oid o ts0 Hord Hst
    | token t | token ts0 | pid | pid | uid f | uid token | uid status | c ].

(** No request removes an account or changes its role. *)
Lemma transition_users_kept s s' :
  transition s s' ->
  forall k u, users s !! k = Some u ->
  exists u', users s' !! k = Some u' /\ u_role u' = u_role u.
Proof.
  intros Ht; transition_cases Ht;
    intros k u Hu; cbn [users with_users with_products with_orders
    with_download_tokens with_fcm_tokens with_config]; eauto.
  - exists u. split; [|done]. rewrite lookup_insert_ne; [done|]. intros <-. congruence.
  - rewrite users_settled.
    destruct (lookup_alter_Some_kept (credit_seller (order_earning s o)) (o_sellerId o)
                (users s) k u Hu) as (u1 & H1 & E1).
    destruct (lookup_alter_Some_kept (add_purchase (o_productId o)) (o_buyerId o)
                _ k u1 H1) as (u2 & H2 & E2).
    exists u2. split; [done|]. destruct E1 as [->| ->], E2 as [->| ->]; done.
  - destruct (lookup_alter_Some_kept (set_wishlist f) uid (users s) k u Hu)
      as (u1 & H1 & [->| ->]); eauto.
  - destruct (lookup_alter_Some_kept (set_status status) uid (users s) k u Hu)
      as (u1 & H1 & [->| ->]); eauto.
Qed.

Lemma transition_is_seller s s' uid : transition s s' -> is_seller s uid -> is_seller s' uid.
Proof.
  intros Ht (u & Hu & Hr).
  destruct (transition_users_kept s s' Ht uid u Hu) as (u' & Hu' & Hr').
  exists u'. split; [done|congruence].
Qed.

Lemma transition_has_user s s' uid :
  transition s s' -> is_Some (users s !! uid) -> is_Some (users s' !! uid).
Proof.
  intros Ht [u Hu].
  destruct (transition_users_kept s s' Ht uid u Hu) as (u' & Hu' & _). eauto.
Qed.

Lemma credit_seller_sound id e u : user_sound id u -> user_sound id (credit_seller e u).
Proof. intros (H1 & H2 & H3). split_and!; try done. cbn. by rewrite H3. Qed.

Lemma add_purchase_sound id p u : user_sound id u -> user_sound id (add_purchase p u).
Proof. by intros (H1 & H2 & H3). Qed.

Lemma set_wishlist_sound id f u : user_sound id u -> user_sound id (set_wishlist f u).
Proof. by intros (H1 & H2 & H3). Qed.

Lemma set_status_sound id st u : user_sound id u -> user_sound id (set_status st u).
Proof. by intros (H1 & H2 & H3). Qed.

Lemma transition_users_sound s s' :
  transition s s' ->
  (forall id u, users s !! id = Some u -> user_sound id u) ->
  forall id u, users s' !! id = Some u -> user_sound id u.
Proof.
  intros Ht; transition_cases Ht;
    intros Hs k u'; cbn [users with_users with_products with_orders
    with_download_tokens with_fcm_tokens with_config]; try apply Hs.
  - destruct (decide (text (rb_uid b) = k)) as [<-|Hne].
    + rewrite lookup_insert_eq. intros [= <-]. by split_and!.
    + rewrite lookup_insert_ne by done. apply Hs.
  - rewrite users_settled. intros H2.
    apply lookup_alter_Some_inv in H2 as (u1 & H1 & E2).
    apply lookup_alter_Some_inv in H1 as (u0 & H0 & E1).
    apply Hs in H0.
    destruct E1 as [->| ->], E2 as [->| ->];
      auto using credit_seller_sound, add_purchase_sound.
  - intros H1. apply lookup_alter_Some_inv in H1 as (u0 & H0 & [->| ->]);
      auto using set_wishlist_sound.
  - intros H1. apply lookup_alter_Some_inv in H1 as (u0 & H0 & [->| ->]);
      auto using set_status_sound.
Qed.

Lemma transition_products_sound s s' :
  transition s s' ->
  (forall id p, products s !! id = Some p -> is_seller s (p_sellerId p)) ->
  forall id p, products s' !! id = Some p -> is_seller s (p_sellerId p).
Proof.
  intros Ht; transition_cases Ht;
    intros Hs k p'; cbn [products with_users with_products with_orders
    with_download_tokens with_fcm_tokens with_config]; try apply Hs.
  - destruct (decide (newId = k)) as [<-|Hne].
    + rewrite lookup_insert_eq. intros [= <-]. by exists user.
    + rewrite lookup_insert_ne by done. apply Hs.
  - rewrite products_settled. intros H1.
    apply lookup_alter_Some_inv in H1 as (p0 & H0 & [->| ->]); by apply Hs in H0.
  - intros H1. apply lookup_alter_Some_inv in H1 as (p0 & H0 & [->| ->]); by apply Hs in H0.
  - rewrite lookup_delete. case_decide; [done|]. apply Hs.
Qed.

Lemma complete_order_sound s id fee_rate ts o :
  order_sound s id o -> o_status o <> "completed" ->
  order_sound s id
    (complete_order (platformFee_of (o_amount o) fee_rate)
       (sellerEarning_of (o_amount o) (platformFee_of (o_amount o) fee_rate)) ts o).
Proof.
  intros (H1 & H2 & H3 & H4) Hst. split_and!; try done.
  right; right. split; [done|]. exists fee_rate. by split_and!.
Qed.

Lemma fail_order_sound s id ts o :
  order_sound s id o -> o_status o <> "completed" -> order_sound s id (fail_order ts o).
Proof.
  intros (H1 & H2 & H3 & H4) Hst. split_and!; try done.
  right; left.
  destruct H4 as [(? & ? & ? & ? & ?)|[(? & ? & ? & ? & ?)|(? & _)]]; [| |done];
    by split_and!.
Qed.

Lemma transition_orders_sound s s' :
  transition s s' ->
  (forall id p, products s !! id = Some p -> is_seller s (p_sellerId p)) ->
  (forall id o, orders s !! id = Some o -> order_sound s id o) ->
  forall id o, orders s' !! id = Some o -> order_sound s id o.
Proof.
  intros Ht; transition_cases Ht;
    intros Hp Hs k o'; cbn [orders with_users with_products with_orders
    with_download_tokens with_fcm_tokens with_config]; try apply Hs.
  - destruct (decide (orderId = k)) as [<-|Hne].
    + rewrite lookup_insert_eq. intros [= <-]. split_and!; [done|by eexists|by eapply Hp|].
      left. by split_and!.
    + rewrite lookup_insert_ne by done. apply Hs.
  - rewrite orders_settled, lookup_alter. case_decide; [subst k|apply Hs].
    rewrite Hord. cbn. intros [= <-]. apply complete_order_sound; auto.
  - unfold failed. cbn [orders with_orders]. rewrite lookup_alter.
    case_decide; [subst k|apply Hs].
    rewrite Hord. cbn. intros [= <-]. apply fail_order_sound; auto.
Qed.

Lemma transition_sound s s' : transition s s' -> store_sound s -> store_sound s'.
Proof.
  intros Ht (Hu & Hp & Ho). split_and!.
  - by apply (transition_users_sound s s').
  - intros id p H. apply (transition_is_seller s s'); [done|].
    by apply (transition_products_sound s s' Ht Hp id).
  - intros id o H.
    destruct (transition_orders_sound s s' Ht Hp Ho id o H) as (H1 & H2 & H3 & H4).
    split_and!; [done| | |done].
    + by apply (transition_has_user s s').
    + by apply (transition_is_seller s s').
Qed.

Lemma reached_sound rt s : reached rt s -> store_sound s.
Proof.
  induction 1 as [|s v ts tr _ IH].
  - split_and!; intros id x; cbn; by rewrite lookup_empty.
  - eapply transition_sound; [apply visit_transition|done].
Qed.

(** What the two servers reach, all the routes reach. *)
Lemma reachable_reached rt s : reachable rt s -> reached rt s.
Proof.
  induction 1 as [|s s' _ IH (r & ts & tr & <-)]; [constructor|].
  by apply (reached_visit rt s (VServe r) ts tr).
Qed.



Lemma first_missing_product s oid o rate ts :
  has_doc (orders s) oid = true ->
  has_doc (users s) (o_sellerId o) = true ->
  products s !! o_productId o = None ->
  first_missing s (settlement_writes oid o rate ts) = Some ("products", o_productId o).
Proof.
  intros H1 H2 H3. unfold first_missing, settlement_writes.
  cbn [List.filter write_exists]. rewrite H1, H2. unfold has_doc. by rewrite H3.
Qed.

(** X16: in a store the routes reach, an authentic SUCCESS callback for
    an order that is not completed can go two ways only. If the order's
    product is still there the order is settled: the answer is [ok] and
    the one batch is committed. If the product has been deleted the batch
    is rejected for the missing product document: the answer is 200 with
    that error and the store is as it was. The order's seller and buyer
    accounts are always there. *)
Theorem open_order_settles_unless_product_deleted rt rawBody signature timestamp oid o ts s tr :
  reached rt s ->
  authentic rt rawBody signature timestamp ->
  carries rt rawBody oid (JStr "SUCCESS") ->
  orders s !! oid = Some o ->
  o_status o <> "completed" ->
  let out := handleCallback rt rawBody signature timestamp ts (mkWorld s tr) in
  (is_Some (products s !! o_productId o)
   /\ fst out = Ok (mkResponse 200 (BStatus "ok"))
   /\ store (snd out) = settled s oid o ts
   /\ o_status <$> orders (store (snd out)) !! oid = Some "completed")
  \/ (products s !! o_productId o = None
      /\ fst out = Ok (mkResponse 200 (BStatusError (NotFound "products" (o_productId o))))
      /\ store (snd out) = s).
Proof.
  intros Hs Ha Hc Ho Hst out.
  destruct (reached_sound rt s Hs) as (_ & _ & Hos).
  destruct (Hos oid o Ho) as (_ & [buyer Hbu] & (seller & Hse & _) & _).
  destruct (products s !! o_productId o) as [product|] eqn:Hp.
  - left. subst out. erewrite callback_settles by eassumption.
    cbn [fst snd store]. split_and!; [by eexists|done|done|].
    by erewrite order_after_settlement.
  - right. subst out.
    erewrite (callback_rejected rt rawBody signature timestamp oid o ts s tr
                "products" (o_productId o)); try eassumption; [done|].
    apply first_missing_product; eauto using has_doc_Some.
Qed.

(* ===================================================================== *)
(** ** The authentication middleware *)
(* ===================================================================== *)

Lemma split_from_nonempty sep k s : split_from sep k s <> [].
Proof.
  revert k. induction s as [|c s IH]; intros k; cbn [split_from]; [done|].
  destruct k as [|k]; [|apply IH].
  destruct (String.prefix sep (String c s)); [done|].
  by destruct (split_from sep 0 s).
Qed.

(** A header that starts with the separator splits into two parts or more. *)
Lemma split_str_second sep c rest h :
  sep = String c rest -> String.prefix sep h = true ->
  exists part, nth_error (split_str sep h) 1 = Some part.
Proof.
  intros -> Hp. destruct h as [|c' h]; [done|].
  unfold split_str. cbn [split_from]. rewrite Hp.
  pose proof (split_from_nonempty (String c rest) (String.length (String c rest) - 1) h) as Hn.
  destruct (split_from _ _ h) as [|part parts]; [done|]. by exists part.
Qed.

Lemma trimStart_head s c rest : trimStart s = String c rest -> is_white_space c = false.
Proof.
  induction s as [|c' s IH]; cbn; [done|].
  destruct (is_white_space c') eqn:E; [done|]. by intros [= <- _].
Qed.

Lemma trimEnd_idempotent s : trimEnd (trimEnd s) = trimEnd s.
Proof.
  induction s as [|c s IH]; cbn; [done|].
  destruct (trimEnd s) as [|c' kept] eqn:E.
  - destruct (is_white_space c) eqn:Hc; cbn; [done|by rewrite Hc].
  - cbn [trimEnd] in *. by rewrite IH.
Qed.

Lemma trimEnd_head c rest :
  is_white_space c = false -> exists kept, trimEnd (String c rest) = String c kept.
Proof. intros Hc. cbn. destruct (trimEnd rest); rewrite ?Hc; eauto. Qed.

(** What [trim] returns has no white space left at either end. *)
Lemma trim_idempotent s : trim (trim s) = trim s.
Proof.
  unfold trim. destruct (trimStart s) as [|c rest] eqn:E; [done|].
  destruct (trimEnd_head c rest (trimStart_head _ _ _ E)) as [kept Hk].
  rewrite Hk. cbn [trimStart]. rewrite (trimStart_head _ _ _ E), <- Hk.
  apply trimEnd_idempotent.
Qed.

(** X17: [authenticateUser] never throws, denies with 401 only, and
    grants only the user [verifyToken] returned for a token that is not
    empty and has no white space at either end, cut from a header that
    starts with [Bearer ]. Without the header, or with a header that does
    not start so, it denies without consulting [verifyToken]. *)
Theorem authenticateUser_grants_verified_only verifyToken authorization :
  (forall e, authenticateUser verifyToken authorization <> Uncaught e)
  /\ (forall c error, authenticateUser verifyToken authorization = Denied c error ->
        c = 401%nat /\ (error = "Unauthorized" \/ error = "Invalid token"))
  /\ (forall user,
        authenticateUser verifyToken authorization = Granted user ->
        exists authHeader part,
          authorization = Some authHeader
          /\ String.prefix "Bearer " authHeader = true
          /\ nth_error (split_str "Bearer " authHeader) 1 = Some part
          /\ trim part <> ""
          /\ trim (trim part) = trim part
          /\ verifyToken (trim part) = Some user)
  /\ (forall other,
        authorization = None
        \/ (exists authHeader, authorization = Some authHeader
                               /\ String.prefix "Bearer " authHeader = false) ->
        authenticateUser other authorization = Denied 401 "Unauthorized").
Proof.
  assert (Hother : forall other,
    authorization = None
    \/ (exists authHeader, authorization = Some authHeader
                           /\ String.prefix "Bearer " authHeader = false) ->
    authenticateUser other authorization = Denied 401 "Unauthorized").
  { intros other [->|(h & -> & Hp)]; [done|].
    unfold authenticateUser. by rewrite Hp, orb_true_r. }
  revert Hother.
  match goal with |- ?D -> ?A /\ ?B /\ ?C /\ ?D =>
    intros Hother; cut (A /\ B /\ C); [intros (? & ? & ?); by split_and!|clear Hother]
  end.
  unfold authenticateUser. destruct authorization as [h|].
  2:{ split_and!; try done. intros c e [= <- <-]. auto. }
  destruct (string_truthy h) eqn:Ht; cbn [negb orb].
  2:{ split_and!; try done. intros c e [= <- <-]. auto. }
  destruct (String.prefix "Bearer " h) eqn:Hp; cbn [negb].
  2:{ split_and!; try done. intros c e [= <- <-]. auto. }
  destruct (split_str_second "Bearer " _ _ h eq_refl Hp) as [part Hpart]. rewrite Hpart.
  destruct (string_truthy (trim part)) eqn:Htok; cbn [negb].
  2:{ split_and!; try done. intros c e [= <- <-]. auto. }
  destruct (verifyToken (trim part)) as [decoded|] eqn:Hv.
  - split_and!; try done.
    intros user [= <-]. exists h, part. split_and!; try done.
    + intros E. by rewrite E in Htok.
    + apply trim_idempotent.
  - split_and!; try done. intros c e [= <- <-]. auto.
Qed.

(** The characters of a token as it is sent: none of them white space. *)
Lemma prefix_forall f p s :
  String.prefix p s = true -> string_forall f s = true -> string_forall f p = true.
Proof.
  revert s. induction p as [|a p IH]; intros [|b s]; cbn; try done.
  destruct (ascii_dec a b) as [->|]; [|done].
  intros Hp [Hb Hs]%andb_true_iff. by rewrite Hb, (IH s).
Qed.

Lemma no_bearer_inside t :
  string_forall (fun c => negb (is_white_space c)) t = true ->
  String.prefix "Bearer " t = false.
Proof.
  intros Ht. destruct (String.prefix "Bearer " t) eqn:E; [|done].
  by pose proof (prefix_forall _ _ _ E Ht).
Qed.

Lemma split_from_whole t :
  string_forall (fun c => negb (is_white_space c)) t = true ->
  split_from "Bearer " 0 t = [t].
Proof.
  induction t as [|c t IH]; [done|]. intros Ht.
  cbn [split_from]. rewrite (no_bearer_inside _ Ht).
  cbn in Ht. apply andb_true_iff in Ht as [_ Ht]. by rewrite IH.
Qed.

Lemma append_empty s : "" +:+ s = s.
Proof. reflexivity. Qed.

(** No occurrence of the separator starts inside a token that is
    followed by one. *)
Lemma no_bearer_astride c a rest :
  string_forall (fun c => negb (is_white_space c)) (String c a) = true ->
  String.prefix "Bearer " (String c a +:+ "Bearer " +:+ rest) = false.
Proof.
  intros Ht.
  destruct a as [|c1 [|c2 [|c3 [|c4 [|c5 [|c6 a]]]]]];
    rewrite ?append_cons, ?append_empty; cbn [String.prefix];
    repeat match goal with
    | |- context [ascii_dec ?x ?y] => destruct (ascii_dec x y); try done; subst
    end.
  cbn in Ht. by rewrite ?andb_false_r in Ht.
Qed.

Lemma prefix_bearer rest : String.prefix "Bearer " ("Bearer " +:+ rest) = true.
Proof. rewrite !append_cons, append_empty. by destruct rest. Qed.

Lemma split_from_bearer rest :
  split_from "Bearer " 0 ("Bearer " +:+ rest) = "" :: split_from "Bearer " 0 rest.
Proof. rewrite !append_cons, append_empty. by destruct rest. Qed.

Lemma split_from_first t rest :
  string_forall (fun c => negb (is_white_space c)) t = true ->
  split_from "Bearer " 0 (t +:+ "Bearer " +:+ rest) = t :: split_from "Bearer " 0 rest.
Proof.
  induction t as [|c t IH]; [intros _; by rewrite append_empty, split_from_bearer|].
  intros Ht. rewrite append_cons. cbn [split_from].
  rewrite <- append_cons, (no_bearer_astride _ _ _ Ht).
  cbn in Ht. apply andb_true_iff in Ht as [_ Ht]. by rewrite IH.
Qed.

Lemma trim_clean t :
  string_forall (fun c => negb (is_white_space c)) t = true -> trim t = t.
Proof.
  intros Ht. unfold trim.
  assert (trimStart t = t) as ->.
  { destruct t as [|c t]; [done|]. cbn in *.
    apply andb_true_iff in Ht as [Hc _]. apply negb_true_iff in Hc. by rewrite Hc. }
  induction t as [|c t IH]; [done|]. cbn in *.
  apply andb_true_iff in Ht as [Hc Ht]. apply negb_true_iff in Hc.
  rewrite (IH Ht). destruct t; [by rewrite Hc|done].
Qed.

Lemma authenticateUser_second verifyToken h part :
  String.prefix "Bearer " h = true ->
  nth_error (split_str "Bearer " h) 1 = Some part ->
  trim part = part -> part <> "" ->
  authenticateUser verifyToken (Some h) =
  match verifyToken part with
  | Some decoded => Granted decoded
  | None => Denied 401 "Invalid token"
  end.
Proof.
  intros Hp Hpart Ht Hne. unfold authenticateUser. rewrite Hp, Hpart, Ht.
  assert (string_truthy h = true) as -> by (by destruct h).
  unfold string_truthy. by rewrite (string_eqb_false _ _ Hne).
Qed.

(** X18: a token sent as [Bearer <token>] reaches [verifyToken] as it was
    sent. For a token that is not empty and holds no white space, the
    middleware grants exactly the user [verifyToken] returns for it and
    denies with [Invalid token] when the verification throws. Whatever
    follows a second [Bearer ] in the header is ignored; and a header
    that repeats [Bearer ] at once is denied without consulting
    [verifyToken], whatever follows. *)
Theorem bearer_token_reaches_verifier verifyToken token :
  string_forall (fun c => negb (is_white_space c)) token = true ->
  token <> "" ->
  let outcome :=
    match verifyToken token with
    | Some decoded => Granted decoded
    | None => Denied 401 "Invalid token"
    end in
  authenticateUser verifyToken (Some ("Bearer " +:+ token)) = outcome
  /\ (forall rest,
        authenticateUser verifyToken (Some ("Bearer " +:+ token +:+ "Bearer " +:+ rest))
        = outcome)
  /\ (forall rest other,
        authenticateUser other (Some ("Bearer Bearer " +:+ rest)) = Denied 401 "Unauthorized").
Proof.
  intros Ht Hne outcome. split_and!.
  - apply authenticateUser_second; [apply prefix_bearer| |by apply trim_clean|done].
    unfold split_str. by rewrite split_from_bearer, split_from_whole.
  - intros rest.
    apply authenticateUser_second; [apply prefix_bearer| |by apply trim_clean|done].
    unfold split_str. by rewrite split_from_bearer, split_from_first.
  - intros rest other.
    change ("Bearer Bearer " +:+ rest) with ("Bearer " +:+ "Bearer " +:+ rest).
    unfold authenticateUser, split_str.
    rewrite prefix_bearer, !split_from_bearer. by rewrite !append_cons.
Qed.

(** X19: [authenticateAdmin] admits exactly the users [authenticateUser]
    grants whose decoded email is strictly equal to [ADMIN_EMAIL]; it
    answers 403 to a granted user whose email differs and passes every
    denial on. The comparison is between two values that may both be
    absent: with [ADMIN_EMAIL] not set, a verified token that carries no
    email is admitted as the administrator. *)
Theorem admin_is_who_matches_admin_email rt verifyToken authorization :
  (forall user,
     authenticateAdmin rt verifyToken authorization = Granted user <->
     authenticateUser verifyToken authorization = Granted user
     /\ d_email user = ADMIN_EMAIL rt)
  /\ (forall user,
        authenticateUser verifyToken authorization = Granted user ->
        d_email user <> ADMIN_EMAIL rt ->
        authenticateAdmin rt verifyToken authorization = Denied 403 "Admin access required")
  /\ (forall c error,
        authenticateUser verifyToken authorization = Denied c error ->
        authenticateAdmin rt verifyToken authorization = Denied c error)
  /\ (forall user,
        ADMIN_EMAIL rt = None ->
        authenticateUser verifyToken authorization = Granted user ->
        d_email user = None ->
        authenticateAdmin rt verifyToken authorization = Granted user).
Proof.
  unfold authenticateAdmin.
  destruct (authenticateUser verifyToken authorization) as [c e|u|e]; split_and!; try done.
  - intros user. split; [done|]. by intros [[=] _].
  - intros user. destruct (strict_eq (d_email u) (ADMIN_EMAIL rt)) eqn:E; cbn [negb].
    + apply strict_eq_true in E. split; [by intros [= <-]|by intros [[= <-] _]].
    + split; [done|]. intros [[= <-] E']. apply strict_eq_true in E'. congruence.
  - intros user [= <-] Hne.
    destruct (strict_eq (d_email u) (ADMIN_EMAIL rt)) eqn:E; [|done].
    by apply strict_eq_true in E.
  - intros user Hnone [= <-] He. by rewrite He, Hnone.
  - intros user. split; [done|]. by intros [[=] _].
Qed.

(* ===================================================================== *)
(** ** The administrator's routes *)
(* ===================================================================== *)

Lemma same_but_status_banned (m : gmap string User) id status uid :
  same_but_status (alter (set_status status) id m !! uid) (m !! uid).
Proof.
  rewrite lookup_alter. case_decide; [subst|]; destruct (m !! uid); by cbn.
Qed.

(** [initiate] reads of the buyer's account only the contact fields. *)
Lemma initiate_same_but_status rt uid productId uuid gw ts s1 s2 tr :
  products s1 = products s2 -> orders s1 = orders s2 ->
  same_but_status (users s1 !! uid) (users s2 !! uid) ->
  fst (initiate rt uid productId uuid gw ts (mkWorld s1 tr))
  = fst (initiate rt uid productId uuid gw ts (mkWorld s2 tr))
  /\ trace (snd (initiate rt uid productId uuid gw ts (mkWorld s1 tr)))
     = trace (snd (initiate rt uid productId uuid gw ts (mkWorld s2 tr))).
Proof.
  intros Hp Ho Hu.
  assert (Hc : forall pid, has_completed s1 uid pid = has_completed s2 uid pid)
    by (intros pid; unfold has_completed; by rewrite Ho).
  unfold initiate, try_catch.
  destruct (truthy productId); cbn [negb]; [|done].
  destruct productId as [| |b0|f|pid|xs|fs]; cbn [doc_id]; try done.
  do 6 step. rewrite Hp.
  destruct (products s2 !! pid) as [product|]; [|done].
  unfold same_but_status in Hu.
  destruct (users s1 !! uid) as [b1|], (users s2 !! uid) as [b2|]; try done.
  destruct Hu as (He & Hph & Hn & _).
  destruct (negb (String.eqb (p_status product) "approved")); [done|].
  do 2 step. rewrite Hc.
  destruct (negb (negb (has_completed s2 uid pid))); [done|].
  assert (cashfreeOrderPayload rt uid pid (make_orderId uuid) (orderAmount_of product) b1
          = cashfreeOrderPayload rt uid pid (make_orderId uuid) (orderAmount_of product) b2)
    as -> by (unfold cashfreeOrderPayload; by rewrite He, Hph, Hn).
  do 2 step.
  destruct gw as [errMsg|data]; [done|].
  do 2 step. by destruct data.
Qed.

Lemma encryptLink_run rt plain iv w :
  encryptLink rt plain iv w = (fst (encryptLink rt plain iv (mkWorld empty_store [])), w).
Proof.
  unfold encryptLink, bind, cipher_key. destruct (ENCRYPT_KEY rt); [|done].
  cbn. by destruct (aes_256_cbc_encrypt rt _ _ _).
Qed.

(** The answer of [createProduct], read off the caller's role, the body
    and the cipher. *)
Lemma createProduct_answer rt uid b iv newId ts s tr :
  fst (createProduct rt uid b iv newId ts (mkWorld s tr)) =
  Ok (match users s !! uid with
      | None => mkResponse 403 (BError "Only sellers can create products")
      | Some user =>
          if negb (String.eqb (u_role user) "seller") then
            mkResponse 403 (BError "Only sellers can create products")
          else if negb (opt_truthy (pb_title b)) || negb (opt_truthy (pb_description b))
                  || negb (num_truthy (pb_price b)) || negb (opt_truthy (pb_category b))
                  || negb (opt_truthy (pb_downloadLink b)) then
            mkResponse 400
              (BError "Missing required fields: title, description, price, category, downloadLink")
          else match fst (encryptLink rt (text (pb_downloadLink b)) iv
                            (mkWorld empty_store [])) with
               | Ok _ => mkResponse 201 (BProductCreated newId)
               | Throw _ => mkResponse 500 (BError "Failed to create product")
               end
      end).
Proof.
  unfold createProduct, try_catch. step.
  destruct (users s !! uid) as [user|]; [|done].
  destruct (negb (String.eqb (u_role user) "seller")); [done|].
  match goal with |- context [if ?c then _ else _] => destruct c end; [done|].
  destruct (fst (encryptLink rt (text (pb_downloadLink b)) iv (mkWorld empty_store [])))
    as [link|e] eqn:E.
  - erewrite bind_ok by (rewrite encryptLink_run, E; reflexivity).
    step. unfold bind at 1. unfold modify at 1. cbv beta iota. cbn [store trace].
    destruct (ADMIN_EMAIL rt) as [a|]; by do 2 step.
  - by erewrite bind_throw by (rewrite encryptLink_run, E; reflexivity).
Qed.

(** [createProduct] reads of the caller's account only the role. *)
Lemma createProduct_same_but_status rt uid b iv newId ts s1 s2 tr :
  same_but_status (users s1 !! uid) (users s2 !! uid) ->
  fst (createProduct rt uid b iv newId ts (mkWorld s1 tr))
  = fst (createProduct rt uid b iv newId ts (mkWorld s2 tr)).
Proof.
  intros Hu. rewrite !createProduct_answer. unfold same_but_status in Hu.
  destruct (users s1 !! uid) as [b1|], (users s2 !! uid) as [b2|]; try done.
  destruct Hu as (_ & _ & _ & Hr). by rewrite Hr.
Qed.

(** X29: a ban is recorded and nowhere enforced. [banUser] sets the
    status of the account to [banned] and changes nothing else; for the
    banned account [initiate] answers exactly as it did before the ban
    and makes the same gateway call, and [createProduct] answers exactly
    as it did before the ban: a banned buyer still buys and a banned
    seller still sells. *)
Theorem ban_is_not_enforced rt id s tr0 :
  let s' := store (snd (banUser id (mkWorld s tr0))) in
  (forall u, users s !! id = Some u ->
     users s' !! id = Some (set_status "banned" u)
     /\ (forall k, k <> id -> users s' !! k = users s !! k)
     /\ orders s' = orders s /\ products s' = products s)
  /\ (forall uid productId uuid gw ts tr,
        fst (initiate rt uid productId uuid gw ts (mkWorld s' tr))
        = fst (initiate rt uid productId uuid gw ts (mkWorld s tr))
        /\ trace (snd (initiate rt uid productId uuid gw ts (mkWorld s' tr)))
           = trace (snd (initiate rt uid productId uuid gw ts (mkWorld s tr))))
  /\ (forall uid b iv newId ts tr,
        fst (createProduct rt uid b iv newId ts (mkWorld s' tr))
        = fst (createProduct rt uid b iv newId ts (mkWorld s tr))).
Proof.
  intros s'. subst s'. rewrite banUser_run.
  destruct (users s !! id) as [u0|] eqn:Hu0; cbn [snd store].
  - split_and!.
    + intros u [= <-]. cbn [users orders products with_users]. split_and!; try done.
      * by rewrite lookup_alter_eq, Hu0.
      * intros k Hk. by rewrite lookup_alter_ne.
    + intros. apply initiate_same_but_status; try done. apply same_but_status_banned.
    + intros. apply createProduct_same_but_status; try done. apply same_but_status_banned.
  - by split_and!.
Qed.

Lemma parseFloat_number_truthy f :
  num_or (FNum (parseFloat_number f)) 10%float = if number_truthy f then f else 10%float.
Proof.
  unfold parseFloat_number, num_or, number_truthy.
  destruct (PrimFloat.eqb f 0%float) eqn:E; [reflexivity|]. by rewrite E.
Qed.

(** X15: the commission rate the administrator sets is the rate of the
    next settlement, unless it is 0, -0, NaN or null: then the rate
    stored is falsy and the settlement charges the default 10 percent. A
    request that gives no rate leaves the rate as it was. [adminConfig]
    touches no order, account or product. *)
Theorem configured_rate_is_charged commissionRate s tr :
  let s' := store (snd (adminConfig commissionRate (mkWorld s tr))) in
  (forall r, commissionRate = FNum r ->
     commissionRate_of (config s' !! "app_config") = (if number_truthy r then r else 10%float)
     /\ forall o, order_fee s' o
                  = PrimFloat.mul (o_amount o)
                      (PrimFloat.div (if number_truthy r then r else 10%float) 100%float))
  /\ (commissionRate = FNull -> commissionRate_of (config s' !! "app_config") = 10%float)
  /\ (commissionRate = FAbsent ->
      commissionRate_of (config s' !! "app_config")
      = commissionRate_of (config s !! "app_config"))
  /\ orders s' = orders s /\ users s' = users s /\ products s' = products s.
Proof.
  intros s'. subst s'. rewrite adminConfig_run. unfold order_fee.
  cbn [snd store config with_config].
  rewrite lookup_insert_eq. split_and!; try done.
  - intros r ->. cbn [commissionRate_update merge_config commissionRate_of c_commissionRate].
    rewrite parseFloat_number_truthy. by split.
  - by intros ->.
  - intros ->. cbn [commissionRate_update merge_config].
    destruct (config s !! "app_config") as [c|]; [done|]. reflexivity.
Qed.

Example configured_rate_demo :
  commissionRate_of
    (config (store (snd (adminConfig (FNum 15%float) (mkWorld Demo.ordered []))))
       !! "app_config") = 15%float
  /\ commissionRate_of
       (config (store (snd (adminConfig (FNum 0%float) (mkWorld Demo.ordered []))))
          !! "app_config") = 10%float
  /\ parseFloat_number (-0)%float = 0%float
  /\ orders (store (snd (handleCallback Demo.rt (Demo.event_text Demo.oid1 "SUCCESS")
                           (Demo.signature_of Demo.oid1 "SUCCESS" "1700000000")
                           (Some "1700000000") 5
                           (mkWorld (store (snd (adminConfig (FNum 0%float)
                                                   (mkWorld Demo.ordered [])))) []))))
       !! Demo.oid1
     = Some (complete_order 100%float 900%float 5 Demo.order1).
Proof. vm_compute. by split_and!. Qed.

Example banned_buyer_buys :
  fst (initiate Demo.rt "buyer1" (JStr "prod1") Demo.uuid1 Demo.session 4
         (mkWorld (store (snd (banUser "buyer1" (mkWorld (Demo.after Demo.setup) [])))) []))
  = Ok (mkResponse 201 (BSession (Some "session_1") Demo.oid1)).
Proof. vm_compute. reflexivity. Qed.

(* ===================================================================== *)
(** ** The further routes at work *)
(* ===================================================================== *)

Example split_str_demo :
  split_str "Bearer " "Bearer abc" = [""; "abc"]
  /\ split_str "Bearer " "Bearer Bearer abc" = [""; ""; "abc"]
  /\ split_str "Bearer " "Bearer abcBearer xyz" = [""; "abc"; "xyz"]
  /\ split_str "Bearer " "Basic abc" = ["Basic abc"]
  /\ split_str "Bearer " "Bearer " = [""; ""].
Proof. vm_compute. by split_and!. Qed.

Example trim_demo :
  trim "  a b  " = "a b" /\ trim "   " = "" /\ trim "ab" = "ab"
  /\ trim (String (ascii_of_nat 9) (String "x" (String (ascii_of_nat 160) ""))) = "x".
Proof. vm_compute. by split_and!. Qed.

Example authenticateUser_demo :
  authenticateUser Shop.verify None = Denied 401 "Unauthorized"
  /\ authenticateUser Shop.verify (Some "token-of-buyer1") = Denied 401 "Unauthorized"
  /\ authenticateUser Shop.verify (Some "bearer token-of-buyer1") = Denied 401 "Unauthorized"
  /\ authenticateUser Shop.verify (Some "Bearer ") = Denied 401 "Unauthorized"
  /\ authenticateUser Shop.verify (Some "Bearer    ") = Denied 401 "Unauthorized"
  /\ authenticateUser Shop.verify (Some "Bearer   token-of-buyer1  ") = Granted Shop.buyer
  /\ authenticateUser Shop.verify (Some "Bearer stolen") = Denied 401 "Invalid token".
Proof. vm_compute. by split_and!. Qed.

(** With [ADMIN_EMAIL] not set, the token without an email passes for the
    administrator and may delete the seller's product. *)
Example admin_email_not_set :
  authenticateAdmin Shop.rt_no_admin Shop.verify (Some "Bearer token-without-email")
  = Granted Shop.anonymous
  /\ authenticateAdmin Demo.rt Shop.verify (Some "Bearer token-without-email")
     = Denied 403 "Admin access required"
  /\ authenticateAdmin Demo.rt Shop.verify (Some "Bearer token-of-admin") = Granted Shop.admin
  /\ fst (deleteProduct Shop.rt_no_admin Shop.anonymous "prod1" (mkWorld Demo.ordered []))
     = Ok (mkReply 200 ASuccess)
  /\ fst (deleteProduct Demo.rt Shop.anonymous "prod1" (mkWorld Demo.ordered []))
     = Ok (mkReply 403 (AError "Not authorized to delete this product")).
Proof. vm_compute. by split_and!. Qed.

Example queryStatus_demo :
  fst (queryStatus "buyer1" Demo.oid1 (mkWorld Demo.ordered []))
  = Ok (mkReply 200 (AOrderStatus "pending" "prod1"))
  /\ fst (queryStatus "buyer1" Demo.oid1 (mkWorld Demo.paid []))
     = Ok (mkReply 200 (AOrderStatus "completed" "prod1"))
  /\ fst (queryStatus "seller1" Demo.oid1 (mkWorld Demo.paid []))
     = Ok (mkReply 403 (AError "Access denied to this order"))
  /\ fst (queryStatus "buyer1" Demo.oid2 (mkWorld Demo.paid []))
     = Ok (mkReply 404 (AError "Order not found")).
Proof. vm_compute. by split_and!. Qed.

Example wishlist_demo :
  u_wishlist <$>
    users (store (snd (toggleWishlist "buyer1" (Some "prod1") (mkWorld Demo.paid []))))
      !! "buyer1"
  = Some ["prod1"]
  /\ fst (toggleWishlist "buyer1" None (mkWorld Demo.paid []))
     = Ok (mkReply 400 (AError "productId is required"))
  /\ fst (toggleWishlist "nobody" (Some "prod1") (mkWorld Demo.paid []))
     = Ok (mkReply 404 (AError "User not found")).
Proof. vm_compute. by split_and!. Qed.

Example sanitizeProduct_demo :
  sanitizeProduct
    [("id", JStr "prod1"); ("title", JStr "Icon pack"); ("downloadLink", JStr Demo.envelope1);
     ("price", JNum 1000%float)]
  = [("id", JStr "prod1"); ("title", JStr "Icon pack"); ("price", JNum 1000%float)].
Proof. reflexivity. Qed.

Lemma shop_deleted : Shop.deleted = with_products (delete "prod1") Demo.ordered.
Proof. reflexivity. Qed.


Lemma shop_deleted_reached : reached Demo.rt Shop.deleted.
Proof.
  apply (reached_visit Demo.rt Demo.ordered (VDelete Shop.seller "prod1") 5 []).
  apply reachable_reached, serve_all_reachable. constructor.
Qed.


(** X3 at work: a FAILED callback marks the pending demo order failed. *)
Lemma failed_callback_marks_order_witness :
  orders (store (snd (handleCallback Demo.rt (Demo.event_text Demo.oid1 "FAILED")
                        (Demo.signature_of Demo.oid1 "FAILED" "1700000000")
                        (Some "1700000000") 5 (mkWorld Demo.ordered []))))
  = <[Demo.oid1 := fail_order 5 Demo.order1]> (orders Demo.ordered).
Proof.
  refine (proj1 (proj2 (failed_callback_marks_order Demo.rt _ _ _ 5 Demo.oid1 Demo.order1
                          Demo.ordered [] (demo_authentic _ _) demo_carries_failed _ _))).
  - vm_compute. reflexivity.
  - vm_compute. discriminate.
Defined.



(** X7 at work: the token issued at clock time 1000 redirects at 601000
    and has expired at 601001. *)
Lemma token_lives_ten_minutes_witness :
  fst (redeem Demo.token1 601000 8
         (snd (requestToken Demo.rt "buyer1" "prod1" "33333333-3333-4333-8333-333333333333"
                 Demo.iv0 1000 7 (mkWorld Demo.paid []))))
  = Ok (mkResponse 302 (BRedirect Demo.location))
  /\ fst (redeem Demo.token1 601001 8
            (snd (requestToken Demo.rt "buyer1" "prod1" "33333333-3333-4333-8333-333333333333"
                    Demo.iv0 1000 7 (mkWorld Demo.paid []))))
     = Ok (mkResponse 410 (BError "Download link has expired")).
Proof.
  split.
  - refine (proj1 (proj1 (token_lives_ten_minutes Demo.rt "buyer1" "prod1" Demo.oid1
                     (complete_order 100%float 900%float 5 Demo.order1)
                     (count_sale Demo.product1) Demo.location Demo.iv0 Demo.envelope1
                     "33333333-3333-4333-8333-333333333333" Demo.iv0 1000 7 601000 8
                     Demo.paid demo_cipher_inverts _ _ _ _ _ _ demo_envelope) _)).
    all: vm_compute; try reflexivity. discriminate.
  - refine (proj1 (proj2 (token_lives_ten_minutes Demo.rt "buyer1" "prod1" Demo.oid1
                     (complete_order 100%float 900%float 5 Demo.order1)
                     (count_sale Demo.product1) Demo.location Demo.iv0 Demo.envelope1
                     "33333333-3333-4333-8333-333333333333" Demo.iv0 1000 7 601001 8
                     Demo.paid demo_cipher_inverts _ _ _ _ _ _ demo_envelope) _)).
    all: vm_compute; reflexivity.
Defined.


(** X10 at work: the product whose link was stored unencrypted issues no
    token to the buyer who paid for it. *)
Lemma unreadable_link_issues_no_token_witness :
  requestToken Demo.rt "buyer1" "prod1" "33333333-3333-4333-8333-333333333333" Demo.iv0
    1000 7 (mkWorld Shop.unencrypted [])
  = (Ok (mkResponse 500 (BError "Failed to generate download token")),
     mkWorld Shop.unencrypted [EvQuery "orders"; EvGet "products" "prod1"]).
Proof.
  refine (proj2 (unreadable_link_issues_no_token Demo.rt "buyer1" "prod1"
                   Shop.product_unencrypted "33333333-3333-4333-8333-333333333333" Demo.iv0
                   1000 7 Shop.unencrypted [] _ _) "files.example/p1.zip" _ _ _).
  - vm_compute. reflexivity.
  - vm_compute. reflexivity.
  - reflexivity.
  - discriminate.
  - left. vm_compute. reflexivity.
Defined.



(** X16 at work: with the demo product deleted, the SUCCESS callback for
    the demo order leaves the store as it was. *)
Lemma open_order_settles_unless_product_deleted_witness :
  store (snd (handleCallback Demo.rt (Demo.event_text Demo.oid1 "SUCCESS")
                (Demo.signature_of Demo.oid1 "SUCCESS" "1700000000") (Some "1700000000") 6
                (mkWorld Shop.deleted [])))
  = Shop.deleted.
Proof.
  destruct (open_order_settles_unless_product_deleted Demo.rt
              (Demo.event_text Demo.oid1 "SUCCESS")
              (Demo.signature_of Demo.oid1 "SUCCESS" "1700000000") (Some "1700000000")
              Demo.oid1 Demo.order1 6 Shop.deleted [] shop_deleted_reached
              (demo_authentic _ _) demo_carries_success eq_refl
              ltac:(vm_compute; discriminate))
    as [([p Hp] & _)|(_ & _ & E)].
  - vm_compute in Hp. discriminate Hp.
  - exact E.
Defined.

(** X18 at work: the buyer's token reaches the verifier. *)
Lemma bearer_token_reaches_verifier_witness :
  authenticateUser Shop.verify (Some "Bearer token-of-buyer1") = Granted Shop.buyer
  /\ authenticateUser Shop.verify (Some "Bearer token-of-buyer1Bearer token-of-admin")
     = Granted Shop.buyer.
Proof.
  split.
  - refine (proj1 (bearer_token_reaches_verifier Shop.verify "token-of-buyer1" _ _)).
    + vm_compute. reflexivity.
    + discriminate.
  - refine (proj1 (proj2 (bearer_token_reaches_verifier Shop.verify "token-of-buyer1" _ _))
              "token-of-admin").
    + vm_compute. reflexivity.
    + discriminate.
Defined.

(** X21 at work: the buyer sees the demo order pending, then completed. *)
Lemma status_follows_the_callback_witness :
  fst (queryStatus "buyer1" Demo.oid1 (mkWorld Demo.ordered []))
  = Ok (mkReply 200 (AOrderStatus "pending" "prod1"))
  /\ fst (queryStatus "buyer1" Demo.oid1
            (snd (handleCallback Demo.rt (Demo.event_text Demo.oid1 "SUCCESS")
                    (Demo.signature_of Demo.oid1 "SUCCESS" "1700000000")
                    (Some "1700000000") 5 (mkWorld Demo.ordered []))))
     = Ok (mkReply 200 (AOrderStatus "completed" "prod1")).
Proof.
  pose proof (status_follows_the_callback Demo.rt (Demo.event_text Demo.oid1 "SUCCESS")
                (Demo.signature_of Demo.oid1 "SUCCESS" "1700000000") (Some "1700000000")
                Demo.oid1 Demo.order1 Demo.ordered 5 [] (demo_authentic _ _) eq_refl
                ltac:(vm_compute; discriminate)) as (H1 & H2 & _).
  split; [exact H1|].
  refine (H2 Demo.seller1 Demo.buyer1 Demo.product1 demo_carries_success _ _ _);
    vm_compute; reflexivity.
Defined.

(** X23 at work: once the seller has deleted the demo product, the buyer
    cannot order it. *)
Lemma deleted_product_is_cut_off_witness :
  initiate Demo.rt "buyer1" (JStr "prod1") Demo.uuid2 Demo.session 6 (mkWorld Shop.deleted [])
  = (Ok (mkResponse 404 (BError "Product not found")),
     mkWorld Shop.deleted [EvGet "products" "prod1"; EvGet "users" "buyer1"]).
Proof.
  refine (proj1 (deleted_product_is_cut_off Demo.rt Shop.seller "prod1" Demo.product1
                   Demo.ordered [] _ _) "buyer1" Demo.uuid2 Demo.session 6 [] _).
  - vm_compute. reflexivity.
  - reflexivity.
  - discriminate.
Defined.

(** X25 at work: the first toggle puts the demo product in the buyer's
    wishlist. *)
Lemma toggle_flips_membership_witness :
  fst (toggleWishlist "buyer1" (Some "prod1") (mkWorld Demo.ordered []))
  = Ok (mkReply 200 (AAdded true)).
Proof.
  refine (proj1 (toggle_flips_membership "buyer1" "prod1" Demo.buyer1 Demo.ordered [] _ _)).
  - vm_compute. reflexivity.
  - discriminate.
Defined.

(** X26 at work: two toggles leave the demo store as it was. *)
Lemma toggle_twice_restores_witness :
  store (snd (toggleWishlist "buyer1" (Some "prod1")
                (snd (toggleWishlist "buyer1" (Some "prod1") (mkWorld Demo.ordered [])))))
  = Demo.ordered.
Proof.
  refine (proj2 (proj2 (proj1 (toggle_twice_restores "buyer1" "prod1" Demo.buyer1
                                 Demo.ordered [] _ _) _))).
  - vm_compute. reflexivity.
  - discriminate.
  - intros [].
Defined.

(** X27 at work: the demo seller's saved token is pushed the sale. *)
Lemma saved_token_gets_the_sale_notice_witness :
  In (EvPush "fcm-of-seller1" NewSale)
    (trace (snd (handleCallback Demo.rt (Demo.event_text Demo.oid1 "SUCCESS")
                   (Demo.signature_of Demo.oid1 "SUCCESS" "1700000000") (Some "1700000000") 5
                   (mkWorld
                      (store (snd (saveToken "seller1" (Some "fcm-of-seller1")
                                     (mkWorld Demo.ordered []))))
                      [])))).
Proof.
  refine (proj1 (proj2 (saved_token_gets_the_sale_notice Demo.rt _ _ _ Demo.oid1 Demo.order1
                          Demo.seller1 Demo.buyer1 Demo.product1 "fcm-of-seller1"
                          Demo.ordered 5 (demo_authentic _ _) demo_carries_success
                          _ _ _ _ _ _))).
  all: vm_compute; try reflexivity; discriminate.
Defined.
